(** * sunpy GOES/XRS instrument module [goes.py]

    A shallow embedding of the numerical core of [goes.py]: the flux
    preparation of [goes_chianti_tem], the table lookups
    [_goes_get_chianti_temp] and [_goes_get_chianti_em], the energetics
    [calc_rad_loss] and [goes_lx] with their time integration helper
    [_time_intervals], and the three lightcurve wrappers [temp_em],
    [rad_loss_rate] and [xray_luminosity].

    Conventions.
    - A numpy [float64] is an IEEE 754 binary64 value, here a [spec_float]
      with precision 53 and maximal exponent 1024.  Elementwise [*], [/],
      [<], [<=] on arrays are the IEEE operations applied pointwise.
    - A one-dimensional numpy array is a [list]; index assignment uses
      list insert, slices use [take] and [drop].
    - A [datetime64[ms]] is its 64-bit count of milliseconds, a [Z].
    - A Python call either returns a value or raises: [result A].
    - The module is Python 2 code (octal literal [06], [error.message]),
      and is read with Python 2 semantics. *)

From Stdlib Require Import ZArith List Bool Lia Ascii String.
From Stdlib Require Import Floats.SpecFloat.
From stdpp Require Import gmap strings list pretty.

(** ** IEEE 754 binary64 *)

Abbreviation float := spec_float.

Module F64.
Definition prec : Z := 53.
Definition emax : Z := 1024.

Definition add : float → float → float := SFadd prec emax.
Definition sub : float → float → float := SFsub prec emax.
Definition mul : float → float → float := SFmul prec emax.
Definition div : float → float → float := SFdiv prec emax.
Definition ltb : float → float → bool := SFltb.
Definition leb : float → float → bool := SFleb.
(** [a > b] is [b < a]. *)
Definition gtb (a b : float) : bool := SFltb b a.

Definition is_nan (x : float) : bool :=
  match x with S754_nan => true | _ => false end.

(** Conversion of a 64-bit integer to float64 (round to nearest even). *)
Definition of_Z (z : Z) : float := binary_normalize prec emax z 0 false.

(** The float64 denoted by the decimal literal [m * 10^-k].  Both [m]
    and [10^k] are exactly representable for the literals of this module
    ([|m| < 2^53], [k <= 22]), so one correctly rounded division yields
    the nearest binary64 value, which is what the Python parser yields. *)
Definition dec (m : Z) (k : nat) : float :=
  div (of_Z m) (of_Z (10 ^ Z.of_nat k)).

Definition zero : float := S754_zero false.
Definition neg_infinity : float := S754_infinity true.
Definition nan : float := S754_nan.
End F64.

(** ** Exceptions *)

(** The Python exception classes raised along the modelled paths. *)
Inductive pyclass : Type :=
| ValueError | IOError | TypeError | NameError | AttributeError
| KeyError | IndexError.

(** One constructor per raise site; the comment quotes the message in
    the source.  The last group are raised by the libraries underneath. *)
Inductive exn : Type :=
| SatelliteInvalid        (* "satellite must be the number of a valid GOES satellite (>1)." *)
| SatelliteNotNumeric     (* int(satellite) on a non numeric string *)
| FluxLengthMismatch      (* "longflux and shortflux must have same number of elements." *)
| AbundancesInvalid       (* "abundances must be a string equalling 'coronal' or 'photospheric'." *)
| FluxratioOutOfRange     (* "For GOES {0}, all values in fluxratio input must be within the range {1} - {2}." *)
| TempLengthMismatch      (* "longflux and temp must have same number of elements." *)
| TempOutOfRange          (* "All values in temp must be within the range {0} - {1} MK." *)
| ObstimeLengthMismatch   (* "temp, em, and obstime must all have same number of elements." /
                             "longflux, shortflux, and obstime must all have same number of elements." *)
| NotChronological        (* "times in obstime must be in chronological order." *)
| CumulativeWithoutObstime (* "cumulative keyword is True but obstime keyword is None. ..." *)
| ObstimeTooShort         (* "obstime must have 2 or more elements." *)
| NotGOESLightCurve       (* "goeslc must be a GOESLightCurve object." *)
| NameNotDefined (name : string)   (* NameError: name '...' is not defined *)
| AttributeMissing (name : string) (* AttributeError re-raised by rad_loss_rate *)
| BroadcastMismatch       (* numpy: operands could not be broadcast together *)
| ZeroSizeReduction       (* numpy: zero-size array to reduction operation *)
| FileUnreadable (file : string)   (* open() failed *)
| ColumnMissing (label : string)   (* row[label] of a DictReader row *)
| FieldMissing (i : nat)           (* row[i] of a reader row *)
| IndexOutOfRange                  (* x[i] past the end *)
| SplineInputInvalid.              (* FITPACK: error on input data *)

Definition exn_class (e : exn) : pyclass :=
  match e with
  | CumulativeWithoutObstime | ObstimeTooShort | FileUnreadable _ => IOError
  | NotGOESLightCurve => TypeError
  | NameNotDefined _ => NameError
  | AttributeMissing _ => AttributeError
  | ColumnMissing _ => KeyError
  | FieldMissing _ | IndexOutOfRange => IndexError
  | _ => ValueError
  end.

(** The language-neutral taxonomy of the specification (its section 7),
    by cause rather than by Python class. *)
Inductive spec_kind : Type :=
| ValidationError | DomainError | TypeErrorClass | OtherError.

Definition kind_of (e : exn) : spec_kind :=
  match e with
  | SatelliteInvalid | FluxLengthMismatch | AbundancesInvalid
  | TempLengthMismatch | ObstimeLengthMismatch | NotChronological
  | CumulativeWithoutObstime | ObstimeTooShort => ValidationError
  | FluxratioOutOfRange | TempOutOfRange => DomainError
  | NotGOESLightCurve => TypeErrorClass
  | _ => OtherError
  end.

Inductive result (A : Type) : Type :=
| Ok (a : A)
| Raise (e : exn).
Arguments Ok {A} a.
Arguments Raise {A} e.

Definition bind {A B} (m : result A) (f : A → result B) : result B :=
  match m with Ok a => f a | Raise e => Raise e end.

Notation "'let*' x ':=' m 'in' k" := (bind m (λ x, k))
  (at level 10, x name, m at level 100, k at level 200, only parsing).
Notation "'do*' m 'in' k" := (bind m (λ _, k))
  (at level 10, m at level 100, k at level 200, only parsing).

Definition is_Ok {A} (r : result A) : bool :=
  match r with Ok _ => true | Raise _ => false end.

(** [if c: raise e] *)
Definition raise_if (c : bool) (e : exn) : result unit :=
  if c then Raise e else Ok tt.

(** A [for] loop threading an accumulator, stopping at the first raise. *)
Fixpoint for_each {A S} (body : S → A → result S) (s : S) (xs : list A)
  : result S :=
  match xs with
  | [] => Ok s
  | x :: xs' => let* s' := body s x in for_each body s' xs'
  end.

(** ** numpy on one-dimensional float64 arrays *)

Module np.
(** A binary ufunc on two 1-d arrays: equal shapes combine pointwise, a
    length-one operand is stretched, anything else raises. *)
Definition broadcast {A B C} (f : A → B → C) (a : list A) (b : list B)
  : result (list C) :=
  if Nat.eqb (length a) (length b) then Ok (zip_with f a b)
  else match a, b with
       | [x], _ => Ok (f x <$> b)
       | _, [y] => Ok ((λ x, f x y) <$> a)
       | _, _ => Raise BroadcastMismatch
       end.

Definition multiply := broadcast F64.mul.
Definition divide := broadcast F64.div.
Definition logical_or := broadcast orb.

(** [numpy.minimum]: [(a < b || isnan(a)) ? a : b], and dually. *)
Definition minimum (a b : float) : float :=
  if F64.ltb a b || F64.is_nan a then a else b.
Definition maximum (a b : float) : float :=
  if F64.gtb a b || F64.is_nan a then a else b.

(** [numpy.min] and [numpy.max] reduce from the first element; both
    propagate NaN and raise on an empty array. *)
Definition min (a : list float) : result float :=
  match a with
  | [] => Raise ZeroSizeReduction
  | x :: r => Ok (fold_left minimum r x)
  end.
Definition max (a : list float) : result float :=
  match a with
  | [] => Raise ZeroSizeReduction
  | x :: r => Ok (fold_left maximum r x)
  end.

(** [a[mask] = v] for a boolean mask of the shape of [a]. *)
Definition mask_assign (a : list float) (mask : list bool) (v : float)
  : list float :=
  zip_with (λ x (b : bool), if b then v else x) a mask.

(** *** datetime64[ms] and timedelta64[ms] *)

(** Two's complement wrap-around of 64-bit integer arithmetic. *)
Definition wrap64 (z : Z) : Z := ((z + 2 ^ 63) `mod` 2 ^ 64 - 2 ^ 63)%Z.

(** [datetime64 - datetime64] gives a [timedelta64]. *)
Definition td_sub (a b : Z) : Z := wrap64 (a - b).

(** [timedelta64 / int] stays a [timedelta64]: the integer loop of
    [true_divide] divides the tick counts as C does, truncating toward
    zero. *)
Definition td_div (a k : Z) : Z := (a ÷ k)%Z.
End np.

(** ** [_time_intervals] *)

(** [dt.astype(float) / 1e3] on one element. *)
Definition ms_to_s (d : Z) : float := F64.div (F64.of_Z d) (F64.dec 1000 0).

Definition _time_intervals (obstime : list Z) : result (list float) :=
  let n := length obstime in
  let* dt :=
       (if n <? 2 then Raise ObstimeTooShort
        else if n =? 2 then
          let dt := np.td_div (np.td_sub (nth 1 obstime 0%Z) (nth 0 obstime 0%Z)) 2 in
          Ok [dt; dt]
        else
          (* obstime[2:] - obstime[:-2] *)
          let dt := zip_with (λ a b, np.td_div (np.td_sub a b) 2)
                             (drop 2 obstime) (take (n - 2) obstime) in
          let dt := np.td_div (np.td_sub (nth 1 obstime 0%Z) (nth 0 obstime 0%Z)) 2 :: dt in
          let dt := dt ++ [np.td_div (np.td_sub (nth (n - 1) obstime 0%Z)
                                                (nth (n - 2) obstime 0%Z)) 2] in
          Ok dt) in
  Ok (ms_to_s <$> dt).


(** ** Dates *)

(** A naive [datetime.datetime]; Python orders them field by field. *)
Record datetime : Type := Datetime {
  year : Z; month : Z; day : Z;
  hour : Z; minute : Z; second : Z; microsecond : Z
}.

Definition datetime_fields (d : datetime) : list Z :=
  [year d; month d; day d; hour d; minute d; second d; microsecond d].

Fixpoint lex_compare (a b : list Z) : comparison :=
  match a, b with
  | x :: a', y :: b' =>
      match (x ?= y)%Z with Eq => lex_compare a' b' | c => c end
  | [], [] => Eq
  | [], _ :: _ => Lt
  | _ :: _, [] => Gt
  end.

Definition datetime_ltb (a b : datetime) : bool :=
  match lex_compare (datetime_fields a) (datetime_fields b) with
  | Lt => true
  | _ => false
  end.

(** [datetime.datetime(1983, 06, 28)] *)
Definition goes6_recalibration : datetime := Datetime 1983 6 28 0 0 0 0.

(** ** The [satellite] argument *)

(** Callers pass the satellite number as an [int]; [temp_em] passes the
    second word of the [TELESCOP] header, a [str]. *)
Inductive pysat : Type :=
| SatInt (n : Z)
| SatStr (s : string).

(** Python 2 orders a number before any string and never finds them
    equal. *)
Definition sat_ltb (s : pysat) (k : Z) : bool :=
  match s with SatInt n => (n <? k)%Z | SatStr _ => false end.
Definition sat_gtb (s : pysat) (k : Z) : bool :=
  match s with SatInt n => (k <? n)%Z | SatStr _ => true end.
Definition sat_eqb (s : pysat) (k : Z) : bool :=
  match s with SatInt n => (n =? k)%Z | SatStr _ => false end.

Definition is_digit (c : ascii) : bool :=
  let n := nat_of_ascii c in (48 <=? n) && (n <=? 57).
Definition is_space (c : ascii) : bool :=
  let n := nat_of_ascii c in (n =? 32) || ((9 <=? n) && (n <=? 13)).

Fixpoint drop_while {A} (p : A → bool) (l : list A) : list A :=
  match l with
  | x :: l' => if p x then drop_while p l' else l
  | [] => []
  end.

(** The strings [int()] accepts in base 10: blanks, an optional sign, one
    or more digits, blanks. *)
Definition is_int_literal (s : string) : bool :=
  let cs := rev (drop_while is_space (rev (drop_while is_space (list_ascii_of_string s)))) in
  let ds := match cs with
            | c :: r => if (nat_of_ascii c =? 43) || (nat_of_ascii c =? 45) then r else cs
            | [] => []
            end in
  match ds with
  | [] => false
  | _ => forallb is_digit ds
  end.

(** [int(satellite)]: the value is discarded, only a raise matters. *)
Definition py_int (s : pysat) : result unit :=
  match s with
  | SatInt _ => Ok tt
  | SatStr t => raise_if (negb (is_int_literal t)) SatelliteNotNumeric
  end.

(** ["{0}".format(satellite)] *)
Definition sat_format (s : pysat) : string :=
  match s with SatInt n => pretty n | SatStr t => t end.

(** ** What the module takes from its libraries and its data files *)

Class External : Type := {
  (** [numpy.sum] of a 1-d float64 array (pairwise summation). *)
  np_sum : list float → float;
  (** [numpy.log10] on one element. *)
  np_log10 : float → float;
  (** [10.**x] on one element. *)
  np_power10 : float → float;
  (** [scipy.interpolate.splrep(x, y, s=0)] and the knots it returns. *)
  tck : Type;
  splrep : list float → list float → result tck;
  (** [scipy.interpolate.splev(x, tck, der=0)] on one element; it
      extrapolates outside the knots. *)
  splev1 : float → tck → float;
  (** The rows of a reference file as [csv.DictReader(delimiter=";")]
      yields them after the leading comment lines, fields read by
      [float]. *)
  dict_rows : string → result (list (gmap string float));
  (** The rows of a reference file as [csv.reader(delimiter=" ")] yields
      them. *)
  list_rows : string → result (list (list float));
  (** [sun.constants.au.value] and [sun.sunearth_distance(t)]. *)
  au : float;
  sunearth_distance : datetime → float
}.

Definition splev `{External} (x : list float) (spline : tck) : list float :=
  (λ v, splev1 v spline) <$> x.

Definition FILE_TEMP_COR : string := "goes_chianti_temp_cor.csv".
Definition FILE_TEMP_PHO : string := "goes_chianti_temp_pho.csv".
Definition FILE_EM_COR : string := "goes_chianti_em_cor.csv".
Definition FILE_EM_PHO : string := "goes_chianti_em_pho.csv".
Definition FILE_RAD_COR : string := "chianti_rad_loss.csv".

(** The loop [for row in csvreader: a.append(float(row[k1]));
    b.append(float(row[k2]))]. *)
Definition read_columns (rows : list (gmap string float)) (k1 k2 : string)
  : result (list float * list float) :=
  for_each (λ '(a, b) (row : gmap string float),
              match row !! k1, row !! k2 with
              | Some x, Some y => Ok (a ++ [x], b ++ [y])
              | None, _ => Raise (ColumnMissing k1)
              | _, None => Raise (ColumnMissing k2)
              end)
           ([], []) rows.

Definition read_fields (rows : list (list float)) (i1 i2 : nat)
  : result (list float * list float) :=
  for_each (λ '(a, b) (row : list float),
              match row !! i1, row !! i2 with
              | Some x, Some y => Ok (a ++ [x], b ++ [y])
              | None, _ => Raise (FieldMissing i1)
              | _, None => Raise (FieldMissing i2)
              end)
           ([], []) rows.

(** [if abundances == "coronal": ... elif abundances == "photospheric":
    ... else: raise ValueError] *)
Definition abundance_file (abundances cor pho : string) : result string :=
  if String.eqb abundances "coronal" then Ok cor
  else if String.eqb abundances "photospheric" then Ok pho
  else Raise AbundancesInvalid.

(** [np.min(x) < np.min(model) or np.max(x) > np.max(model)] *)
Definition outside_table (x model : list float) : result bool :=
  let* lo := np.min x in
  let* mlo := np.min model in
  if F64.ltb lo mlo then Ok true
  else
    let* hi := np.max x in
    let* mhi := np.max model in
    Ok (F64.gtb hi mhi).

(** ** [goes_chianti_tem] *)

Section Estimators.
Context `{External}.

(** Opening a reference file and reading the temperature column and the
    column [label] of every row. *)
Definition load_table (data_file label : string)
    : result (list float * list float) :=
  let* rows := dict_rows data_file in
  read_columns rows "log10temp_MK" label.

(** [_goes_get_chianti_temp(fluxratio, satellite, abundances)].  The
    [check_download_file] calls only fetch the reference files; a file
    that is still missing shows as [dict_rows] raising. *)
Definition _goes_get_chianti_temp (fluxratio : list float)
    (satellite : pysat) (abundances : string) : result (list float) :=
  do* py_int satellite in
  do* raise_if (sat_ltb satellite 1) SatelliteInvalid in
  let* data_file := abundance_file abundances FILE_TEMP_COR FILE_TEMP_PHO in
  let label := ("ratioGOES" +:+ sat_format satellite)%string in
  let* table := load_table data_file label in
  let '(modeltemp, modelratio) := table in
  let* outside := outside_table fluxratio modelratio in
  do* raise_if outside FluxratioOutOfRange in
  let* spline := splrep modelratio modeltemp in
  Ok (np_power10 <$> splev fluxratio spline).

(** [_goes_get_chianti_em(longflux, temp, satellite, abundances)] *)
Definition _goes_get_chianti_em (longflux temp : list float)
    (satellite : pysat) (abundances : string) : result (list float) :=
  do* py_int satellite in
  do* raise_if (sat_ltb satellite 1) SatelliteInvalid in
  let* data_file := abundance_file abundances FILE_EM_COR FILE_EM_PHO in
  do* raise_if (negb (length longflux =? length temp)) TempLengthMismatch in
  let label := ("longfluxGOES" +:+ sat_format satellite)%string in
  let* table := load_table data_file label in
  let '(modeltemp, modelflux) := table in
  let log10temp := np_log10 <$> temp in
  let* outside := outside_table log10temp modeltemp in
  let* outside :=
    (if outside then Ok true
     else let* lo := np.min log10temp in Ok (F64.is_nan lo)) in
  do* raise_if outside TempOutOfRange in
  let* spline := splrep modeltemp modelflux in
  let denom := splev log10temp spline in
  let* quot := np.divide longflux denom in
  Ok ((λ q, F64.mul q (F64.of_Z (10 ^ 55))) <$> quot).

(** The data preparation of [goes_chianti_tem], one definition per
    variable of the source. *)
Definition longflux_corrected (longflux : list float) (satellite : pysat)
    (date : datetime) : list float :=
  let longflux_corrected :=
    if datetime_ltb date goes6_recalibration && sat_eqb satellite 6
    then (λ x, F64.mul x (F64.div (F64.dec 443 2) (F64.dec 532 2))) <$> longflux
    else longflux in
  if sat_gtb satellite 7
  then (λ x, F64.div x (F64.dec 7 1)) <$> longflux_corrected
  else longflux_corrected.

Definition shortflux_corrected (shortflux : list float) (satellite : pysat)
    : list float :=
  if sat_gtb satellite 7
  then (λ x, F64.div x (F64.dec 85 2)) <$> shortflux
  else shortflux.

Definition fluxratio (shortflux_corrected longflux_corrected : list float)
    : result (list float) :=
  let* index :=
    np.logical_or ((λ x, F64.ltb x (F64.dec 1 10)) <$> shortflux_corrected)
                  ((λ x, F64.ltb x (F64.dec 3 8)) <$> longflux_corrected) in
  let* fluxratio := np.divide shortflux_corrected longflux_corrected in
  Ok (np.mask_assign fluxratio index (F64.dec 3 3)).

(** [goes_chianti_tem(longflux, shortflux, satellite, date, abundances)];
    [date] is the value [parse_time] returned. *)
Definition goes_chianti_tem (longflux shortflux : list float)
    (satellite : pysat) (date : datetime) (abundances : string)
    : result (list float * list float) :=
  do* py_int satellite in
  do* raise_if (sat_ltb satellite 1) SatelliteInvalid in
  do* raise_if (negb (length longflux =? length shortflux))
               FluxLengthMismatch in
  let longflux_corrected := longflux_corrected longflux satellite date in
  let shortflux_corrected := shortflux_corrected shortflux satellite in
  let* fluxratio := fluxratio shortflux_corrected longflux_corrected in
  let* temp := _goes_get_chianti_temp fluxratio satellite abundances in
  let* em := _goes_get_chianti_em longflux_corrected temp satellite
                                  abundances in
  Ok (temp, em).

(** ** [calc_rad_loss] and [goes_lx] *)

(** The values of the returned dictionaries. *)
Inductive pyvalue : Type :=
| VArr (a : list float)
| VNum (x : float).

(** [n = len(obstime); c = np.zeros(n);
    for i in range(n): c[i] = np.sum(rate[:i+1]*dt[:i+1])] *)
Definition cumulative_sums (rate dt : list float) (n : nat)
    : result (list float) :=
  for_each (λ (c : list float) (i : nat),
              let* prod := np.multiply (take (i + 1) rate) (take (i + 1) dt) in
              Ok (<[i := np_sum prod]> c))
           (replicate n F64.zero) (seq 0 n).

(** [len(a) != len(b) != len(c)]: a chained comparison, that is
    [len(a) != len(b) and len(b) != len(c)]. *)
Definition lengths_differ (a b c : nat) : bool :=
  negb (a =? b) && negb (b =? c).

(** [dt = _time_intervals(obstime)] followed by the check
    [np.min(dt) <= 0]. *)
Definition checked_intervals (obstime : list Z) : result (list float) :=
  let* dt := _time_intervals obstime in
  let* lo := np.min dt in
  do* raise_if (F64.leb lo F64.zero) NotChronological in
  Ok dt.

(** The first half of [calc_rad_loss] (up to the spline evaluation): the
    loss rate of each sample. *)
Definition radiative_loss_rates (temp em : list float)
    : result (list float) :=
  let* rows := list_rows FILE_RAD_COR in
  let* table := read_fields rows 0 1 in
  let '(modeltemp, model_loss_rate) := table in
  let temp_K := (λ t, F64.mul t (F64.dec 1000000 0)) <$> temp in
  let* outside := outside_table temp_K modeltemp in
  do* raise_if outside TempOutOfRange in
  let* spline := splrep modeltemp model_loss_rate in
  np.multiply em (splev temp_K spline).

Definition calc_rad_loss (temp em : list float)
    (obstime : option (list Z)) (cumulative : bool)
    : result (gmap string pyvalue) :=
  let* rad_loss_rate := radiative_loss_rates temp em in
  match obstime with
  | Some obstime =>
      do* raise_if (lengths_differ (length temp) (length em) (length obstime))
                   ObstimeLengthMismatch in
      let* dt := checked_intervals obstime in
      let* prod := np.multiply rad_loss_rate dt in
      let rad_loss_int := np_sum prod in
      if cumulative then
        let* rad_loss_cumul :=
          cumulative_sums rad_loss_rate dt (length obstime) in
        Ok (<["rad_loss_rate" := VArr rad_loss_rate]>
            (<["rad_loss_cumul" := VArr rad_loss_cumul]>
             (<["rad_loss_int" := VNum rad_loss_int]> ∅)))
      else
        Ok (<["rad_loss_rate" := VArr rad_loss_rate]>
            (<["rad_loss_int" := VNum rad_loss_int]> ∅))
  | None =>
      do* raise_if cumulative CumulativeWithoutObstime in
      Ok (<["rad_loss_rate" := VArr rad_loss_rate]> ∅)
  end.

(** [np.pi] *)
Definition np_pi : float := F64.dec 3141592653589793 15.

(** [_calc_xraylum(flux, date)]; [x**2] is [pow(x, 2.0)], the correctly
    rounded square. *)
Definition _calc_xraylum (flux : list float) (date : option datetime)
    : list float :=
  let d := match date with
           | Some date => F64.mul au (sunearth_distance date)
           | None => au
           end in
  let k := F64.mul (F64.mul (F64.mul (F64.of_Z 4) np_pi) (F64.mul d d))
                   (F64.dec 10000000 0) in
  F64.mul k <$> flux.

Definition goes_lx (longflux shortflux : list float)
    (obstime : option (list Z)) (date : option datetime)
    (cumulative : bool) : result (gmap string pyvalue) :=
  let longlum := _calc_xraylum longflux date in
  let shortlum := _calc_xraylum shortflux date in
  match obstime with
  | Some obstime =>
      do* raise_if (lengths_differ (length longflux) (length shortflux)
                                   (length obstime))
                   ObstimeLengthMismatch in
      let* dt := checked_intervals obstime in
      let* longprod := np.multiply longlum dt in
      let longlum_int := np_sum longprod in
      let* shortprod := np.multiply shortlum dt in
      let shortlum_int := np_sum shortprod in
      if cumulative then
        let n := length obstime in
        let* cumul :=
          for_each (λ '(lc, sc) (i : nat),
                      let* lp := np.multiply (take (i + 1) longlum)
                                             (take (i + 1) dt) in
                      let lc := <[i := np_sum lp]> lc in
                      let* sp := np.multiply (take (i + 1) shortlum)
                                             (take (i + 1) dt) in
                      Ok (lc, <[i := np_sum sp]> sc))
                   (replicate n F64.zero, replicate n F64.zero) (seq 0 n) in
        let '(longlum_cumul, shortlum_cumul) := cumul in
        Ok (<["longlum" := VArr longlum]>
            (<["shortlum" := VArr shortlum]>
             (<["longlum_cumul" := VArr longlum_cumul]>
              (<["shortlum_cumul" := VArr shortlum_cumul]>
               (<["longlum_int" := VNum longlum_int]>
                (<["shortlum_int" := VNum shortlum_int]>
                 (<["dt" := VArr dt]> ∅)))))))
      else
        Ok (<["longlum" := VArr longlum]>
            (<["shortlum" := VArr shortlum]>
             (<["longlum_int" := VNum longlum_int]>
              (<["shortlum_int" := VNum shortlum_int]>
               (<["dt" := VArr dt]> ∅)))))
  | None =>
      do* raise_if cumulative CumulativeWithoutObstime in
      Ok (<["longlum" := VArr longlum]>
          (<["shortlum" := VArr shortlum]> ∅))
  end.
End Estimators.

(** ** The lightcurve wrappers *)

(** A [pandas.DataFrame]: a time index and named float columns. *)
Record dataframe : Type := DataFrame {
  df_index : list datetime;
  df_columns : gmap string (list float)
}.

(** The objects a caller can hand to a wrapper: a [GOESLightCurve] with
    its [data] and [meta], or a value of any other type. *)
Inductive pyobj : Type :=
| GOESLightCurve (data : dataframe) (meta : gmap string string)
| OtherObject (type_name : string).

(** Objects live in a store and are passed by reference. *)
Abbreviation loc := nat (only parsing).

(** The names bound at module level: the imports (lines 1 to 19), the
    constants and the functions.  [from sunpy import lightcurve] binds
    [lightcurve], and nothing binds [sunpy]. *)
Definition module_globals : list string :=
  [ "absolute_import"; "division"; "os"; "datetime"; "csv"; "copy";
    "socket"; "dropwhile"; "np"; "interpolate"; "hek"; "parse_time";
    "config"; "lightcurve"; "check_download_file"; "sun";
    "HOST"; "GOES_REMOTE_PATH"; "DATA_PATH"; "FILE_TEMP_COR";
    "FILE_TEMP_PHO"; "FILE_EM_COR"; "FILE_EM_PHO"; "FILE_RAD_COR";
    "get_goes_event_list"; "temp_em"; "goes_chianti_tem";
    "_goes_get_chianti_temp"; "_goes_get_chianti_em"; "rad_loss_rate";
    "calc_rad_loss"; "xray_luminosity"; "goes_lx"; "_calc_xraylum";
    "_time_intervals" ]%string.

(** Evaluating a global name. *)
Definition load_global (name : string) : result unit :=
  raise_if (negb (bool_decide (name ∈ module_globals))) (NameNotDefined name).

(** [s.split()]: the maximal runs of non-blank characters. *)
Fixpoint split_words (cs : list ascii) (word : list ascii)
  : list (list ascii) :=
  match cs with
  | [] => match word with [] => [] | _ => [rev word] end
  | c :: cs' =>
      if is_space c
      then match word with
           | [] => split_words cs' []
           | _ => rev word :: split_words cs' []
           end
      else split_words cs' (c :: word)
  end.

Definition py_split (s : string) : list string :=
  string_of_list_ascii <$> split_words (list_ascii_of_string s) [].

(** [df.name] *)
Definition df_attr (df : dataframe) (name : string) : result (list float) :=
  match df_columns df !! name with
  | Some col => Ok col
  | None => Raise (AttributeMissing name)
  end.

(** [df[name] = col] *)
Definition df_set (df : dataframe) (name : string) (col : list float)
  : dataframe :=
  DataFrame (df_index df) (<[name := col]> (df_columns df)).

(** [copy.deepcopy(goeslc)]: a new object, equal to the old one, at an
    address not in use. *)
Definition deepcopy (h : gmap nat pyobj) (o : pyobj) : gmap nat pyobj * loc :=
  let l := fresh (dom h) in (<[l := o]> h, l).

(** [isinstance(goeslc, <root>.GOESLightCurve)]: the arguments are
    evaluated first, so the global name [root] that the class expression
    starts from is looked up before the object is inspected. *)
Definition check_lightcurve (h : gmap nat pyobj) (goeslc : loc)
    (root : string) : result (dataframe * gmap string string) :=
  do* load_global root in
  match h !! goeslc with
  | Some (GOESLightCurve data meta) => Ok (data, meta)
  | _ => Raise NotGOESLightCurve
  end.

Section Wrappers.
Context `{External}.

(** [temp_em(goeslc, abundances)].  Nothing is written before the copy
    is made, so a raise leaves the store as it was. *)
Definition temp_em (h : gmap nat pyobj) (goeslc : loc) (abundances : string)
    : result (gmap nat pyobj * loc) :=
  let* lc := check_lightcurve h goeslc "lightcurve" in
  let '(data, meta) := lc in
  let* xrsb := df_attr data "xrsb" in
  let* xrsa := df_attr data "xrsa" in
  let* telescop := (match meta !! "TELESCOP" with
                    | Some t => Ok t
                    | None => Raise (ColumnMissing "TELESCOP")
                    end) in
  let* satellite := (match py_split telescop !! 1 with
                     | Some w => Ok (SatStr w)
                     | None => Raise IndexOutOfRange
                     end) in
  let* date := (match df_index data !! 0 with
                | Some d => Ok d
                | None => Raise IndexOutOfRange
                end) in
  let* tem := goes_chianti_tem xrsb xrsa satellite date abundances in
  let '(temp, em) := tem in
  let '(h', goeslc_new) := deepcopy h (GOESLightCurve data meta) in
  let data_new := df_set (df_set data "temperature" temp) "em" em in
  Ok (<[goeslc_new := GOESLightCurve data_new meta]> h', goeslc_new).

(** [rad_loss_rate(goeslc)]; the class is named
    [sunpy.lightcurve.GOESLightCurve]. *)
Definition rad_loss_rate (h : gmap nat pyobj) (goeslc : loc)
    : result (gmap nat pyobj * loc) :=
  let* lc := check_lightcurve h goeslc "sunpy" in
  let '(data, meta) := lc in
  let* prepared :=
    (match df_attr data "temperature", df_attr data "em" with
     | Ok temp, Ok em =>
         let '(h', goeslc_new) := deepcopy h (GOESLightCurve data meta) in
         Ok (h', goeslc_new, data, temp, em)
     | _, _ =>
         let* r := temp_em h goeslc "coronal" in
         let '(h', goeslc_new) := r in
         match h' !! goeslc_new with
         | Some (GOESLightCurve data' _) =>
             let* temp := df_attr data' "temperature" in
             let* em := df_attr data' "em" in
             Ok (h', goeslc_new, data', temp, em)
         | _ => Raise NotGOESLightCurve
         end
     end) in
  let '(h', goeslc_new, data', temp, em) := prepared in
  let* rad_loss_out := calc_rad_loss temp em None false in
  match rad_loss_out !! "rad_loss_rate" with
  | Some (VArr rate) =>
      Ok (<[goeslc_new := GOESLightCurve (df_set data' "rad_loss_rate" rate) meta]> h',
          goeslc_new)
  | _ => Raise (ColumnMissing "rad_loss_rate")
  end.

(** [xray_luminosity(goeslc)]; the class is named
    [sunpy.lightcurve.GOESLightCurve]. *)
Definition xray_luminosity (h : gmap nat pyobj) (goeslc : loc)
    : result (gmap nat pyobj * loc) :=
  let* lc := check_lightcurve h goeslc "sunpy" in
  let '(data, meta) := lc in
  let* xrsb := df_attr data "xrsb" in
  let* xrsa := df_attr data "xrsa" in
  let* date := (match df_index data !! 0 with
                | Some d => Ok d
                | None => Raise IndexOutOfRange
                end) in
  let* lx_out := goes_lx xrsb xrsa None (Some date) false in
  let '(h', goeslc_new) := deepcopy h (GOESLightCurve data meta) in
  match lx_out !! "shortlum", lx_out !! "longlum" with
  | Some (VArr shortlum), Some (VArr longlum) =>
      let data_new := df_set (df_set data "luminosity_xrsa" shortlum)
                             "luminosity_xrsb" longlum in
      Ok (<[goeslc_new := GOESLightCurve data_new meta]> h', goeslc_new)
  | _, _ => Raise (ColumnMissing "longlum")
  end.
End Wrappers.

(** ** Vocabulary of the statements *)

(** [x <= 0] holds exactly for the zeros and the negative values. *)
Definition nonpos (x : float) : bool :=
  match x with
  | S754_zero _ | S754_infinity true | S754_finite true _ _ => true
  | _ => false
  end.

(** [x] is a number (not NaN) carrying the sign bit [s]. *)
Definition signed (s : bool) (x : float) : Prop :=
  match x with
  | S754_zero s' | S754_infinity s' | S754_finite s' _ _ => s' = s
  | S754_nan => False
  end.

(** A key whose lexicographic order is the order of the numbers. *)
Definition rank (x : float) : Z * Z * Z :=
  match x with
  | S754_infinity true => (-2, 0, 0)
  | S754_finite true m e => (-1, - e, - Zpos m)
  | S754_zero _ | S754_nan => (0, 0, 0)
  | S754_finite false m e => (1, e, Zpos m)
  | S754_infinity false => (2, 0, 0)
  end%Z.

Definition lex_lt (a b : Z * Z * Z) : Prop :=
  (a.1.1 < b.1.1 ∨
   (a.1.1 = b.1.1 ∧ (a.1.2 < b.1.2 ∨ (a.1.2 = b.1.2 ∧ a.2 < b.2))))%Z.

(** A finite number or [+inf]: what the smallest entry of a reference
    table can be for [-inf] to lie below it. *)
Definition above_neg_infinity (x : float) : bool :=
  match x with
  | S754_nan | S754_infinity true => false
  | _ => true
  end.

(** What is used of [numpy.log10]: NaN and negative arguments give NaN,
    a zero of either sign gives [-inf]. *)
Class Log10Laws (log10 : float → float) : Prop := {
  log10_nan : log10 S754_nan = S754_nan;
  log10_negative : ∀ x, F64.ltb x F64.zero = true → log10 x = S754_nan;
  log10_zero : ∀ s, log10 (S754_zero s) = S754_infinity true
}.

(** NaN in, NaN out: what a missing sample needs of [10.**x],
    [numpy.log10] and of [splev] on a fitted spline. *)
Class NanPropagates `{External} : Prop := {
  power10_of_nan : np_power10 S754_nan = S754_nan;
  log10_of_nan : np_log10 S754_nan = S754_nan;
  splev1_of_nan : ∀ x y spline,
    splrep x y = Ok spline → splev1 S754_nan spline = S754_nan
}.

(** Timestamps far enough from the ends of the 64-bit range for their
    differences not to wrap (some 146 million years around the epoch). *)
Definition in_range (t : Z) : Prop := (- 2 ^ 62 ≤ t < 2 ^ 62)%Z.

Fixpoint decreasing (ts : list Z) : bool :=
  match ts with
  | a :: ((b :: _) as r) => (b <? a)%Z && decreasing r
  | _ => true
  end.

Fixpoint increasing (ts : list Z) : bool :=
  match ts with
  | a :: ((b :: _) as r) => (a <? b)%Z && increasing r
  | _ => true
  end.

(** The interval weights in the words of the specification: half the
    difference of the neighbouring timestamps, in seconds.  Half of [d]
    milliseconds is [d / 2000] seconds. *)
Definition half_seconds (d : Z) : float :=
  F64.div (F64.of_Z d) (F64.dec 2000 0).

Definition spec_time_intervals (t : list Z) : list float :=
  let n := length t in
  (λ i, if i =? 0 then half_seconds (nth 1 t 0 - nth 0 t 0)%Z
        else if i =? n - 1
             then half_seconds (nth (n - 1) t 0 - nth (n - 2) t 0)%Z
             else half_seconds (nth (i + 1) t 0 - nth (i - 1) t 0)%Z)
  <$> seq 0 n.

(** ** An in-memory environment

    Small reference tables and simple stand-ins for the numpy and scipy
    routines, enough to run the module on concrete inputs. *)

Module Fixture.
(** Left to right summation. *)
Definition sum (a : list float) : float := fold_left F64.add a F64.zero.

(** The integer part of a float, toward zero. *)
Definition trunc (x : float) : Z :=
  match x with
  | S754_finite s m e =>
      let v := match e with
               | Zneg p => (Zpos m ÷ 2 ^ Zpos p)%Z
               | _ => (Zpos m * 2 ^ e)%Z
               end in
      if s then (- v)%Z else v
  | _ => 0%Z
  end.

(** [log10] to within a binade: [floor(log2 x) * log10(2)]. *)
Definition log10 (x : float) : float :=
  match x with
  | S754_nan => S754_nan
  | S754_zero _ => S754_infinity true
  | S754_infinity s => if s then S754_nan else S754_infinity false
  | S754_finite true _ _ => S754_nan
  | S754_finite false m e =>
      F64.mul (F64.of_Z (Z.log2 (Zpos m) + e)) (F64.dec 30103 5)
  end.

(** [10**x] to within a binade: [2^trunc(x / log10(2))]. *)
Definition power10 (x : float) : float :=
  match x with
  | S754_nan => S754_nan
  | S754_infinity s => if s then F64.zero else S754_infinity false
  | _ => SFldexp F64.prec F64.emax (F64.of_Z 1)
                 (trunc (F64.div x (F64.dec 30103 5)))
  end.

Fixpoint ascending (x : list float) : bool :=
  match x with
  | a :: ((b :: _) as r) => F64.ltb a b && ascending r
  | _ => true
  end.

(** Knots are kept as they are; fewer than four points or abscissae that
    do not increase are refused, as FITPACK does for a cubic fit. *)
Definition fit (x y : list float) : result (list (float * float)) :=
  if (length x =? length y) && (4 <=? length x) && ascending x
  then Ok (zip x y)
  else Raise SplineInputInvalid.

Definition line (p q : float * float) (x : float) : float :=
  F64.add (snd p)
          (F64.div (F64.mul (F64.sub (snd q) (snd p)) (F64.sub x (fst p)))
                   (F64.sub (fst q) (fst p))).

(** Piecewise linear through the knots, the end segments extended. *)
Fixpoint eval (knots : list (float * float)) (x : float) : float :=
  match knots with
  | p :: ((q :: r) as rest) =>
      match r with
      | [] => line p q x
      | _ => if F64.leb x (fst q) then line p q x else eval rest x
      end
  | [p] => snd p
  | [] => S754_nan
  end.

Definition row (fields : list (string * float)) : gmap string float :=
  list_to_map fields.

(** Temperature against flux ratio, for GOES 15. *)
Definition temp_rows : list (gmap string float) :=
  [ row [("log10temp_MK", F64.dec 0 0);  ("ratioGOES15", F64.dec 1 3)];
    row [("log10temp_MK", F64.dec 5 1);  ("ratioGOES15", F64.dec 1 2)];
    row [("log10temp_MK", F64.dec 10 1); ("ratioGOES15", F64.dec 1 1)];
    row [("log10temp_MK", F64.dec 15 1); ("ratioGOES15", F64.dec 5 1)];
    row [("log10temp_MK", F64.dec 20 1); ("ratioGOES15", F64.dec 1 0)] ]%string.

(** Temperature against long channel flux per unit emission measure. *)
Definition em_rows : list (gmap string float) :=
  [ row [("log10temp_MK", F64.dec 0 0);  ("longfluxGOES15", F64.dec 1 7)];
    row [("log10temp_MK", F64.dec 5 1);  ("longfluxGOES15", F64.dec 1 6)];
    row [("log10temp_MK", F64.dec 10 1); ("longfluxGOES15", F64.dec 4 6)];
    row [("log10temp_MK", F64.dec 15 1); ("longfluxGOES15", F64.dec 8 6)];
    row [("log10temp_MK", F64.dec 20 1); ("longfluxGOES15", F64.dec 1 5)] ]%string.

(** Temperature in kelvin against loss rate per unit emission measure. *)
Definition rad_rows : list (list float) :=
  [ [F64.of_Z 1000000;   F64.dec 4 22];
    [F64.of_Z 5000000;   F64.dec 3 22];
    [F64.of_Z 10000000;  F64.dec 2 22];
    [F64.of_Z 50000000;  F64.dec 3 22];
    [F64.of_Z 100000000; F64.dec 4 22] ].

Definition files (name : string) : result (list (gmap string float)) :=
  if String.eqb name FILE_TEMP_COR then Ok temp_rows
  else if String.eqb name FILE_EM_COR then Ok em_rows
  else Raise (FileUnreadable name).

Definition plain_files (name : string) : result (list (list float)) :=
  if String.eqb name FILE_RAD_COR then Ok rad_rows
  else Raise (FileUnreadable name).

#[export] Instance env : External := {|
  np_sum := sum;
  np_log10 := log10;
  np_power10 := power10;
  tck := list (float * float);
  splrep := fit;
  splev1 := λ x knots, eval knots x;
  dict_rows := files;
  list_rows := plain_files;
  au := F64.of_Z 149597870700;
  sunearth_distance := λ _, F64.of_Z 1
|}.
End Fixture.

(** Sample inputs for the runs at the end of the file. *)
Module Sample.
(** The day of the docstring examples. *)
Definition date : datetime := Datetime 2014 4 16 0 0 0 0.
(** Long and short channel fluxes: 7e-6 and 7e-7 W/m^2. *)
Definition longflux : list float := [F64.dec 7 6; F64.dec 7 6; F64.dec 7 6].
Definition shortflux : list float := [F64.dec 7 7; F64.dec 7 7; F64.dec 7 7].
(** A long channel flux whose second sample, 1e-9, is below 3e-8. *)
Definition faint_longflux : list float :=
  [F64.dec 7 6; F64.dec 1 9; F64.dec 7 6].
(** Temperatures in MK and emission measures in cm^-3. *)
Definition temp : list float := [F64.of_Z 11; F64.of_Z 12; F64.of_Z 12].
Definition em : list float :=
  [F64.of_Z (10 ^ 48); F64.of_Z (10 ^ 48); F64.of_Z (10 ^ 48)].
(** 200 MK, above the 100 MK at which the loss rate table ends. *)
Definition hot_temp : list float := [F64.of_Z 200; F64.of_Z 200; F64.of_Z 200].
Definition nan_temp : list float := [F64.of_Z 11; F64.nan; F64.of_Z 12].
(** Timestamps in milliseconds, in order and in reverse. *)
Definition obstime : list Z := [0; 2000; 6000]%Z.
Definition reversed_obstime : list Z := [6000; 2000; 0]%Z.
(** A long channel record whose second sample is missing. *)
Definition gappy_longflux : list float := [F64.dec 7 6; F64.nan; F64.dec 7 6].
(** A short channel record with a zero and a negative sample. *)
Definition dark_shortflux : list float :=
  [F64.zero; F64.of_Z (-1); F64.dec 7 7].
(** A GOES 15 lightcurve of three samples, the only object of a store. *)
Definition lightcurve : pyobj :=
  GOESLightCurve
    (DataFrame [Datetime 2014 4 16 0 0 0 0; Datetime 2014 4 16 0 0 2 0;
                Datetime 2014 4 16 0 0 6 0]
               (<["xrsb" := longflux]>
                (<["xrsa" := shortflux]> ∅)))
    (<["TELESCOP" := "GOES 15"]> ∅).
Definition store : gmap nat pyobj := <[0 := lightcurve]> ∅.
End Sample.

(** * Properties *)

(** ** Signs of float64 values *)

Lemma leb_zero_nonpos x : F64.leb x F64.zero = nonpos x.
Proof. destruct x as [[]|[]| |[] ? ?]; reflexivity. Qed.

Lemma signed_not_nan s x : signed s x → F64.is_nan x = false.
Proof. destruct x; simpl; tauto. Qed.

Lemma signed_true_nonpos x : signed true x → nonpos x = true.
Proof. destruct x as [?|?| |? ? ?]; simpl; intros; subst; tauto. Qed.

Lemma shr_1_nonneg mrs : (0 ≤ shr_m mrs)%Z → (0 ≤ shr_m (shr_1 mrs))%Z.
Proof.
  destruct mrs as [m r s]; simpl.
  destruct m as [|[p|p|]|[p|p|]]; simpl; lia.
Qed.

Lemma iter_shr_1_nonneg p mrs :
  (0 ≤ shr_m mrs)%Z → (0 ≤ shr_m (SpecFloat.iter_pos shr_1 p mrs))%Z.
Proof.
  revert mrs; induction p as [p IH|p IH|]; intros mrs Hm; simpl.
  - apply IH, IH, shr_1_nonneg, Hm.
  - apply IH, IH, Hm.
  - apply shr_1_nonneg, Hm.
Qed.

Lemma shr_fexp_nonneg m e l :
  (0 ≤ m)%Z → (0 ≤ shr_m (fst (shr_fexp F64.prec F64.emax m e l)))%Z.
Proof.
  intros Hm. unfold shr_fexp, shr.
  assert (Hr : (0 ≤ shr_m (shr_record_of_loc m l))%Z)
    by (destruct l as [|[]]; exact Hm).
  destruct (_ - e)%Z; simpl; try exact Hr.
  apply iter_shr_1_nonneg, Hr.
Qed.

Lemma round_nearest_even_nonneg m l :
  (0 ≤ m)%Z → (0 ≤ round_nearest_even m l)%Z.
Proof.
  intros Hm. unfold round_nearest_even.
  destruct l as [|[]]; try destruct (Z.even m); lia.
Qed.

Lemma binary_round_aux_signed s m e l :
  (0 ≤ m)%Z → signed s (binary_round_aux F64.prec F64.emax s m e l).
Proof.
  intros Hm. unfold binary_round_aux.
  pose proof (shr_fexp_nonneg m e l Hm) as H1.
  destruct (shr_fexp F64.prec F64.emax m e l) as [mrs' e'].
  simpl in H1.
  pose proof (shr_fexp_nonneg _ e' loc_Exact
                (round_nearest_even_nonneg _ (loc_of_shr_record mrs') H1)) as H2.
  destruct (shr_fexp F64.prec F64.emax _ e' loc_Exact) as [mrs'' e''].
  simpl in H2.
  destruct (shr_m mrs''); [reflexivity | | lia].
  destruct (_ <=? _)%Z; reflexivity.
Qed.

Lemma of_Z_neg_signed p : signed true (F64.of_Z (Zneg p)).
Proof.
  unfold F64.of_Z, binary_normalize, binary_round.
  destruct (shl_align _ _ _) as [mz ez].
  apply binary_round_aux_signed. lia.
Qed.

Lemma of_Z_pos_signed p : signed false (F64.of_Z (Zpos p)).
Proof.
  unfold F64.of_Z, binary_normalize, binary_round.
  destruct (shl_align _ _ _) as [mz ez].
  apply binary_round_aux_signed. lia.
Qed.

Lemma div_core_nonneg m1 e1 m2 e2 :
  (0 ≤ fst (fst (SFdiv_core_binary F64.prec F64.emax (Zpos m1) e1 (Zpos m2) e2)))%Z.
Proof.
  unfold SFdiv_core_binary.
  set (s := (_ - _ - _)%Z).
  set (m' := match s with Z0 => _ | Zpos _ => _ | Zneg _ => _ end).
  assert (Hm' : (0 ≤ m')%Z).
  { subst m'. destruct s; try lia. apply Z.shiftl_nonneg. lia. }
  pose proof (Z_div_mod m' (Zpos m2) eq_refl) as Hd.
  destruct (Z.div_eucl m' (Zpos m2)) as [q r]. simpl.
  destruct Hd as [Heq Hr]. nia.
Qed.

Lemma div_signed s x m e :
  signed s x → signed s (F64.div x (S754_finite false m e)).
Proof.
  destruct x as [s'|s'| |s' mx ex]; simpl; intros Hs; try tauto; subst.
  - apply xorb_false_r.
  - apply xorb_false_r.
  - pose proof (div_core_nonneg mx ex m e) as Hq.
    destruct (SFdiv_core_binary _ _ _ _ _ _) as [[mz ez] lz]. simpl in Hq.
    rewrite xorb_false_r. apply binary_round_aux_signed, Hq.
Qed.

Lemma thousand_finite :
  F64.dec 1000 0 = S754_finite false 8796093022208000 (-43).
Proof. vm_compute. reflexivity. Qed.

(** A millisecond count never turns into NaN, and keeps its sign. *)
Lemma ms_to_s_not_nan d : F64.is_nan (ms_to_s d) = false.
Proof.
  unfold ms_to_s. rewrite thousand_finite. destruct d as [|p|p].
  - reflexivity.
  - eapply signed_not_nan, div_signed, of_Z_pos_signed.
  - eapply signed_not_nan, div_signed, of_Z_neg_signed.
Qed.

Lemma ms_to_s_nonpos d : (d ≤ 0)%Z → nonpos (ms_to_s d) = true.
Proof.
  unfold ms_to_s. rewrite thousand_finite. destruct d as [|p|p]; intros Hd.
  - reflexivity.
  - lia.
  - apply signed_true_nonpos, div_signed, of_Z_neg_signed.
Qed.

(** ** The error monad *)

Lemma bind_Ok {A B} (m : result A) (f : A → result B) b :
  bind m f = Ok b → ∃ a, m = Ok a ∧ f a = Ok b.
Proof. destruct m as [a|e]; simpl; [eauto | discriminate]. Qed.

Lemma is_Ok_true {A} (r : result A) : is_Ok r = true → ∃ a, r = Ok a.
Proof. destruct r as [a|e]; simpl; [eauto | discriminate]. Defined.

Lemma for_each_app {A S} (body : S → A → result S) s xs ys :
  for_each body s (xs ++ ys) =
  bind (for_each body s xs) (λ s', for_each body s' ys).
Proof.
  revert s; induction xs as [|x xs IH]; intros s; simpl; [reflexivity|].
  destruct (body s x) as [s'|e]; simpl; [apply IH | reflexivity].
Qed.

(** ** [numpy.min] and [numpy.max] *)

Lemma minimum_nan_r a : np.minimum a S754_nan = S754_nan.
Proof. destruct a as [[]|[]| |[] ? ?]; reflexivity. Qed.

Lemma maximum_nan_l b : np.maximum S754_nan b = S754_nan.
Proof. unfold np.maximum, F64.gtb. destruct b as [[]|[]| |[] ? ?]; reflexivity. Qed.

Lemma maximum_nan_r a : np.maximum a S754_nan = S754_nan.
Proof. destruct a as [[]|[]| |[] ? ?]; reflexivity. Qed.

Lemma fold_minimum_nan r : fold_left np.minimum r S754_nan = S754_nan.
Proof. induction r as [|b r IH]; simpl; [reflexivity | exact IH]. Qed.

Lemma fold_maximum_nan r : fold_left np.maximum r S754_nan = S754_nan.
Proof.
  induction r as [|b r IH]; simpl; [reflexivity|].
  rewrite maximum_nan_l. exact IH.
Qed.

(** A NaN anywhere in the array is the result of the reduction. *)
Lemma min_nan (a : list float) : S754_nan ∈ a → np.min a = Ok S754_nan.
Proof.
  destruct a as [|x r]; [intros Hin; inversion Hin|].
  simpl. intros Hin. f_equal. revert x Hin.
  induction r as [|b r IH]; intros x Hin.
  - apply list_elem_of_singleton in Hin. subst. reflexivity.
  - simpl. apply elem_of_cons in Hin as [<-|Hin].
    + apply fold_minimum_nan.
    + apply elem_of_cons in Hin as [<-|Hin].
      * rewrite minimum_nan_r. apply fold_minimum_nan.
      * apply IH. apply elem_of_cons. right. exact Hin.
Qed.

Lemma max_nan (a : list float) : S754_nan ∈ a → np.max a = Ok S754_nan.
Proof.
  destruct a as [|x r]; [intros Hin; inversion Hin|].
  simpl. intros Hin. f_equal. revert x Hin.
  induction r as [|b r IH]; intros x Hin.
  - apply list_elem_of_singleton in Hin. subst. reflexivity.
  - simpl. apply elem_of_cons in Hin as [<-|Hin].
    + rewrite maximum_nan_l. apply fold_maximum_nan.
    + apply elem_of_cons in Hin as [<-|Hin].
      * rewrite maximum_nan_r. apply fold_maximum_nan.
      * apply IH. apply elem_of_cons. right. exact Hin.
Qed.

Lemma minimum_not_nan a b :
  F64.is_nan a = false → F64.is_nan b = false →
  F64.is_nan (np.minimum a b) = false.
Proof. unfold np.minimum. intros Ha Hb. destruct (_ || _); assumption. Qed.

(** Among numbers, the smaller of two is [<= 0] as soon as one is. *)
Lemma minimum_nonpos a b :
  F64.is_nan a = false → F64.is_nan b = false →
  nonpos a || nonpos b = true → nonpos (np.minimum a b) = true.
Proof.
  unfold np.minimum, F64.ltb, SFltb.
  destruct a as [[]|[]| |[] ma ea], b as [[]|[]| |[] mb eb];
    simpl; intros; try discriminate; try reflexivity;
    repeat (match goal with |- context [match ?c with _ => _ end] => destruct c end;
            simpl; try reflexivity; try discriminate).
Qed.

Lemma fold_minimum_nonpos r x :
  Forall (λ v, F64.is_nan v = false) (x :: r) →
  Exists (λ v, nonpos v = true) (x :: r) →
  nonpos (fold_left np.minimum r x) = true.
Proof.
  revert x; induction r as [|b r IH]; intros x Hnan Hex; simpl.
  - apply Exists_cons in Hex as [Hx|Hex]; [exact Hx | inversion Hex].
  - apply Forall_cons in Hnan as [Hx Hnan].
    pose proof Hnan as Hnan'. apply Forall_cons in Hnan' as [Hb Hr].
    apply IH.
    + apply Forall_cons. split; [apply minimum_not_nan; assumption | exact Hr].
    + apply Exists_cons in Hex as [Hx'|Hex].
      * apply Exists_cons. left. apply minimum_nonpos; try assumption.
        rewrite Hx'. reflexivity.
      * apply Exists_cons in Hex as [Hb'|Hex].
        -- apply Exists_cons. left. apply minimum_nonpos; try assumption.
           rewrite Hb'. apply orb_true_r.
        -- apply Exists_cons. right. exact Hex.
Qed.

(** ** [_time_intervals] *)

Lemma time_intervals_short obstime :
  length obstime < 2 → _time_intervals obstime = Raise ObstimeTooShort.
Proof.
  intros Hn. unfold _time_intervals.
  destruct (Nat.ltb_spec (length obstime) 2); [reflexivity | lia].
Qed.

(** The weights are the tick counts [ms_to_s] converts. *)
Lemma time_intervals_ticks obstime dt :
  _time_intervals obstime = Ok dt →
  ∃ ticks, dt = ms_to_s <$> ticks ∧ length ticks = length obstime ∧
           2 ≤ length obstime ∧
           ticks !! 0 = Some (np.td_div (np.td_sub (nth 1 obstime 0%Z)
                                                   (nth 0 obstime 0%Z)) 2).
Proof.
  unfold _time_intervals. intros Hdt.
  apply bind_Ok in Hdt as (ticks & Hticks & Hdt).
  injection Hdt as <-. exists ticks. split; [reflexivity|].
  destruct (Nat.ltb_spec (length obstime) 2) as [|Hge]; [discriminate|].
  destruct (Nat.eqb_spec (length obstime) 2) as [Heq|Hne];
    injection Hticks as <-.
  - rewrite Heq. repeat split; try reflexivity; lia.
  - repeat split; try lia; try reflexivity.
    cbn [length]. rewrite length_app, length_zip_with, length_drop, length_take.
    simpl. lia.
Qed.

Lemma time_intervals_length obstime dt :
  _time_intervals obstime = Ok dt → length dt = length obstime.
Proof.
  intros Hdt. apply time_intervals_ticks in Hdt as (ticks & -> & Hlen & _).
  rewrite length_fmap. exact Hlen.
Qed.

Lemma time_intervals_Ok obstime :
  2 ≤ length obstime → ∃ dt, _time_intervals obstime = Ok dt.
Proof.
  intros Hn. unfold _time_intervals.
  destruct (Nat.ltb_spec (length obstime) 2); [lia|].
  destruct (length obstime =? 2); simpl; eauto.
Qed.

Lemma time_intervals_not_nan obstime dt :
  _time_intervals obstime = Ok dt → Forall (λ v, F64.is_nan v = false) dt.
Proof.
  intros Hdt. apply time_intervals_ticks in Hdt as (ticks & -> & _).
  apply Forall_fmap, Forall_forall. intros d _. apply ms_to_s_not_nan.
Qed.

(** The check [np.min(dt) <= 0] fires as soon as one weight is [<= 0]. *)
Lemma checked_intervals_nonpos obstime dt :
  _time_intervals obstime = Ok dt →
  Exists (λ w, F64.leb w F64.zero = true) dt →
  checked_intervals obstime = Raise NotChronological.
Proof.
  intros Hdt Hex. unfold checked_intervals. rewrite Hdt. simpl.
  pose proof (time_intervals_not_nan _ _ Hdt) as Hnan.
  destruct dt as [|x r]; [inversion Hex|]. simpl.
  rewrite leb_zero_nonpos, fold_minimum_nonpos; [reflexivity | exact Hnan |].
  eapply Exists_impl; [exact Hex|]. intros w. simpl. rewrite leb_zero_nonpos. tauto.
Qed.

(** ** Broadcasting *)

Lemma broadcast_same {A B C} (f : A → B → C) a b :
  length a = length b → np.broadcast f a b = Ok (zip_with f a b).
Proof. intros Hl. unfold np.broadcast. rewrite Hl, Nat.eqb_refl. reflexivity. Qed.

(** A product with an array of two or more elements succeeds only for an
    operand of the same length or of length one. *)
Lemma multiply_Ok_length rate dt prod :
  2 ≤ length dt → np.multiply rate dt = Ok prod →
  length rate = length dt ∨ length rate = 1.
Proof.
  unfold np.multiply, np.broadcast. intros Hdt.
  destruct (Nat.eqb_spec (length rate) (length dt)) as [Heq|Hne]; [auto|].
  destruct rate as [|x [|y rate]]; simpl; intros Hp.
  - destruct dt as [|? [|? ?]]; simpl in *; try lia; discriminate.
  - auto.
  - destruct dt as [|? [|? ?]]; simpl in *; try lia; discriminate.
Qed.

(** ** The cumulative loop *)

Section Cumulative.
Context `{External}.

Lemma cumulative_sums_prefix rate dt n k c :
  k ≤ n →
  for_each (λ (c : list float) (i : nat),
              bind (np.multiply (take (i + 1) rate) (take (i + 1) dt))
                   (λ prod, Ok (<[i := np_sum prod]> c)))
           (replicate n F64.zero) (seq 0 k) = Ok c →
  length c = n ∧
  ∀ i, i < k →
    ∃ prod, np.multiply (take (i + 1) rate) (take (i + 1) dt) = Ok prod ∧
            c !! i = Some (np_sum prod).
Proof.
  revert c. induction k as [|k IH]; intros c Hk Hc.
  - simpl in Hc. injection Hc as <-. split; [apply length_replicate | lia].
  - rewrite seq_S, for_each_app in Hc. simpl in Hc.
    apply bind_Ok in Hc as (c' & Hc' & Hstep).
    apply bind_Ok in Hstep as (cl & Hbody & Hcl).
    apply bind_Ok in Hbody as (prod & Hprod & Hins).
    injection Hcl as <-. injection Hins as <-.
    destruct (IH c' ltac:(lia) Hc') as [Hlen Hprev].
    split; [rewrite length_insert; exact Hlen|].
    intros i Hi. destruct (decide (i = k)) as [->|Hne].
    + exists prod. split; [exact Hprod|].
      apply list_lookup_insert_eq. lia.
    + destruct (Hprev i ltac:(lia)) as (p & Hp & Hci).
      exists p. split; [exact Hp|].
      rewrite list_lookup_insert_ne by congruence. exact Hci.
Qed.

(** The last cumulative value is the sum over all samples. *)
Lemma cumulative_sums_last rate dt cumul prod :
  2 ≤ length dt →
  np.multiply rate dt = Ok prod →
  cumulative_sums rate dt (length dt) = Ok cumul →
  last cumul = Some (np_sum prod).
Proof.
  intros Hdt Hprod Hc. unfold cumulative_sums in Hc.
  apply cumulative_sums_prefix in Hc as [Hlen Hc]; [|lia].
  destruct (Hc (length dt - 1) ltac:(lia)) as (p & Hp & Hlast).
  rewrite last_lookup, Hlen.
  replace (Init.Nat.pred (length dt)) with (length dt - 1) by lia.
  rewrite Hlast. f_equal. f_equal.
  replace (length dt - 1 + 1) with (length dt) in Hp by lia.
  rewrite (take_ge dt) in Hp by lia.
  rewrite (take_ge rate) in Hp.
  - congruence.
  - destruct (multiply_Ok_length _ _ _ Hdt Hprod); lia.
Qed.

Lemma paired_sums_prefix longlum shortlum dt n k lc sc :
  k ≤ n →
  for_each (λ '(lc, sc) (i : nat),
              bind (np.multiply (take (i + 1) longlum) (take (i + 1) dt))
                (λ lp, let lc := <[i := np_sum lp]> lc in
                   bind (np.multiply (take (i + 1) shortlum) (take (i + 1) dt))
                     (λ sp, Ok (lc, <[i := np_sum sp]> sc))))
           (replicate n F64.zero, replicate n F64.zero) (seq 0 k)
    = Ok (lc, sc) →
  length lc = n ∧ length sc = n ∧
  ∀ i, i < k →
    ∃ lp sp, np.multiply (take (i + 1) longlum) (take (i + 1) dt) = Ok lp ∧
             np.multiply (take (i + 1) shortlum) (take (i + 1) dt) = Ok sp ∧
             lc !! i = Some (np_sum lp) ∧ sc !! i = Some (np_sum sp).
Proof.
  revert lc sc. induction k as [|k IH]; intros lc sc Hk Hc.
  - simpl in Hc. simplify_eq.
    rewrite !length_replicate. repeat split. lia.
  - rewrite seq_S, for_each_app in Hc. simpl in Hc.
    apply bind_Ok in Hc as ([lc' sc'] & Hc' & Hstep).
    apply bind_Ok in Hstep as (cl & Hbody & Hcl).
    apply bind_Ok in Hbody as (lp & Hlp & Hbody).
    apply bind_Ok in Hbody as (sp & Hsp & Hins).
    simplify_eq.
    destruct (IH lc' sc' ltac:(lia) Hc') as (Hll & Hls & Hprev).
    rewrite !length_insert. repeat split; try assumption.
    intros i Hi. destruct (decide (i = k)) as [->|Hne].
    + exists lp, sp. repeat split; try assumption;
        apply list_lookup_insert_eq; lia.
    + destruct (Hprev i ltac:(lia)) as (p & q & Hp & Hq & Hli & Hsi).
      exists p, q. repeat split; try assumption;
        rewrite list_lookup_insert_ne by congruence; assumption.
Qed.
End Cumulative.

(** ** Integration over time *)

Lemma checked_intervals_Ok obstime dt :
  checked_intervals obstime = Ok dt →
  _time_intervals obstime = Ok dt ∧ 2 ≤ length dt ∧
  length dt = length obstime.
Proof.
  unfold checked_intervals. intros Hc.
  apply bind_Ok in Hc as (dt' & Hdt & Hc).
  apply bind_Ok in Hc as (lo & _ & Hc).
  apply bind_Ok in Hc as (u & _ & Hc). injection Hc as ->.
  pose proof (time_intervals_ticks _ _ Hdt) as (ticks & -> & Hlen & Hge & _).
  rewrite length_fmap. repeat split; [exact Hdt | lia | lia].
Qed.

(** C4: with timestamps and [cumulative=True], the last element of each
    cumulative sequence is the integrated total of the same call, the
    sum over all samples of rate times interval weight; this holds for
    [calc_rad_loss] and for both channels of [goes_lx]. *)
Theorem cumulative_last_is_total `{External} :
  (∀ temp em obstime out,
     calc_rad_loss temp em (Some obstime) true = Ok out →
     ∃ rate dt prod cumul,
       out !! "rad_loss_rate" = Some (VArr rate) ∧
       _time_intervals obstime = Ok dt ∧
       np.multiply rate dt = Ok prod ∧
       out !! "rad_loss_int" = Some (VNum (np_sum prod)) ∧
       out !! "rad_loss_cumul" = Some (VArr cumul) ∧
       length cumul = length obstime ∧
       last cumul = Some (np_sum prod))
  ∧
  (∀ longflux shortflux obstime date out,
     goes_lx longflux shortflux (Some obstime) date true = Ok out →
     ∃ dt lprod sprod lcumul scumul,
       _time_intervals obstime = Ok dt ∧
       np.multiply (_calc_xraylum longflux date) dt = Ok lprod ∧
       np.multiply (_calc_xraylum shortflux date) dt = Ok sprod ∧
       out !! "longlum_int" = Some (VNum (np_sum lprod)) ∧
       out !! "shortlum_int" = Some (VNum (np_sum sprod)) ∧
       out !! "longlum_cumul" = Some (VArr lcumul) ∧
       out !! "shortlum_cumul" = Some (VArr scumul) ∧
       last lcumul = Some (np_sum lprod) ∧
       last scumul = Some (np_sum sprod)).
Proof.
  split.
  - intros temp em obstime out Hout. unfold calc_rad_loss in Hout.
    apply bind_Ok in Hout as (rate & Hrate & Hout).
    apply bind_Ok in Hout as (u & _ & Hout).
    apply bind_Ok in Hout as (dt & Hdt & Hout).
    apply bind_Ok in Hout as (prod & Hprod & Hout).
    apply bind_Ok in Hout as (cumul & Hcumul & Hout).
    injection Hout as <-.
    apply checked_intervals_Ok in Hdt as (Hdt & Hge & Hlen).
    rewrite <- Hlen in Hcumul.
    exists rate, dt, prod, cumul.
    repeat split; try assumption; try reflexivity.
    + unfold cumulative_sums in Hcumul.
      apply cumulative_sums_prefix in Hcumul as [Hl _]; [lia | lia].
    + eapply cumulative_sums_last; eassumption.
  - intros longflux shortflux obstime date out Hout. unfold goes_lx in Hout.
    apply bind_Ok in Hout as (u & _ & Hout).
    apply bind_Ok in Hout as (dt & Hdt & Hout).
    apply bind_Ok in Hout as (lprod & Hlprod & Hout).
    apply bind_Ok in Hout as (sprod & Hsprod & Hout).
    apply bind_Ok in Hout as ([lcumul scumul] & Hcumul & Hout).
    injection Hout as <-.
    apply checked_intervals_Ok in Hdt as (Hdt & Hge & Hlen).
    rewrite <- Hlen in Hcumul.
    apply paired_sums_prefix in Hcumul as (Hll & Hls & Hc); [|lia].
    destruct (Hc (length dt - 1) ltac:(lia)) as (lp & sp & Hlp & Hsp & Hli & Hsi).
    replace (length dt - 1 + 1) with (length dt) in Hlp, Hsp by lia.
    rewrite (take_ge dt) in Hlp, Hsp by lia.
    rewrite take_ge in Hlp
      by (destruct (multiply_Ok_length _ _ _ Hge Hlprod); lia).
    rewrite take_ge in Hsp
      by (destruct (multiply_Ok_length _ _ _ Hge Hsprod); lia).
    exists dt, lprod, sprod, lcumul, scumul.
    repeat split; try assumption; try reflexivity.
    + rewrite last_lookup, Hll.
      replace (Init.Nat.pred (length dt)) with (length dt - 1) by lia.
      congruence.
    + rewrite last_lookup, Hls.
      replace (Init.Nat.pred (length dt)) with (length dt - 1) by lia.
      congruence.
Qed.

(** ** [goes_chianti_tem] *)

Lemma longflux_corrected_length longflux satellite date :
  length (longflux_corrected longflux satellite date) = length longflux.
Proof.
  unfold longflux_corrected.
  destruct (_ && _), (sat_gtb satellite 7); rewrite ?length_fmap; reflexivity.
Qed.

Lemma shortflux_corrected_length shortflux satellite :
  length (shortflux_corrected shortflux satellite) = length shortflux.
Proof.
  unfold shortflux_corrected.
  destruct (sat_gtb satellite 7); rewrite ?length_fmap; reflexivity.
Qed.

(** For an integer satellite number of at least 1 and arrays of equal
    length, the function is its data preparation followed by the two
    lookups. *)
Lemma goes_chianti_tem_eq `{External} longflux shortflux n date abundances :
  (1 ≤ n)%Z → length longflux = length shortflux →
  goes_chianti_tem longflux shortflux (SatInt n) date abundances =
  bind (fluxratio (shortflux_corrected shortflux (SatInt n))
                  (longflux_corrected longflux (SatInt n) date))
    (λ ratio,
       bind (_goes_get_chianti_temp ratio (SatInt n) abundances)
         (λ temp,
            bind (_goes_get_chianti_em
                    (longflux_corrected longflux (SatInt n) date) temp
                    (SatInt n) abundances)
              (λ em, Ok (temp, em)))).
Proof.
  intros Hn Hlen. unfold goes_chianti_tem. simpl.
  destruct (Z.ltb_spec n 1); [lia|]. simpl.
  rewrite Hlen, Nat.eqb_refl. reflexivity.
Qed.

(** C1: for flux arrays of equal length, a satellite number above 7 has
    the long flux divided by 0.70 and the short flux by 0.85; satellite 6
    before 1983-06-28 has the long flux scaled by 4.43/5.32; every other
    combination leaves both unscaled; and these corrected fluxes are the
    ones whose ratio is taken. *)
Theorem flux_precorrection `{External}
    (longflux shortflux : list float) (n : Z) (date : datetime)
    (abundances : string) :
  length longflux = length shortflux →
  let lc := longflux_corrected longflux (SatInt n) date in
  let sc := shortflux_corrected shortflux (SatInt n) in
  ((7 < n)%Z →
     lc = (λ x, F64.div x (F64.dec 7 1)) <$> longflux ∧
     sc = (λ x, F64.div x (F64.dec 85 2)) <$> shortflux)
  ∧ (n = 6%Z → datetime_ltb date (Datetime 1983 6 28 0 0 0 0) = true →
     lc = (λ x, F64.mul x (F64.div (F64.dec 443 2) (F64.dec 532 2)))
            <$> longflux ∧
     sc = shortflux)
  ∧ (¬ (7 < n)%Z →
     ¬ (n = 6%Z ∧ datetime_ltb date (Datetime 1983 6 28 0 0 0 0) = true) →
     lc = longflux ∧ sc = shortflux)
  ∧ np.divide sc lc = Ok (zip_with F64.div sc lc)
  ∧ ((1 ≤ n)%Z →
     goes_chianti_tem longflux shortflux (SatInt n) date abundances =
     bind (fluxratio sc lc)
       (λ ratio,
          bind (_goes_get_chianti_temp ratio (SatInt n) abundances)
            (λ temp,
               bind (_goes_get_chianti_em lc temp (SatInt n) abundances)
                 (λ em, Ok (temp, em))))).
Proof.
  intros Hlen lc sc.
  split; [|split; [|split; [|split]]].
  - intros Hgt. subst lc sc.
    unfold longflux_corrected, shortflux_corrected. cbn [sat_gtb sat_eqb].
    destruct (Z.ltb_spec 7 n); [|lia].
    destruct (Z.eqb_spec n 6); [lia|].
    rewrite andb_false_r. split; reflexivity.
  - intros -> Hdate. subst lc sc.
    unfold longflux_corrected, shortflux_corrected, goes6_recalibration.
    cbn [sat_gtb sat_eqb Z.ltb Z.eqb Z.compare Pos.compare Pos.compare_cont
         andb].
    rewrite Hdate. split; reflexivity.
  - intros Hgt Hsix. subst lc sc.
    unfold longflux_corrected, shortflux_corrected, goes6_recalibration.
    cbn [sat_gtb sat_eqb]. destruct (Z.ltb_spec 7 n); [lia|].
    destruct (Z.eqb_spec n 6) as [->|]; [|rewrite andb_false_r; tauto].
    destruct (datetime_ltb _ _); [tauto | split; reflexivity].
  - apply broadcast_same. subst lc sc.
    rewrite shortflux_corrected_length, longflux_corrected_length. congruence.
  - intros Hn. apply goes_chianti_tem_eq; assumption.
Qed.

(** The mask, position by position. *)
Lemma fluxratio_mask (sc lc : list float) :
  length sc = length lc →
  ∃ ratio,
    fluxratio sc lc = Ok ratio ∧ length ratio = length sc ∧
    ∀ i s l, sc !! i = Some s → lc !! i = Some l →
      ratio !! i =
      Some (if F64.ltb s (F64.dec 1 10) || F64.ltb l (F64.dec 3 8)
            then F64.dec 3 3 else F64.div s l).
Proof.
  intros Hlen. unfold fluxratio, np.logical_or, np.divide.
  rewrite !broadcast_same by (rewrite ?length_fmap; exact Hlen).
  simpl. eexists. split; [reflexivity|]. split.
  - unfold np.mask_assign.
    rewrite !length_zip_with, !length_fmap. lia.
  - intros i s l Hs Hl. unfold np.mask_assign.
    rewrite !lookup_zip_with, !list_lookup_fmap, Hs, Hl. simpl.
    destruct (_ || _); reflexivity.
Qed.

(** C2: at every position, the ratio that [goes_chianti_tem] hands to the
    temperature lookup is 0.003 when the corrected short flux is below
    1e-10 or the corrected long flux is below 3e-8, whatever their
    quotient, and is corrected-short / corrected-long otherwise. *)
Theorem ratio_quality_mask `{External}
    (longflux shortflux : list float) (n : Z) (date : datetime)
    (abundances : string) :
  length longflux = length shortflux → (1 ≤ n)%Z →
  let lc := longflux_corrected longflux (SatInt n) date in
  let sc := shortflux_corrected shortflux (SatInt n) in
  ∃ ratio,
    goes_chianti_tem longflux shortflux (SatInt n) date abundances =
      bind (_goes_get_chianti_temp ratio (SatInt n) abundances)
        (λ temp,
           bind (_goes_get_chianti_em lc temp (SatInt n) abundances)
             (λ em, Ok (temp, em)))
    ∧ length ratio = length sc
    ∧ ∀ i s l, sc !! i = Some s → lc !! i = Some l →
        ratio !! i =
        Some (if F64.ltb s (F64.dec 1 10) || F64.ltb l (F64.dec 3 8)
              then F64.dec 3 3 else F64.div s l).
Proof.
  intros Hlen Hn lc sc.
  destruct (fluxratio_mask sc lc) as (ratio & Hratio & Hl & Hmask).
  { subst sc lc.
    rewrite shortflux_corrected_length, longflux_corrected_length. congruence. }
  exists ratio. split; [|split; assumption].
  rewrite goes_chianti_tem_eq by assumption.
  fold lc sc. rewrite Hratio. reflexivity.
Qed.

(** ** Range checks against a table *)

Lemma minimum_neg_infinity_r a :
  np.minimum a (S754_infinity true) = S754_infinity true ∨
  np.minimum a (S754_infinity true) = S754_nan.
Proof. destruct a as [[]|[]| |[] ? ?]; simpl; auto. Qed.

Lemma minimum_neg_infinity_l b :
  np.minimum (S754_infinity true) b = S754_infinity true ∨
  np.minimum (S754_infinity true) b = S754_nan.
Proof. destruct b as [[]|[]| |[] ? ?]; simpl; auto. Qed.

Lemma fold_minimum_neg_infinity r :
  fold_left np.minimum r (S754_infinity true) = S754_infinity true ∨
  fold_left np.minimum r (S754_infinity true) = S754_nan.
Proof.
  induction r as [|b r IH]; simpl; [auto|].
  destruct (minimum_neg_infinity_l b) as [-> | ->]; [exact IH|].
  right. apply fold_minimum_nan.
Qed.

(** With [-inf] in the array the reduction yields [-inf], or NaN when the
    array also holds a NaN. *)
Lemma min_neg_infinity (a : list float) :
  S754_infinity true ∈ a →
  np.min a = Ok (S754_infinity true) ∨ np.min a = Ok S754_nan.
Proof.
  destruct a as [|x r]; [intros Hin; inversion Hin|].
  simpl. intros Hin.
  enough (fold_left np.minimum r x = S754_infinity true ∨
          fold_left np.minimum r x = S754_nan) as [-> | ->]; [auto | auto |].
  revert x Hin. induction r as [|b r IH]; intros x Hin.
  - apply list_elem_of_singleton in Hin. subst. auto.
  - simpl. apply elem_of_cons in Hin as [<-|Hin].
    + destruct (minimum_neg_infinity_l b) as [-> | ->];
        [apply fold_minimum_neg_infinity | right; apply fold_minimum_nan].
    + apply elem_of_cons in Hin as [<-|Hin].
      * destruct (minimum_neg_infinity_r x) as [-> | ->];
          [apply fold_minimum_neg_infinity | right; apply fold_minimum_nan].
      * apply IH. apply elem_of_cons. right. exact Hin.
Qed.

Lemma outside_table_Ok x model :
  x ≠ [] → model ≠ [] → ∃ b, outside_table x model = Ok b.
Proof.
  intros Hx Hm. destruct x as [|x0 x]; [congruence|].
  destruct model as [|m0 model]; [congruence|].
  unfold outside_table. simpl. destruct (F64.ltb _ _); eauto.
Qed.

(** A NaN among the queries disables both comparisons. *)
Lemma outside_table_nan x model :
  S754_nan ∈ x → model ≠ [] → outside_table x model = Ok false.
Proof.
  intros Hx Hm. unfold outside_table.
  rewrite (min_nan _ Hx), (max_nan _ Hx).
  destruct model as [|m0 model]; [congruence|]. simpl.
  unfold F64.gtb. destruct (fold_left np.maximum model m0); reflexivity.
Qed.

Lemma outside_table_neg_infinity x model m :
  np.min x = Ok (S754_infinity true) → np.min model = Ok m →
  above_neg_infinity m = true → outside_table x model = Ok true.
Proof.
  intros Hx Hm Hfin. unfold outside_table. rewrite Hx, Hm. simpl.
  destruct m as [[]|[]| |[] ? ?]; try discriminate; reflexivity.
Qed.

(** ** [_goes_get_chianti_em] *)

Section ChiantiEm.
Context `{External} `{!Log10Laws np_log10}.

Lemma log10_of_bad_temp (temp : list float) t :
  t ∈ temp → F64.is_nan t = true ∨ F64.ltb t F64.zero = true →
  S754_nan ∈ (np_log10 <$> temp).
Proof.
  intros Hin Hbad. apply list_elem_of_fmap. exists t. split; [|exact Hin].
  destruct Hbad as [Hnan|Hneg].
  - destruct t; try discriminate. symmetry. apply log10_nan.
  - symmetry. apply log10_negative, Hneg.
Qed.

(** C10: a NaN temperature, and a negative one, whose logarithm is NaN,
    make [_goes_get_chianti_em] raise the out-of-range error of the table
    check instead of returning; the call never returns for such an
    array, and a zero temperature is rejected by the same error. *)
Theorem chianti_em_rejects_nan
    (longflux temp : list float) (n : Z) (abundances data_file : string)
    (modeltemp modelflux : list float) :
  (1 ≤ n)%Z →
  abundance_file abundances FILE_EM_COR FILE_EM_PHO = Ok data_file →
  length longflux = length temp →
  load_table data_file ("longfluxGOES" +:+ pretty n) = Ok (modeltemp, modelflux) →
  modeltemp ≠ [] →
  (∀ t, t ∈ temp → F64.is_nan t = true ∨ F64.ltb t F64.zero = true →
     _goes_get_chianti_em longflux temp (SatInt n) abundances
       = Raise TempOutOfRange
     ∧ ∀ longflux' satellite' abundances',
         is_Ok (_goes_get_chianti_em longflux' temp satellite' abundances')
           = false)
  ∧ (∀ s m, S754_zero s ∈ temp → np.min modeltemp = Ok m →
       above_neg_infinity m = true →
       _goes_get_chianti_em longflux temp (SatInt n) abundances
         = Raise TempOutOfRange).
Proof.
  intros Hn Hfile Hlen Htable Hne.
  assert (Hpre :
            _goes_get_chianti_em longflux temp (SatInt n) abundances =
            bind (bind (outside_table (np_log10 <$> temp) modeltemp)
                    (λ outside, if outside then Ok true
                                else bind (np.min (np_log10 <$> temp))
                                          (λ lo, Ok (F64.is_nan lo))))
              (λ outside,
                 bind (raise_if outside TempOutOfRange)
                   (λ _, bind (splrep modeltemp modelflux)
                      (λ spline,
                         bind (np.divide longflux
                                 (splev (np_log10 <$> temp) spline))
                           (λ quot, Ok ((λ q, F64.mul q (F64.of_Z (10 ^ 55)))
                                          <$> quot)))))).
  { unfold _goes_get_chianti_em. simpl.
    destruct (Z.ltb_spec n 1); [lia|]. simpl.
    rewrite Hfile. simpl. rewrite Hlen, Nat.eqb_refl. simpl.
    rewrite Htable. simpl.
    destruct (outside_table _ _) as [[]|]; reflexivity. }
  split.
  - intros t Hin Hbad.
    pose proof (log10_of_bad_temp temp t Hin Hbad) as Hnan.
    split.
    + rewrite Hpre, (outside_table_nan _ _ Hnan Hne). simpl.
      rewrite (min_nan _ Hnan). reflexivity.
    + intros longflux' satellite' abundances'.
      unfold _goes_get_chianti_em.
      destruct (py_int satellite'); [|reflexivity]. simpl.
      destruct (raise_if (sat_ltb satellite' 1) _); [|reflexivity]. simpl.
      destruct (abundance_file abundances' _ _) as [file'|]; [|reflexivity].
      simpl.
      destruct (raise_if (negb _) TempLengthMismatch); [|reflexivity]. simpl.
      destruct (load_table file' _) as [[mt mf]|]; [|reflexivity]. simpl.
      destruct (outside_table _ mt) as [[]|]; try reflexivity. simpl.
      rewrite (min_nan _ Hnan). reflexivity.
  - intros s m Hin Hm Hfin. rewrite Hpre.
    assert (Hinf : S754_infinity true ∈ (np_log10 <$> temp)).
    { apply list_elem_of_fmap. exists (S754_zero s).
      split; [symmetry; apply log10_zero | exact Hin]. }
    destruct (min_neg_infinity _ Hinf) as [Hmin|Hmin].
    + rewrite (outside_table_neg_infinity _ _ _ Hmin Hm Hfin). reflexivity.
    + destruct (outside_table_Ok (np_log10 <$> temp) modeltemp)
        as [[] ->]; try assumption; simpl; try reflexivity.
      * intros Hnil. rewrite Hnil in Hinf. inversion Hinf.
      * rewrite Hmin. reflexivity.
Qed.
End ChiantiEm.

(** ** Timestamps out of order *)

Lemma wrap64_small z : (- 2 ^ 63 ≤ z < 2 ^ 63)%Z → np.wrap64 z = z.
Proof. intros Hz. unfold np.wrap64. rewrite Z.mod_small; lia. Qed.

Lemma td_sub_in_range a b : in_range a → in_range b → np.td_sub a b = (a - b)%Z.
Proof. unfold in_range, np.td_sub. intros Ha Hb. apply wrap64_small. lia. Qed.

Lemma td_div_nonpos d : (d ≤ 0)%Z → (np.td_div d 2 ≤ 0)%Z.
Proof.
  intros Hd. unfold np.td_div.
  replace 0%Z with (0 ÷ 2)%Z by reflexivity. apply Z.quot_le_mono; lia.
Qed.

(** When the second timestamp does not follow the first, the first
    weight is [<= 0]. *)
Lemma first_weight_nonpos t0 t1 rest dt :
  in_range t0 → in_range t1 → (t1 ≤ t0)%Z →
  _time_intervals (t0 :: t1 :: rest) = Ok dt →
  Exists (λ w, F64.leb w F64.zero = true) dt.
Proof.
  intros H0 H1 Hle Hdt.
  apply time_intervals_ticks in Hdt as (ticks & -> & _ & _ & Hfirst).
  simpl in Hfirst. rewrite td_sub_in_range in Hfirst by assumption.
  destruct ticks as [|d ticks]; [discriminate|]. injection Hfirst as ->.
  apply Exists_cons. left.
  rewrite leb_zero_nonpos. apply ms_to_s_nonpos, td_div_nonpos. lia.
Qed.

Lemma decreasing_head ts :
  decreasing ts = true → 2 ≤ length ts →
  ∃ t0 t1 rest, ts = t0 :: t1 :: rest ∧ (t1 < t0)%Z.
Proof.
  destruct ts as [|t0 [|t1 rest]]; simpl; try lia.
  intros Hd _. apply andb_true_iff in Hd as [Hlt _].
  exists t0, t1, rest. split; [reflexivity | lia].
Qed.

Section IntegrationPaths.
Context `{External}.

Lemma calc_rad_loss_unchronological temp em rate obstime cumulative dt :
  radiative_loss_rates temp em = Ok rate →
  _time_intervals obstime = Ok dt →
  Exists (λ w, F64.leb w F64.zero = true) dt →
  ∃ e, calc_rad_loss temp em (Some obstime) cumulative = Raise e ∧
       kind_of e = ValidationError.
Proof.
  intros Hrate Hdt Hex. unfold calc_rad_loss. rewrite Hrate. simpl.
  destruct (lengths_differ _ _ _); simpl.
  - exists ObstimeLengthMismatch. split; reflexivity.
  - rewrite (checked_intervals_nonpos _ _ Hdt Hex). simpl.
    exists NotChronological. split; reflexivity.
Qed.

Lemma goes_lx_unchronological longflux shortflux obstime date cumulative dt :
  _time_intervals obstime = Ok dt →
  Exists (λ w, F64.leb w F64.zero = true) dt →
  ∃ e, goes_lx longflux shortflux (Some obstime) date cumulative = Raise e ∧
       kind_of e = ValidationError.
Proof.
  intros Hdt Hex. unfold goes_lx.
  destruct (lengths_differ _ _ _); simpl.
  - exists ObstimeLengthMismatch. split; reflexivity.
  - rewrite (checked_intervals_nonpos _ _ Hdt Hex). simpl.
    exists NotChronological. split; reflexivity.
Qed.

(** C8: [_time_intervals] rejects fewer than two timestamps with a
    validation error and otherwise returns without looking at the
    weights; the test for a weight [<= 0] is made by the integration
    paths [calc_rad_loss] (once its rates are computed) and [goes_lx],
    which raise a validation error for every timestamp sequence with
    such a weight, decreasing sequences among them. *)
Theorem unchronological_rejected_by_integration :
  (∀ obstime, length obstime < 2 →
     _time_intervals obstime = Raise ObstimeTooShort ∧
     kind_of ObstimeTooShort = ValidationError)
  ∧ (∀ obstime, 2 ≤ length obstime →
       ∃ dt, _time_intervals obstime = Ok dt)
  ∧ (∀ obstime dt, _time_intervals obstime = Ok dt →
       Exists (λ w, F64.leb w F64.zero = true) dt →
       (∀ temp em rate cumulative,
          radiative_loss_rates temp em = Ok rate →
          ∃ e, calc_rad_loss temp em (Some obstime) cumulative = Raise e ∧
               kind_of e = ValidationError)
       ∧ (∀ longflux shortflux date cumulative,
            ∃ e, goes_lx longflux shortflux (Some obstime) date cumulative
                   = Raise e ∧
                 kind_of e = ValidationError))
  ∧ (∀ obstime, 2 ≤ length obstime → Forall in_range obstime →
       decreasing obstime = true →
       ∃ dt, _time_intervals obstime = Ok dt ∧
             Exists (λ w, F64.leb w F64.zero = true) dt).
Proof.
  split; [|split; [|split]].
  - intros obstime Hn. split; [apply time_intervals_short, Hn | reflexivity].
  - apply time_intervals_Ok.
  - intros obstime dt Hdt Hex. split.
    + intros temp em rate cumulative Hrate.
      eapply calc_rad_loss_unchronological; eassumption.
    + intros longflux shortflux date cumulative.
      eapply goes_lx_unchronological; eassumption.
  - intros obstime Hn Hrange Hdec.
    destruct (time_intervals_Ok obstime Hn) as [dt Hdt].
    exists dt. split; [exact Hdt|].
    destruct (decreasing_head obstime Hdec Hn) as (t0 & t1 & rest & -> & Hlt).
    apply Forall_cons in Hrange as [H0 Hrange].
    apply Forall_cons in Hrange as [H1 _].
    apply (first_weight_nonpos t0 t1 rest dt);
      [assumption | assumption | lia | exact Hdt].
Qed.

(** ** The coupling of [cumulative] and [obstime] *)

(** C6: without timestamps, [goes_lx] raises the validation error when
    [cumulative] is set and otherwise returns the two luminosity arrays
    alone, for every input; [calc_rad_loss] does the same with its single
    rate array once the rates themselves have been computed, that is once
    the table check has passed, and otherwise raises the error of the
    rate computation. *)
Theorem cumulative_needs_obstime :
  (∀ longflux shortflux date,
     goes_lx longflux shortflux None date true = Raise CumulativeWithoutObstime
     ∧ kind_of CumulativeWithoutObstime = ValidationError
     ∧ goes_lx longflux shortflux None date false =
         Ok (<["longlum" := VArr (_calc_xraylum longflux date)]>
             (<["shortlum" := VArr (_calc_xraylum shortflux date)]> ∅)))
  ∧ (∀ temp em rate, radiative_loss_rates temp em = Ok rate →
       calc_rad_loss temp em None true = Raise CumulativeWithoutObstime
       ∧ calc_rad_loss temp em None false =
           Ok (<["rad_loss_rate" := VArr rate]> ∅))
  ∧ (∀ temp em e, radiative_loss_rates temp em = Raise e →
       ∀ cumulative, calc_rad_loss temp em None cumulative = Raise e).
Proof.
  split; [|split].
  - intros. repeat split; reflexivity.
  - intros temp em rate Hrate. unfold calc_rad_loss. rewrite Hrate.
    split; reflexivity.
  - intros temp em e Hrate cumulative. unfold calc_rad_loss. rewrite Hrate.
    reflexivity.
Qed.

(** ** The three-way length test *)

(** The chained comparison holds only when both neighbouring pairs
    differ. *)
Lemma lengths_differ_spec a b c :
  lengths_differ a b c = true ↔ a ≠ b ∧ b ≠ c.
Proof.
  unfold lengths_differ. rewrite andb_true_iff, !negb_true_iff.
  rewrite !Nat.eqb_neq. reflexivity.
Qed.

Lemma multiply_singleton x (dt : list float) :
  2 ≤ length dt → np.multiply [x] dt = Ok (F64.mul x <$> dt).
Proof.
  intros Hdt. unfold np.multiply, np.broadcast.
  destruct dt as [|? [|? ?]]; simpl in *; try lia. reflexivity.
Qed.

Lemma checked_intervals_even_spacing :
  checked_intervals [0; 2000; 4000]%Z =
  Ok [F64.of_Z 1; F64.of_Z 2; F64.of_Z 1].
Proof. vm_compute. reflexivity. Qed.
End IntegrationPaths.

(** C5: the length test [len(a) != len(b) != len(c)] lets unequal lengths
    through: it never fires when the first two lengths agree, nor when
    the last two do.  [goes_lx] returns for one long flux sample against
    three short flux samples and three timestamps, and [calc_rad_loss]
    returns for one temperature and one emission measure against three
    timestamps, whereas lengths 2, 3, 4 are refused. *)
Theorem length_test_lets_mismatch_through :
  (∀ a c, lengths_differ a a c = false)
  ∧ (∀ a b, lengths_differ a b b = false)
  ∧ (∀ (E : External) x y1 y2 y3 date,
       ∃ out, goes_lx [x] [y1; y2; y3] (Some [0; 2000; 4000]%Z) date false
                = Ok out)
  ∧ is_Ok (calc_rad_loss (H := Fixture.env) [F64.of_Z 11] [F64.of_Z (10 ^ 48)]
             (Some [0; 2000; 4000]%Z) false) = true
  ∧ lengths_differ 2 3 4 = true.
Proof.
  split; [|split; [|split; [|split]]].
  - intros a c. unfold lengths_differ. rewrite Nat.eqb_refl. reflexivity.
  - intros a b. unfold lengths_differ. rewrite Nat.eqb_refl.
    apply andb_false_r.
  - intros E x y1 y2 y3 date. unfold goes_lx.
    change (lengths_differ _ _ _) with false.
    cbn [raise_if bind].
    rewrite checked_intervals_even_spacing. cbn [bind].
    unfold _calc_xraylum. cbn [fmap list_fmap].
    rewrite multiply_singleton by (simpl; lia). cbn [bind].
    unfold np.multiply. rewrite broadcast_same by reflexivity.
    eexists. reflexivity.
  - vm_compute. reflexivity.
  - reflexivity.
Qed.

(** ** The weights of [_time_intervals] *)

(** What the code computes: every weight is half the neighbouring
    difference as a whole number of milliseconds (the half rounded
    toward zero), then divided by 1000. *)
Lemma time_intervals_weights obstime dt :
  _time_intervals obstime = Ok dt →
  let n := length obstime in
  let w a b := ms_to_s (np.td_div (np.td_sub b a) 2) in
  length dt = n
  ∧ dt !! 0 = Some (w (nth 0 obstime 0%Z) (nth 1 obstime 0%Z))
  ∧ dt !! (n - 1) = Some (w (nth (n - 2) obstime 0%Z) (nth (n - 1) obstime 0%Z))
  ∧ ∀ i a b, 0 < i → i + 1 < n →
      obstime !! (i - 1) = Some a → obstime !! (i + 1) = Some b →
      dt !! i = Some (w a b).
Proof.
  intros Hdt n w. split; [exact (time_intervals_length _ _ Hdt)|].
  unfold _time_intervals in Hdt. fold n in Hdt.
  apply bind_Ok in Hdt as (ticks & Hticks & Hdt). injection Hdt as <-.
  destruct (Nat.ltb_spec n 2) as [|Hge]; [discriminate|].
  destruct (Nat.eqb_spec n 2) as [Heq|Hne]; injection Hticks as <-.
  - rewrite Heq. repeat split; try reflexivity. intros; lia.
  - set (zs := zip_with _ _ _).
    assert (Hzs : length zs = n - 2).
    { subst zs. rewrite length_zip_with, length_drop, length_take. fold n. lia. }
    split; [reflexivity|]. split.
    + rewrite list_lookup_fmap.
      replace (n - 1) with (S (length zs)) by lia. cbn [lookup list_lookup].
      rewrite (lookup_app_r zs) by lia. rewrite Nat.sub_diag. reflexivity.
    + intros i a b Hi Hin Ha Hb. rewrite list_lookup_fmap.
      destruct i as [|i]; [lia|]. cbn [lookup list_lookup].
      rewrite (lookup_app_l zs) by lia. subst zs.
      rewrite lookup_zip_with, lookup_drop, lookup_take_lt by lia.
      replace (2 + i) with (S i + 1) by lia.
      replace (S i - 1) with i in Ha by lia.
      rewrite Hb, Ha. reflexivity.
Qed.

(** The two examples of the specification, at any start time. *)
Lemma time_intervals_examples t0 :
  in_range t0 → in_range (t0 + 6000) →
  _time_intervals [t0; t0 + 2000]%Z = Ok [F64.of_Z 1; F64.of_Z 1]
  ∧ _time_intervals [t0; t0 + 2000; t0 + 4000; t0 + 6000]%Z
    = Ok [F64.of_Z 1; F64.of_Z 2; F64.of_Z 2; F64.of_Z 1].
Proof.
  intros H0 H6. unfold in_range in *.
  assert (Hsub : ∀ a b, (0 ≤ a ≤ 6000)%Z → (0 ≤ b ≤ 6000)%Z →
            np.td_sub (t0 + a) (t0 + b) = (a - b)%Z).
  { intros a b Ha Hb. rewrite td_sub_in_range by (unfold in_range; lia). lia. }
  pose proof (Hsub 2000 0 ltac:(lia) ltac:(lia))%Z as H20.
  pose proof (Hsub 4000 0 ltac:(lia) ltac:(lia))%Z as H40.
  pose proof (Hsub 6000 2000 ltac:(lia) ltac:(lia))%Z as H62.
  pose proof (Hsub 6000 4000 ltac:(lia) ltac:(lia))%Z as H64.
  rewrite Z.add_0_r in H20, H40.
  split; unfold _time_intervals;
    cbn [length Nat.ltb Nat.leb Nat.eqb nth drop take zip_with app bind
         Nat.sub];
    rewrite ?H20, ?H40, ?H62, ?H64; vm_compute; reflexivity.
Qed.

(** C3: half a difference is taken on the integer millisecond counts, so
    an odd difference loses its half millisecond.  For timestamps one
    millisecond apart the code returns the weights 0.0 and 0.0 where
    half the difference is 0.0005 s, and [goes_lx] then rejects three
    timestamps in increasing order as not chronological. *)
Theorem time_intervals_drop_half_milliseconds :
  increasing [0; 1]%Z = true
  ∧ _time_intervals [0; 1]%Z = Ok [F64.zero; F64.zero]
  ∧ spec_time_intervals [0; 1]%Z = [F64.dec 5 4; F64.dec 5 4]
  ∧ F64.zero ≠ F64.dec 5 4
  ∧ increasing [0; 1; 2]%Z = true
  ∧ _time_intervals [0; 1; 2]%Z = Ok [F64.zero; F64.dec 1 3; F64.zero]
  ∧ ∀ (E : External) x1 x2 x3 y1 y2 y3 date cumulative,
      goes_lx [x1; x2; x3] [y1; y2; y3] (Some [0; 1; 2]%Z) date cumulative
        = Raise NotChronological.
Proof.
  do 3 (split; [vm_compute; reflexivity|]).
  split; [vm_compute; discriminate|].
  do 2 (split; [vm_compute; reflexivity|]).
  intros E x1 x2 x3 y1 y2 y3 date cumulative. unfold goes_lx.
  change (lengths_differ _ _ _) with false. cbn [raise_if bind].
  replace (checked_intervals [0; 1; 2]%Z)
    with (@Raise (list float) NotChronological)
    by (vm_compute; reflexivity).
  reflexivity.
Qed.

(** ** The order of float64 values *)

Lemma ltb_rank x y :
  F64.is_nan x = false → F64.is_nan y = false →
  F64.ltb x y = true ↔ lex_lt (rank x) (rank y).
Proof.
  unfold F64.ltb, SFltb, lex_lt.
  destruct x as [sx|sx| |sx mx ex], y as [sy|sy| |sy my ey];
    try destruct sx; try destruct sy;
    simpl; intros Hx Hy; try discriminate;
    try (split; [discriminate | lia]);
    try (split; [lia | reflexivity]);
    change (Pos.compare_cont Eq mx my) with (Pos.compare mx my);
    destruct (Z.compare_spec ex ey); simpl;
    try (split; [discriminate | lia]); try (split; [lia | reflexivity]);
    destruct (Pos.compare_spec mx my); simpl;
    try (split; [discriminate | lia]); try (split; [lia | reflexivity]).
Qed.

Lemma ltb_nan_r x : F64.ltb x S754_nan = false.
Proof. destruct x as [[]|[]| |[] ? ?]; reflexivity. Qed.

Lemma ltb_nan_l y : F64.ltb S754_nan y = false.
Proof. reflexivity. Qed.

(** Case analysis on a comparison, leaving its meaning on the keys. *)
Ltac order_case a b :=
  let H := fresh "Hcmp" in
  destruct (F64.ltb a b) eqn:H;
  [ apply ltb_rank in H; [|assumption|assumption]
  | assert (¬ lex_lt (rank a) (rank b))
      by (rewrite <- ltb_rank by assumption; congruence); clear H ].

Lemma ltb_minimum a b z :
  F64.is_nan a = false → F64.is_nan b = false →
  F64.ltb (np.minimum a b) z = F64.ltb a z || F64.ltb b z.
Proof.
  intros Ha Hb. unfold np.minimum. rewrite Ha, orb_false_r.
  destruct (F64.is_nan z) eqn:Hz.
  { destruct z; try discriminate. rewrite !ltb_nan_r. reflexivity. }
  order_case a b; order_case a z; order_case b z;
    try reflexivity; exfalso; unfold lex_lt in *; try lia.
Qed.

Lemma gtb_maximum a b z :
  F64.is_nan a = false → F64.is_nan b = false →
  F64.gtb (np.maximum a b) z = F64.gtb a z || F64.gtb b z.
Proof.
  intros Ha Hb. unfold np.maximum, F64.gtb. rewrite Ha, orb_false_r.
  change SFltb with F64.ltb.
  destruct (F64.is_nan z) eqn:Hz.
  { destruct z; try discriminate. rewrite !ltb_nan_l. reflexivity. }
  order_case b a; order_case z a; order_case z b;
    try reflexivity; exfalso; unfold lex_lt in *; lia.
Qed.

Lemma maximum_not_nan a b :
  F64.is_nan a = false → F64.is_nan b = false →
  F64.is_nan (np.maximum a b) = false.
Proof. unfold np.maximum. intros Ha Hb. destruct (_ || _); assumption. Qed.

(** The smallest element of an array without NaN lies below a bound
    exactly when some element does; dually for the largest. *)
Lemma ltb_fold_minimum r x z :
  Forall (λ v, F64.is_nan v = false) (x :: r) →
  F64.ltb (fold_left np.minimum r x) z = existsb (λ v, F64.ltb v z) (x :: r).
Proof.
  revert x; induction r as [|b r IH]; intros x Hnan.
  - simpl. rewrite orb_false_r. reflexivity.
  - apply Forall_cons in Hnan as [Hx Hnan].
    pose proof Hnan as Hnan'. apply Forall_cons in Hnan' as [Hb Hr].
    cbn [fold_left]. rewrite IH.
    + cbn [existsb]. rewrite ltb_minimum by assumption.
      rewrite orb_assoc. reflexivity.
    + apply Forall_cons. split; [apply minimum_not_nan; assumption | exact Hr].
Qed.

Lemma gtb_fold_maximum r x z :
  Forall (λ v, F64.is_nan v = false) (x :: r) →
  F64.gtb (fold_left np.maximum r x) z = existsb (λ v, F64.gtb v z) (x :: r).
Proof.
  revert x; induction r as [|b r IH]; intros x Hnan.
  - simpl. rewrite orb_false_r. reflexivity.
  - apply Forall_cons in Hnan as [Hx Hnan].
    pose proof Hnan as Hnan'. apply Forall_cons in Hnan' as [Hb Hr].
    cbn [fold_left]. rewrite IH.
    + cbn [existsb]. rewrite gtb_maximum by assumption.
      rewrite orb_assoc. reflexivity.
    + apply Forall_cons. split; [apply maximum_not_nan; assumption | exact Hr].
Qed.

Lemma existsb_orb {A} (f g : A → bool) l :
  existsb (λ v, f v || g v) l = existsb f l || existsb g l.
Proof.
  induction l as [|v l IH]; simpl; [reflexivity|].
  rewrite IH. destruct (f v), (g v), (existsb f l); reflexivity.
Qed.

(** On queries without NaN the range test is exact: it fires when, and
    only when, some query lies strictly below the smallest or strictly
    above the largest table entry. *)
Lemma outside_table_exact x model lo hi :
  x ≠ [] → Forall (λ v, F64.is_nan v = false) x →
  np.min model = Ok lo → np.max model = Ok hi →
  outside_table x model =
  Ok (existsb (λ v, F64.ltb v lo || F64.gtb v hi) x).
Proof.
  intros Hne Hnan Hlo Hhi. destruct x as [|x0 x]; [congruence|].
  unfold outside_table. rewrite Hlo, Hhi. cbn [np.min np.max bind].
  rewrite ltb_fold_minimum, gtb_fold_maximum by assumption.
  rewrite existsb_orb. destruct (existsb (λ v, F64.ltb v lo) _); reflexivity.
Qed.

(** ** [_goes_get_chianti_temp] *)

(** Without NaN among the ratios, [_goes_get_chianti_temp] raises the
    range error exactly when some ratio lies strictly below the smallest
    or strictly above the largest ratio of the table; ratios equal to
    either bound pass, and the spline is then fitted and evaluated. *)
Lemma chianti_temp_range_check_exact `{External}
    (ratio : list float) (n : Z) (abundances data_file : string)
    (modeltemp modelratio : list float) (lo hi : float) :
  (1 ≤ n)%Z →
  abundance_file abundances FILE_TEMP_COR FILE_TEMP_PHO = Ok data_file →
  load_table data_file ("ratioGOES" +:+ pretty n) = Ok (modeltemp, modelratio) →
  np.min modelratio = Ok lo → np.max modelratio = Ok hi →
  ratio ≠ [] → Forall (λ v, F64.is_nan v = false) ratio →
  _goes_get_chianti_temp ratio (SatInt n) abundances =
  if existsb (λ v, F64.ltb v lo || F64.gtb v hi) ratio
  then Raise FluxratioOutOfRange
  else bind (splrep modelratio modeltemp)
         (λ spline, Ok (np_power10 <$> splev ratio spline)).
Proof.
  intros Hn Hfile Htable Hlo Hhi Hne Hnan.
  unfold _goes_get_chianti_temp. simpl.
  destruct (Z.ltb_spec n 1); [lia|]. simpl.
  rewrite Hfile. simpl. rewrite Htable. simpl.
  rewrite (outside_table_exact _ _ lo hi) by assumption. simpl.
  destruct (existsb _ ratio); reflexivity.
Qed.

Example chianti_temp_bounds_pass :
  is_Ok (_goes_get_chianti_temp (H := Fixture.env)
           [F64.dec 1 3; F64.dec 1 0] (SatInt 15) "coronal") = true.
Proof. vm_compute. reflexivity. Qed.

(** With a NaN among the ratios the range test passes whatever the other
    ratios are, and the spline is evaluated at all of them. *)
Lemma chianti_temp_nan_unchecked `{External}
    (ratio : list float) (n : Z) (abundances data_file : string)
    (modeltemp modelratio : list float) (spline : tck) :
  (1 ≤ n)%Z →
  abundance_file abundances FILE_TEMP_COR FILE_TEMP_PHO = Ok data_file →
  load_table data_file ("ratioGOES" +:+ pretty n) = Ok (modeltemp, modelratio) →
  modelratio ≠ [] →
  splrep modelratio modeltemp = Ok spline →
  S754_nan ∈ ratio →
  _goes_get_chianti_temp ratio (SatInt n) abundances
    = Ok (np_power10 <$> splev ratio spline).
Proof.
  intros Hn Hfile Htable Hne Hfit Hnan. unfold _goes_get_chianti_temp. simpl.
  destruct (Z.ltb_spec n 1); [lia|]. simpl.
  rewrite Hfile. simpl. rewrite Htable. simpl.
  rewrite (outside_table_nan _ _ Hnan Hne). simpl.
  rewrite Hfit. reflexivity.
Qed.

(** C7: the range test of [_goes_get_chianti_temp] compares the minimum
    and the maximum of the ratios, which are NaN as soon as one ratio
    is.  With the table of ratios 0.001 to 1.0, the array [nan, -1.0]
    is answered with temperatures although -1.0 lies below the table,
    the second one extrapolated; without the NaN the same ratio is
    refused. *)
Theorem chianti_temp_nan_disables_range_check :
  (∃ modeltemp modelratio,
     load_table (H := Fixture.env) FILE_TEMP_COR "ratioGOES15"
       = Ok (modeltemp, modelratio)
     ∧ np.min modelratio = Ok (F64.dec 1 3)
     ∧ np.max modelratio = Ok (F64.dec 1 0))
  ∧ F64.ltb (F64.of_Z (-1)) (F64.dec 1 3) = true
  ∧ is_Ok (_goes_get_chianti_temp (H := Fixture.env)
             [F64.nan; F64.of_Z (-1)] (SatInt 15) "coronal") = true
  ∧ _goes_get_chianti_temp (H := Fixture.env)
      [F64.dec 1 1; F64.of_Z (-1)] (SatInt 15) "coronal"
    = Raise FluxratioOutOfRange.
Proof.
  split; [|repeat split; vm_compute; reflexivity].
  eexists _, _. split; [vm_compute; reflexivity|].
  split; vm_compute; reflexivity.
Qed.

(** ** The wrappers *)

Lemma load_global_sunpy :
  load_global "sunpy" = Raise (NameNotDefined "sunpy").
Proof. vm_compute. reflexivity. Qed.

Lemma load_global_lightcurve : load_global "lightcurve" = Ok tt.
Proof. vm_compute. reflexivity. Qed.

Section WrapperProperties.
Context `{External}.

(** C9: [rad_loss_rate] and [xray_luminosity] name the class
    [sunpy.lightcurve.GOESLightCurve], and the module binds no name
    [sunpy]: whatever the argument, lightcurve or not, the call ends in
    a NameError, neither a TypeError nor a copy. *)
Theorem wrappers_raise_name_error (h : gmap nat pyobj) (goeslc : nat) :
  rad_loss_rate h goeslc = Raise (NameNotDefined "sunpy")
  ∧ xray_luminosity h goeslc = Raise (NameNotDefined "sunpy")
  ∧ exn_class (NameNotDefined "sunpy") = NameError
  ∧ kind_of (NameNotDefined "sunpy") ≠ TypeErrorClass.
Proof.
  unfold rad_loss_rate, xray_luminosity, check_lightcurve.
  rewrite load_global_sunpy. repeat split. discriminate.
Qed.

(** [temp_em] does check the type. *)
Lemma temp_em_wrong_type (h : gmap nat pyobj) (goeslc : nat) type_name
    abundances :
  h !! goeslc = Some (OtherObject type_name) →
  temp_em h goeslc abundances = Raise NotGOESLightCurve
  ∧ kind_of NotGOESLightCurve = TypeErrorClass.
Proof.
  intros Hobj. unfold temp_em, check_lightcurve.
  rewrite load_global_lightcurve, Hobj. split; reflexivity.
Qed.

(** [temp_em] returns a new object holding the two new columns and
    leaves every object of the caller, the argument included, as it
    was. *)
Lemma temp_em_returns_copy (h h' : gmap nat pyobj) (goeslc new : nat)
    abundances :
  temp_em h goeslc abundances = Ok (h', new) →
  h !! new = None ∧ new ≠ goeslc
  ∧ (∀ l, l ≠ new → h' !! l = h !! l)
  ∧ ∃ data meta temp em,
      h !! goeslc = Some (GOESLightCurve data meta)
      ∧ h' !! goeslc = Some (GOESLightCurve data meta)
      ∧ h' !! new = Some (GOESLightCurve
                            (df_set (df_set data "temperature" temp) "em" em)
                            meta).
Proof.
  unfold temp_em, check_lightcurve. intros Hrun.
  apply bind_Ok in Hrun as ([data meta] & Hlc & Hrun).
  apply bind_Ok in Hlc as (u & _ & Hlc).
  destruct (h !! goeslc) as [[data0 meta0|]|] eqn:Hobj; try discriminate.
  injection Hlc as -> ->.
  apply bind_Ok in Hrun as (xrsb & _ & Hrun).
  apply bind_Ok in Hrun as (xrsa & _ & Hrun).
  apply bind_Ok in Hrun as (telescop & _ & Hrun).
  apply bind_Ok in Hrun as (satellite & _ & Hrun).
  apply bind_Ok in Hrun as (date & _ & Hrun).
  apply bind_Ok in Hrun as ([temp em] & _ & Hrun).
  unfold deepcopy in Hrun. injection Hrun as <- <-.
  assert (Hfresh : h !! fresh (dom h) = None)
    by (apply not_elem_of_dom, is_fresh).
  assert (Hne : fresh (dom h) ≠ goeslc) by congruence.
  split; [exact Hfresh|]. split; [exact Hne|]. split.
  - intros l Hl. rewrite !lookup_insert_ne by congruence. reflexivity.
  - exists data, meta, temp, em. split; [reflexivity|]. split.
    + rewrite !lookup_insert_ne by congruence. exact Hobj.
    + apply lookup_insert_eq.
Qed.
End WrapperProperties.

(** ** Runs on the in-memory environment *)

#[export] Instance fixture_log10_laws : Log10Laws Fixture.log10.
Proof.
  split.
  - reflexivity.
  - intros [[]|[]| |[] m e]; simpl; intros Hneg;
      try reflexivity; discriminate.
  - reflexivity.
Qed.

(** Satellite 15 on the sample fluxes: both channels are divided. *)
Lemma flux_precorrection_witness :
  longflux_corrected Sample.longflux (SatInt 15) Sample.date
    = (λ x, F64.div x (F64.dec 7 1)) <$> Sample.longflux
  ∧ shortflux_corrected Sample.shortflux (SatInt 15)
    = (λ x, F64.div x (F64.dec 85 2)) <$> Sample.shortflux.
Proof.
  exact (proj1 (flux_precorrection (H := Fixture.env) Sample.longflux
                  Sample.shortflux 15 Sample.date "coronal" eq_refl)
               ltac:(lia)).
Defined.

(** The mask on sample fluxes whose second long channel value is
    faint. *)
Lemma ratio_quality_mask_witness :
  ∃ ratio,
    goes_chianti_tem (H := Fixture.env) Sample.faint_longflux Sample.shortflux
        (SatInt 15) Sample.date "coronal" =
      bind (_goes_get_chianti_temp (H := Fixture.env) ratio (SatInt 15)
              "coronal")
        (λ temp,
           bind (_goes_get_chianti_em (H := Fixture.env)
                   (longflux_corrected Sample.faint_longflux (SatInt 15)
                      Sample.date)
                   temp (SatInt 15) "coronal")
             (λ em, Ok (temp, em)))
    ∧ length ratio = length (shortflux_corrected Sample.shortflux (SatInt 15))
    ∧ ∀ i s l,
        shortflux_corrected Sample.shortflux (SatInt 15) !! i = Some s →
        longflux_corrected Sample.faint_longflux (SatInt 15) Sample.date !! i
          = Some l →
        ratio !! i =
        Some (if F64.ltb s (F64.dec 1 10) || F64.ltb l (F64.dec 3 8)
              then F64.dec 3 3 else F64.div s l).
Proof.
  exact (ratio_quality_mask (H := Fixture.env) Sample.faint_longflux
           Sample.shortflux 15 Sample.date "coronal" eq_refl ltac:(lia)).
Defined.

(** Three samples with their timestamps, through [calc_rad_loss] and
    through [goes_lx], cumulative sums requested. *)
Lemma cumulative_last_is_total_witness :
  (∃ out rate dt prod cumul,
     calc_rad_loss (H := Fixture.env) Sample.temp Sample.em
       (Some Sample.obstime) true = Ok out
     ∧ out !! "rad_loss_rate" = Some (VArr rate)
     ∧ _time_intervals Sample.obstime = Ok dt
     ∧ np.multiply rate dt = Ok prod
     ∧ out !! "rad_loss_int" = Some (VNum (Fixture.sum prod))
     ∧ out !! "rad_loss_cumul" = Some (VArr cumul)
     ∧ length cumul = 3
     ∧ last cumul = Some (Fixture.sum prod))
  ∧ (∃ out lcumul ltotal scumul stotal,
       goes_lx (H := Fixture.env) Sample.longflux Sample.shortflux
         (Some Sample.obstime) None true = Ok out
       ∧ out !! "longlum_int" = Some (VNum ltotal)
       ∧ out !! "longlum_cumul" = Some (VArr lcumul)
       ∧ last lcumul = Some ltotal
       ∧ out !! "shortlum_int" = Some (VNum stotal)
       ∧ out !! "shortlum_cumul" = Some (VArr scumul)
       ∧ last scumul = Some stotal).
Proof.
  split.
  - destruct (is_Ok_true (calc_rad_loss (H := Fixture.env) Sample.temp
                            Sample.em (Some Sample.obstime) true))
      as [out Hrun]; [vm_compute; reflexivity|].
    destruct (proj1 (cumulative_last_is_total (H := Fixture.env)) _ _ _ _ Hrun)
      as (rate & dt & prod & cumul & H1 & H2 & H3 & H4 & H5 & H6 & H7).
    exists out, rate, dt, prod, cumul. repeat split; assumption.
  - destruct (is_Ok_true (goes_lx (H := Fixture.env) Sample.longflux
                            Sample.shortflux (Some Sample.obstime) None true))
      as [out Hrun]; [vm_compute; reflexivity|].
    destruct (proj2 (cumulative_last_is_total (H := Fixture.env)) _ _ _ _ _ Hrun)
      as (dt & lprod & sprod & lcumul & scumul & H1 & H2 & H3 & H4 & H5 & H6
          & H7 & H8 & H9).
    exists out, lcumul, (Fixture.sum lprod), scumul, (Fixture.sum sprod).
    repeat split; assumption.
Defined.

(** Without timestamps, [calc_rad_loss] on temperatures beyond the table
    does not return when [cumulative=False], and raises the range error,
    not the validation error, when [cumulative=True]. *)
Lemma cumulative_needs_obstime_counterexample :
  calc_rad_loss (H := Fixture.env) Sample.hot_temp Sample.em None false
    = Raise TempOutOfRange
  ∧ is_Ok (calc_rad_loss (H := Fixture.env) Sample.hot_temp Sample.em None
             false) = false
  ∧ calc_rad_loss (H := Fixture.env) Sample.hot_temp Sample.em None true
    = Raise TempOutOfRange
  ∧ kind_of TempOutOfRange ≠ ValidationError.
Proof. repeat split; try (vm_compute; reflexivity). discriminate. Qed.

(** The same call for temperatures inside the table. *)
Lemma cumulative_needs_obstime_witness :
  ∃ rate,
    radiative_loss_rates (H := Fixture.env) Sample.temp Sample.em = Ok rate
    ∧ calc_rad_loss (H := Fixture.env) Sample.temp Sample.em None true
      = Raise CumulativeWithoutObstime
    ∧ calc_rad_loss (H := Fixture.env) Sample.temp Sample.em None false
      = Ok (<["rad_loss_rate" := VArr rate]> ∅).
Proof.
  destruct (is_Ok_true (radiative_loss_rates (H := Fixture.env) Sample.temp
                          Sample.em))
    as [rate Hrate]; [vm_compute; reflexivity|].
  exists rate. split; [exact Hrate|].
  exact (proj1 (proj2 (cumulative_needs_obstime (H := Fixture.env)))
           Sample.temp Sample.em rate Hrate).
Defined.

(** On decreasing timestamps [_time_intervals] itself returns, with
    weights below zero. *)
Lemma unchronological_counterexample :
  decreasing Sample.reversed_obstime = true
  ∧ _time_intervals Sample.reversed_obstime
    = Ok [F64.of_Z (-2); F64.of_Z (-3); F64.of_Z (-1)]
  ∧ is_Ok (_time_intervals Sample.reversed_obstime) = true
  ∧ F64.leb (F64.of_Z (-2)) F64.zero = true.
Proof. repeat split; vm_compute; reflexivity. Qed.

(** On the same timestamps both integration paths raise. *)
Lemma unchronological_rejected_by_integration_witness :
  ∃ dt e1 e2,
    _time_intervals Sample.reversed_obstime = Ok dt
    ∧ goes_lx (H := Fixture.env) Sample.longflux Sample.shortflux
        (Some Sample.reversed_obstime) None false = Raise e1
    ∧ kind_of e1 = ValidationError
    ∧ calc_rad_loss (H := Fixture.env) Sample.temp Sample.em
        (Some Sample.reversed_obstime) false = Raise e2
    ∧ kind_of e2 = ValidationError.
Proof.
  pose proof (unchronological_rejected_by_integration (H := Fixture.env))
    as (_ & _ & Hpaths & Hdec).
  destruct (Hdec Sample.reversed_obstime) as (dt & Hdt & Hex).
  - simpl. lia.
  - repeat constructor; unfold in_range; lia.
  - reflexivity.
  - destruct (Hpaths _ dt Hdt Hex) as [Hrad Hlx].
    destruct (Hlx Sample.longflux Sample.shortflux None false)
      as (e1 & He1 & Hk1).
    destruct (is_Ok_true (radiative_loss_rates (H := Fixture.env) Sample.temp
                            Sample.em))
      as [rate Hrate]; [vm_compute; reflexivity|].
    destruct (Hrad Sample.temp Sample.em rate false Hrate)
      as (e2 & He2 & Hk2).
    exists dt, e1, e2. repeat split; assumption.
Defined.

(** A NaN as the second temperature. *)
Lemma chianti_em_rejects_nan_witness :
  _goes_get_chianti_em (H := Fixture.env) Sample.longflux Sample.nan_temp
    (SatInt 15) "coronal"
  = Raise TempOutOfRange
  ∧ ∀ longflux satellite abundances,
      is_Ok (_goes_get_chianti_em (H := Fixture.env) longflux Sample.nan_temp
               satellite abundances) = false.
Proof.
  destruct (is_Ok_true (load_table (H := Fixture.env) FILE_EM_COR
                          "longfluxGOES15"))
    as [[modeltemp modelflux] Htable]; [vm_compute; reflexivity|].
  refine (proj1 (chianti_em_rejects_nan (H := Fixture.env)
                   Sample.longflux Sample.nan_temp 15 "coronal" FILE_EM_COR
                   modeltemp modelflux _ _ _ Htable _) F64.nan _ _).
  - lia.
  - reflexivity.
  - reflexivity.
  - intros ->. vm_compute in Htable. discriminate.
  - apply elem_of_cons. right. apply elem_of_cons. left. reflexivity.
  - left. reflexivity.
Defined.

(** * Further properties *)

(** ** Running sums *)

(** The product of two prefixes is the prefix of the product, also when
    a length-one operand is stretched. *)
Lemma multiply_take rate dt prod k :
  2 ≤ length dt → np.multiply rate dt = Ok prod → 1 ≤ k →
  np.multiply (take k rate) (take k dt) = Ok (take k prod).
Proof.
  unfold np.multiply, np.broadcast. intros Hdt Hprod Hk.
  destruct (Nat.eqb_spec (length rate) (length dt)) as [Heq|Hne].
  - injection Hprod as <-.
    rewrite !length_take, Heq, Nat.eqb_refl, zip_with_take. reflexivity.
  - destruct rate as [|x [|y rate]].
    + destruct dt as [|? [|? ?]]; simpl in *; try lia; discriminate.
    + injection Hprod as <-.
      destruct dt as [|d0 [|d1 dt]]; simpl in Hdt; try lia.
      destruct k as [|[|k]]; try lia; try reflexivity.
      rewrite <- fmap_take. reflexivity.
    + destruct dt as [|? [|? ?]]; simpl in *; try lia; discriminate.
Qed.

Section RunningSums.
Context `{External}.

(** X1: with timestamps and [cumulative=True], element [i] of the
    cumulative array of [calc_rad_loss] is the sum of the first [i+1]
    products of loss rate and interval weight, and the array has one
    element per timestamp. *)
Theorem rad_loss_cumul_is_running_sum temp em obstime out :
  calc_rad_loss temp em (Some obstime) true = Ok out →
  ∃ rate dt prod cumul,
    radiative_loss_rates temp em = Ok rate
    ∧ _time_intervals obstime = Ok dt
    ∧ np.multiply rate dt = Ok prod
    ∧ out !! "rad_loss_cumul" = Some (VArr cumul)
    ∧ length cumul = length obstime
    ∧ ∀ i, i < length obstime →
        cumul !! i = Some (np_sum (take (i + 1) prod)).
Proof.
  intros Hout. unfold calc_rad_loss in Hout.
  apply bind_Ok in Hout as (rate & Hrate & Hout).
  apply bind_Ok in Hout as (u & _ & Hout).
  apply bind_Ok in Hout as (dt & Hdt & Hout).
  apply bind_Ok in Hout as (prod & Hprod & Hout).
  apply bind_Ok in Hout as (cumul & Hcumul & Hout).
  injection Hout as <-.
  apply checked_intervals_Ok in Hdt as (Hdt & Hge & Hlen).
  unfold cumulative_sums in Hcumul.
  apply cumulative_sums_prefix in Hcumul as [Hl Hc]; [|lia].
  exists rate, dt, prod, cumul.
  repeat split; try assumption; try reflexivity.
  intros i Hi. destruct (Hc i Hi) as (p & Hp & Hci).
  rewrite (multiply_take _ _ _ _ Hge Hprod) in Hp by lia.
  congruence.
Qed.

(** X2: the same for both channels of [goes_lx]: element [i] of
    ["longlum_cumul"] and of ["shortlum_cumul"] is the sum of the first
    [i+1] products of luminosity and interval weight. *)
Theorem lx_cumul_is_running_sum longflux shortflux obstime date out :
  goes_lx longflux shortflux (Some obstime) date true = Ok out →
  ∃ dt lprod sprod lcumul scumul,
    _time_intervals obstime = Ok dt
    ∧ np.multiply (_calc_xraylum longflux date) dt = Ok lprod
    ∧ np.multiply (_calc_xraylum shortflux date) dt = Ok sprod
    ∧ out !! "longlum_cumul" = Some (VArr lcumul)
    ∧ out !! "shortlum_cumul" = Some (VArr scumul)
    ∧ length lcumul = length obstime
    ∧ length scumul = length obstime
    ∧ ∀ i, i < length obstime →
        lcumul !! i = Some (np_sum (take (i + 1) lprod))
        ∧ scumul !! i = Some (np_sum (take (i + 1) sprod)).
Proof.
  intros Hout. unfold goes_lx in Hout.
  apply bind_Ok in Hout as (u & _ & Hout).
  apply bind_Ok in Hout as (dt & Hdt & Hout).
  apply bind_Ok in Hout as (lprod & Hlprod & Hout).
  apply bind_Ok in Hout as (sprod & Hsprod & Hout).
  apply bind_Ok in Hout as ([lcumul scumul] & Hcumul & Hout).
  injection Hout as <-.
  apply checked_intervals_Ok in Hdt as (Hdt & Hge & Hlen).
  apply paired_sums_prefix in Hcumul as (Hll & Hls & Hc); [|lia].
  exists dt, lprod, sprod, lcumul, scumul.
  repeat split; try assumption; try reflexivity;
    destruct (Hc i ltac:(assumption)) as (lp & sp & Hlp & Hsp & Hli & Hsi);
    rewrite (multiply_take _ _ _ _ Hge Hlprod) in Hlp by lia;
    rewrite (multiply_take _ _ _ _ Hge Hsprod) in Hsp by lia;
    congruence.
Qed.

(** ** What the dictionaries hold *)

(** X3: the keys [calc_rad_loss] returns depend only on whether
    timestamps are given and on [cumulative], and the rate array under
    ["rad_loss_rate"] is the same in all three cases. *)
Theorem calc_rad_loss_keys temp em obstime cumulative out :
  calc_rad_loss temp em obstime cumulative = Ok out →
  (∃ rate, radiative_loss_rates temp em = Ok rate
           ∧ out !! "rad_loss_rate" = Some (VArr rate))
  ∧ dom out =
      match obstime, cumulative with
      | None, _ => {[ "rad_loss_rate" ]}
      | Some _, false => {[ "rad_loss_rate"; "rad_loss_int" ]}
      | Some _, true =>
          {[ "rad_loss_rate"; "rad_loss_cumul"; "rad_loss_int" ]}
      end.
Proof.
  unfold calc_rad_loss. intros Hout.
  apply bind_Ok in Hout as (rate & Hrate & Hout).
  destruct obstime as [obstime|].
  - apply bind_Ok in Hout as (u & _ & Hout).
    apply bind_Ok in Hout as (dt & Hdt & Hout).
    apply bind_Ok in Hout as (prod & Hprod & Hout).
    destruct cumulative.
    + apply bind_Ok in Hout as (cumul & Hcumul & Hout). injection Hout as <-.
      split; [exists rate; split; [assumption | reflexivity]|].
      rewrite !dom_insert_L, dom_empty_L. set_solver.
    + injection Hout as <-.
      split; [exists rate; split; [assumption | reflexivity]|].
      rewrite !dom_insert_L, dom_empty_L. set_solver.
  - apply bind_Ok in Hout as (u & Hc & Hout). injection Hout as <-.
    split; [exists rate; split; [assumption | reflexivity]|].
    rewrite !dom_insert_L, dom_empty_L.
    destruct cumulative; set_solver.
Qed.
(** X4: the keys [goes_lx] returns: the two luminosity arrays always,
    the two integrals and the weights ["dt"] when timestamps are given,
    and the two cumulative arrays when [cumulative] is set as well.  The
    luminosity arrays are the same in all three cases. *)
Theorem goes_lx_keys longflux shortflux obstime date cumulative out :
  goes_lx longflux shortflux obstime date cumulative = Ok out →
  out !! "longlum" = Some (VArr (_calc_xraylum longflux date))
  ∧ out !! "shortlum" = Some (VArr (_calc_xraylum shortflux date))
  ∧ dom out =
      match obstime, cumulative with
      | None, _ => {[ "longlum"; "shortlum" ]}
      | Some _, false =>
          {[ "longlum"; "shortlum"; "longlum_int"; "shortlum_int"; "dt" ]}
      | Some _, true =>
          {[ "longlum"; "shortlum"; "longlum_cumul"; "shortlum_cumul";
             "longlum_int"; "shortlum_int"; "dt" ]}
      end.
Proof.
  unfold goes_lx. intros Hout.
  destruct obstime as [obstime|].
  - apply bind_Ok in Hout as (u & _ & Hout).
    apply bind_Ok in Hout as (dt & Hdt & Hout).
    apply bind_Ok in Hout as (lprod & Hlprod & Hout).
    apply bind_Ok in Hout as (sprod & Hsprod & Hout).
    destruct cumulative.
    + apply bind_Ok in Hout as ([lcumul scumul] & Hcumul & Hout).
      injection Hout as <-.
      split; [reflexivity|]. split; [reflexivity|].
      rewrite !dom_insert_L, dom_empty_L. set_solver.
    + injection Hout as <-.
      split; [reflexivity|]. split; [reflexivity|].
      rewrite !dom_insert_L, dom_empty_L. set_solver.
  - apply bind_Ok in Hout as (u & Hc & Hout). injection Hout as <-.
    split; [reflexivity|]. split; [reflexivity|].
    rewrite !dom_insert_L, dom_empty_L.
    destruct cumulative; set_solver.
Qed.
End RunningSums.

(** ** How [goes_lx] fails *)

Lemma fold_minimum_elem r x : fold_left np.minimum r x ∈ x :: r.
Proof.
  revert x; induction r as [|b r IH]; intros x; simpl.
  - apply elem_of_cons. left. reflexivity.
  - specialize (IH (np.minimum x b)).
    apply elem_of_cons in IH as [->|IH].
    + unfold np.minimum. destruct (_ || _).
      * apply elem_of_cons. left. reflexivity.
      * apply elem_of_cons. right. apply elem_of_cons. left. reflexivity.
    + apply elem_of_cons. right. apply elem_of_cons. right. exact IH.
Qed.

(** The two ways [checked_intervals] raises. *)
Lemma checked_intervals_Raise obstime e :
  checked_intervals obstime = Raise e →
  (e = ObstimeTooShort ∧ length obstime < 2)
  ∨ (e = NotChronological ∧
     ∃ dt, _time_intervals obstime = Ok dt ∧
           Exists (λ w, F64.leb w F64.zero = true) dt).
Proof.
  unfold checked_intervals. intros Hc.
  destruct (le_lt_dec 2 (length obstime)) as [Hge|Hlt].
  - right. destruct (time_intervals_Ok obstime Hge) as [dt Hdt].
    rewrite Hdt in Hc. simpl in Hc.
    pose proof (time_intervals_length _ _ Hdt) as Hlen.
    destruct dt as [|x r]; [simpl in Hlen; lia|]. simpl in Hc.
    destruct (F64.leb (fold_left np.minimum r x) F64.zero) eqn:Hlo;
      simpl in Hc; [|discriminate].
    injection Hc as <-. split; [reflexivity|].
    exists (x :: r). split; [exact Hdt|].
    apply Exists_exists. exists (fold_left np.minimum r x).
    split; [apply fold_minimum_elem | exact Hlo].
  - left. rewrite (time_intervals_short _ Hlt) in Hc. simpl in Hc.
    injection Hc as <-. split; [reflexivity | exact Hlt].
Qed.

Lemma multiply_Raise a b e : np.multiply a b = Raise e → e = BroadcastMismatch.
Proof.
  unfold np.multiply, np.broadcast.
  destruct (_ =? _); [discriminate|].
  destruct a as [|? [|? ?]], b as [|? [|? ?]]; try discriminate;
    intros Hr; injection Hr as <-; reflexivity.
Qed.

Lemma for_each_Raise {A S} (body : S → A → result S) (P : exn → Prop) s xs e :
  (∀ s x e, body s x = Raise e → P e) →
  for_each body s xs = Raise e → P e.
Proof.
  intros Hbody. revert s; induction xs as [|x xs IH]; intros s; simpl.
  - discriminate.
  - destruct (body s x) as [s'|e'] eqn:Hb; simpl.
    + apply IH.
    + intros Hr. injection Hr as <-. eapply Hbody, Hb.
Qed.

Section GoesLxFailures.
Context `{External}.

(** X5: with timestamps given, [goes_lx] raises the length error exactly
    when both neighbouring pairs of lengths differ, the too-few-timestamps
    error exactly when the length test passes and there are fewer than
    two timestamps, and the chronology error exactly when the length test
    passes and some interval weight is [<= 0]; its only other failure is
    numpy's broadcasting error. *)
Theorem goes_lx_failure_modes
    (longflux shortflux : list float) (obstime : list Z)
    (date : option datetime) (cumulative : bool) :
  let r := goes_lx longflux shortflux (Some obstime) date cumulative in
  let mismatch := length longflux ≠ length shortflux
                  ∧ length shortflux ≠ length obstime in
  (r = Raise ObstimeLengthMismatch ↔ mismatch)
  ∧ (r = Raise ObstimeTooShort ↔ ¬ mismatch ∧ length obstime < 2)
  ∧ (r = Raise NotChronological ↔
       ¬ mismatch ∧
       ∃ dt, _time_intervals obstime = Ok dt ∧
             Exists (λ w, F64.leb w F64.zero = true) dt)
  ∧ (∀ e, r = Raise e →
       e = ObstimeLengthMismatch ∨ e = ObstimeTooShort ∨
       e = NotChronological ∨ e = BroadcastMismatch).
Proof.
  intros r mismatch. subst r mismatch. unfold goes_lx.
  pose proof (lengths_differ_spec (length longflux) (length shortflux)
                (length obstime)) as Hspec.
  destruct (lengths_differ _ _ _) eqn:Hd; cbn [raise_if bind].
  { assert (Hm : length longflux ≠ length shortflux
                 ∧ length shortflux ≠ length obstime) by (apply Hspec; reflexivity).
    split; [|split; [|split]].
    - split; [intros _; exact Hm | reflexivity].
    - split; [discriminate | tauto].
    - split; [discriminate | tauto].
    - intros e He. injection He as <-. auto. }
  assert (Hm : ¬ (length longflux ≠ length shortflux
                  ∧ length shortflux ≠ length obstime))
    by (intros Hm; apply Hspec in Hm; discriminate).
  destruct (checked_intervals obstime) as [dt|e0] eqn:Hc; cbn [bind].
  - pose proof Hc as Hc'.
    apply checked_intervals_Ok in Hc' as (Hdt & Hge & Hlen).
    assert (Hpos : ¬ ∃ dt', _time_intervals obstime = Ok dt' ∧
                            Exists (λ w, F64.leb w F64.zero = true) dt').
    { intros (dt' & Hdt' & Hex).
      rewrite (checked_intervals_nonpos _ _ Hdt' Hex) in Hc. discriminate. }
    match goal with |- context [?rest = Raise ObstimeLengthMismatch] =>
      assert (Hb : ∀ e, rest = Raise e → e = BroadcastMismatch)
    end.
    { intros e.
      destruct (np.multiply (_calc_xraylum longflux date) dt) eqn:Hl;
        cbn [bind]; [|intros He; injection He as <-; eapply multiply_Raise, Hl].
      destruct (np.multiply (_calc_xraylum shortflux date) dt) eqn:Hs;
        cbn [bind]; [|intros He; injection He as <-; eapply multiply_Raise, Hs].
      destruct cumulative; [|discriminate].
      match goal with |- context [for_each ?body ?s ?xs] =>
        destruct (for_each body s xs) as [[lc sc]|e'] eqn:Hloop
      end; cbn [bind]; [discriminate|].
      intros He. injection He as <-.
      eapply (for_each_Raise _ (λ e, e = BroadcastMismatch)); [|exact Hloop].
      intros [lc sc] i e'' Hbody.
      destruct (np.multiply (take (i + 1) (_calc_xraylum longflux date))
                  (take (i + 1) dt)) eqn:Hl'; cbn [bind] in Hbody;
        [|injection Hbody as <-; eapply multiply_Raise, Hl'].
      destruct (np.multiply (take (i + 1) (_calc_xraylum shortflux date))
                  (take (i + 1) dt)) eqn:Hs'; cbn [bind] in Hbody;
        [discriminate|injection Hbody as <-; eapply multiply_Raise, Hs']. }
    split; [|split; [|split]].
    + split; [intros Hr; apply Hb in Hr; discriminate | tauto].
    + split; [intros Hr; apply Hb in Hr; discriminate | intros [_ Hlt]; lia].
    + split; [intros Hr; apply Hb in Hr; discriminate | intros [_ Hex]; tauto].
    + intros e He. apply Hb in He. auto.
  - destruct (checked_intervals_Raise _ _ Hc) as [[-> Hlt]|[-> Hex]].
    + split; [|split; [|split]].
      * split; [discriminate | tauto].
      * split; [intros _; split; [exact Hm | exact Hlt] | reflexivity].
      * split; [discriminate|]. intros [_ (dt & Hdt & _)].
        rewrite (time_intervals_short _ Hlt) in Hdt. discriminate.
      * intros e He. injection He as <-. auto.
    + split; [|split; [|split]].
      * split; [discriminate | tauto].
      * split; [discriminate|]. intros [_ Hlt]. destruct Hex as (dt & Hdt & _).
        rewrite (time_intervals_short _ Hlt) in Hdt. discriminate.
      * split; [intros _; split; [exact Hm | exact Hex] | reflexivity].
      * intros e He. injection He as <-. auto.
Qed.
End GoesLxFailures.

(** ** Exact range checks *)

Lemma existsb_is_nan (x : list float) :
  existsb F64.is_nan x = true ↔ S754_nan ∈ x.
Proof.
  rewrite existsb_exists. split.
  - intros (v & Hin & Hv). destruct v; try discriminate.
    apply list_elem_of_In, Hin.
  - intros Hin. exists S754_nan. split; [apply list_elem_of_In, Hin | reflexivity].
Qed.

Lemma existsb_is_nan_false (x : list float) :
  existsb F64.is_nan x = false → Forall (λ v, F64.is_nan v = false) x.
Proof.
  induction x as [|v x IH]; simpl; [constructor|].
  intros Hx. apply orb_false_iff in Hx as [Hv Hx]. constructor; auto.
Qed.

Lemma fold_minimum_not_nan r x :
  Forall (λ v, F64.is_nan v = false) (x :: r) →
  F64.is_nan (fold_left np.minimum r x) = false.
Proof.
  revert x; induction r as [|b r IH]; intros x Hnan; simpl.
  - apply Forall_cons in Hnan as [Hx _]. exact Hx.
  - apply Forall_cons in Hnan as [Hx Hnan].
    apply Forall_cons in Hnan as [Hb Hr].
    apply IH, Forall_cons. split; [apply minimum_not_nan; assumption | exact Hr].
Qed.

(** The test [min(x) < lo or max(x) > hi], whatever [x] holds: a NaN in
    [x] switches it off, and without one it is exact. *)
Lemma outside_table_cases x model lo hi :
  x ≠ [] → np.min model = Ok lo → np.max model = Ok hi →
  outside_table x model =
  Ok (negb (existsb F64.is_nan x)
      && existsb (λ v, F64.ltb v lo || F64.gtb v hi) x).
Proof.
  intros Hne Hlo Hhi. destruct (existsb F64.is_nan x) eqn:Hnan.
  - apply existsb_is_nan in Hnan. apply outside_table_nan; [exact Hnan|].
    intros ->. discriminate.
  - apply existsb_is_nan_false in Hnan.
    rewrite (outside_table_exact _ _ lo hi) by assumption. reflexivity.
Qed.

Section ExactChecks.
Context `{External}.

(** X6: [_goes_get_chianti_temp] raises its range error exactly when no
    ratio is NaN and some ratio lies strictly below the smallest or
    strictly above the largest ratio of the table; in every other case,
    a NaN among the ratios included, it goes on to fit the spline and
    evaluates it at every ratio. *)
Theorem chianti_temp_range_check
    (ratio : list float) (n : Z) (abundances data_file : string)
    (modeltemp modelratio : list float) (lo hi : float) :
  (1 ≤ n)%Z →
  abundance_file abundances FILE_TEMP_COR FILE_TEMP_PHO = Ok data_file →
  load_table data_file ("ratioGOES" +:+ pretty n) = Ok (modeltemp, modelratio) →
  np.min modelratio = Ok lo → np.max modelratio = Ok hi →
  ratio ≠ [] →
  _goes_get_chianti_temp ratio (SatInt n) abundances =
  if negb (existsb F64.is_nan ratio)
     && existsb (λ v, F64.ltb v lo || F64.gtb v hi) ratio
  then Raise FluxratioOutOfRange
  else bind (splrep modelratio modeltemp)
         (λ spline, Ok (np_power10 <$> splev ratio spline)).
Proof.
  intros Hn Hfile Htable Hlo Hhi Hne.
  unfold _goes_get_chianti_temp. simpl.
  destruct (Z.ltb_spec n 1); [lia|]. simpl.
  rewrite Hfile. simpl. rewrite Htable. simpl.
  rewrite (outside_table_cases _ _ lo hi) by assumption. simpl.
  destruct (_ && _); reflexivity.
Qed.

(** X7: [_goes_get_chianti_em] raises its range error exactly when the
    logarithm of some temperature is NaN, or lies strictly below the
    smallest or strictly above the largest temperature of the table;
    otherwise it fits the spline and returns
    [longflux / spline(log10 temp) * 1e55]. *)
Theorem chianti_em_range_check
    (longflux temp : list float) (n : Z) (abundances data_file : string)
    (modeltemp modelflux : list float) (lo hi : float) :
  (1 ≤ n)%Z →
  abundance_file abundances FILE_EM_COR FILE_EM_PHO = Ok data_file →
  length longflux = length temp →
  load_table data_file ("longfluxGOES" +:+ pretty n) = Ok (modeltemp, modelflux) →
  np.min modeltemp = Ok lo → np.max modeltemp = Ok hi →
  temp ≠ [] →
  _goes_get_chianti_em longflux temp (SatInt n) abundances =
  if existsb (λ v, F64.is_nan v || F64.ltb v lo || F64.gtb v hi)
             (np_log10 <$> temp)
  then Raise TempOutOfRange
  else bind (splrep modeltemp modelflux)
         (λ spline,
            Ok ((λ q, F64.mul q (F64.of_Z (10 ^ 55)))
                  <$> zip_with F64.div longflux
                        (splev (np_log10 <$> temp) spline))).
Proof.
  intros Hn Hfile Hlen Htable Hlo Hhi Hne.
  unfold _goes_get_chianti_em. simpl.
  destruct (Z.ltb_spec n 1); [lia|]. simpl.
  rewrite Hfile. simpl. rewrite Hlen, Nat.eqb_refl. simpl.
  rewrite Htable. simpl.
  assert (Hne' : np_log10 <$> temp ≠ []) by (destruct temp; [congruence|discriminate]).
  rewrite (outside_table_cases _ _ lo hi) by assumption. simpl.
  assert (Hxl : length (np_log10 <$> temp) = length temp)
    by apply length_fmap.
  remember (np_log10 <$> temp) as x eqn:Hx. clear Hx.
  assert (Hor : existsb (λ v, F64.is_nan v || F64.ltb v lo || F64.gtb v hi) x
                = existsb F64.is_nan x
                  || existsb (λ v, F64.ltb v lo || F64.gtb v hi) x).
  { rewrite <- (existsb_orb F64.is_nan). clear.
    induction x as [|v x' IH]; simpl; [reflexivity|].
    rewrite IH, (orb_assoc (F64.is_nan v)). reflexivity. }
  rewrite Hor.
  destruct (existsb F64.is_nan x) eqn:Hnan; simpl.
  - apply existsb_is_nan in Hnan. rewrite (min_nan _ Hnan). reflexivity.
  - destruct (existsb (λ v, F64.ltb v lo || F64.gtb v hi) x); simpl;
      [reflexivity|].
    apply existsb_is_nan_false in Hnan.
    assert (Hmin : ∃ m, np.min x = Ok m ∧ F64.is_nan m = false).
    { destruct x as [|x0 x']; [congruence|].
      eexists. split; [reflexivity|]. apply fold_minimum_not_nan, Hnan. }
    destruct Hmin as (m & -> & Hm). simpl. rewrite Hm. simpl.
    destruct (splrep modeltemp modelflux) as [spline|]; [|reflexivity]. simpl.
    unfold np.divide. rewrite broadcast_same; [reflexivity|].
    unfold splev. rewrite length_fmap. congruence.
Qed.
End ExactChecks.

(** ** The range check of [calc_rad_loss] *)

Lemma million_finite :
  F64.dec 1000000 0 = S754_finite false 8589934592000000 (-33).
Proof. vm_compute. reflexivity. Qed.

(** Scaling MK to K keeps NaN and introduces none. *)
Lemma to_kelvin_nan t :
  F64.is_nan (F64.mul t (F64.dec 1000000 0)) = F64.is_nan t.
Proof.
  rewrite million_finite. destruct t as [s|s| |s m e]; try reflexivity.
  simpl. apply signed_not_nan with (s := xorb s false).
  apply binary_round_aux_signed. lia.
Qed.

Lemma existsb_fmap {A B} (f : A → B) (p : B → bool) l :
  existsb p (f <$> l) = existsb (λ a, p (f a)) l.
Proof.
  induction l as [|a l IH]; [reflexivity|].
  rewrite fmap_cons. cbn [existsb]. rewrite IH. reflexivity.
Qed.

Lemma existsb_ext_eq {A} (p q : A → bool) l :
  (∀ a, p a = q a) → existsb p l = existsb q l.
Proof.
  intros Hpq. induction l as [|a l IH]; simpl; [reflexivity|].
  rewrite Hpq, IH. reflexivity.
Qed.

Section RadLoss.
Context `{External}.

(** X8: [calc_rad_loss] computes its rates after a range test on the
    temperatures in kelvin that raises exactly when no temperature is NaN
    and some temperature lies strictly outside the table; a NaN
    temperature switches the test off and the spline is evaluated at
    every temperature. *)
Theorem rad_loss_range_check
    (temp em : list float) (rows : list (list float))
    (modeltemp model_loss_rate : list float) (lo hi : float) :
  list_rows FILE_RAD_COR = Ok rows →
  read_fields rows 0 1 = Ok (modeltemp, model_loss_rate) →
  np.min modeltemp = Ok lo → np.max modeltemp = Ok hi →
  temp ≠ [] →
  let temp_K := (λ t, F64.mul t (F64.dec 1000000 0)) <$> temp in
  let rates :=
    if negb (existsb F64.is_nan temp)
       && existsb (λ v, F64.ltb v lo || F64.gtb v hi) temp_K
    then Raise TempOutOfRange
    else bind (splrep modeltemp model_loss_rate)
           (λ spline, np.multiply em (splev temp_K spline)) in
  radiative_loss_rates temp em = rates
  ∧ ∀ obstime cumulative,
      calc_rad_loss temp em obstime cumulative = Raise TempOutOfRange ↔
      rates = Raise TempOutOfRange.
Proof.
  intros Hrows Htable Hlo Hhi Hne temp_K rates.
  assert (Hrates : radiative_loss_rates temp em = rates).
  { unfold radiative_loss_rates. rewrite Hrows. simpl. rewrite Htable. simpl.
    fold temp_K.
    assert (Hne' : temp_K ≠ [])
      by (subst temp_K; destruct temp; [congruence | discriminate]).
    rewrite (outside_table_cases _ _ lo hi) by assumption. simpl.
    assert (Hnan : existsb F64.is_nan temp_K = existsb F64.is_nan temp).
    { subst temp_K. rewrite existsb_fmap. apply existsb_ext_eq, to_kelvin_nan. }
    rewrite Hnan. subst rates. destruct (_ && _); reflexivity. }
  split; [exact Hrates|].
  intros obstime cumulative. unfold calc_rad_loss. rewrite Hrates.
  destruct rates as [rate|e]; simpl.
  - split; [|discriminate]. intros Hr. exfalso.
    destruct obstime as [obstime|].
    + destruct (lengths_differ _ _ _); simpl in Hr; [discriminate|].
      destruct (checked_intervals obstime) as [dt|e] eqn:Hc; simpl in Hr.
      * destruct (np.multiply rate dt) eqn:Hp; simpl in Hr;
          [|injection Hr as Hr; apply multiply_Raise in Hp; congruence].
        destruct cumulative; [|discriminate].
        destruct (cumulative_sums rate dt (length obstime)) eqn:Hs;
          simpl in Hr; [discriminate|].
        injection Hr as ->. unfold cumulative_sums in Hs.
        apply (for_each_Raise _ (λ e, e = BroadcastMismatch)) in Hs;
          [discriminate|].
        intros c i e Hb.
        destruct (np.multiply (take (i + 1) rate) (take (i + 1) dt)) eqn:Hp';
          simpl in Hb; [discriminate|].
        injection Hb as <-. eapply multiply_Raise, Hp'.
      * injection Hr as ->.
        destruct (checked_intervals_Raise _ _ Hc) as [[? _]|[? _]]; discriminate.
    + destruct cumulative; simpl in Hr; discriminate.
  - split; intros Hr; injection Hr as ->; reflexivity.
Qed.
End RadLoss.

(** ** Lengths *)

Section Lengths.
Context `{External}.

Lemma chianti_temp_length ratio satellite abundances temp :
  _goes_get_chianti_temp ratio satellite abundances = Ok temp →
  length temp = length ratio.
Proof.
  unfold _goes_get_chianti_temp. intros Hrun.
  apply bind_Ok in Hrun as (u1 & _ & Hrun).
  apply bind_Ok in Hrun as (u2 & _ & Hrun).
  apply bind_Ok in Hrun as (file & _ & Hrun).
  apply bind_Ok in Hrun as ([mt mr] & _ & Hrun).
  apply bind_Ok in Hrun as (outside & _ & Hrun).
  apply bind_Ok in Hrun as (u3 & _ & Hrun).
  apply bind_Ok in Hrun as (spline & _ & Hrun).
  injection Hrun as <-. unfold splev. rewrite !length_fmap. reflexivity.
Qed.

Lemma chianti_em_length longflux temp satellite abundances em :
  _goes_get_chianti_em longflux temp satellite abundances = Ok em →
  length longflux = length temp ∧ length em = length temp.
Proof.
  unfold _goes_get_chianti_em. intros Hrun.
  apply bind_Ok in Hrun as (u1 & _ & Hrun).
  apply bind_Ok in Hrun as (u2 & _ & Hrun).
  apply bind_Ok in Hrun as (file & _ & Hrun).
  apply bind_Ok in Hrun as (u3 & Hlen & Hrun).
  apply bind_Ok in Hrun as ([mt mf] & _ & Hrun).
  apply bind_Ok in Hrun as (outside & _ & Hrun).
  apply bind_Ok in Hrun as (outside' & _ & Hrun).
  apply bind_Ok in Hrun as (u4 & _ & Hrun).
  apply bind_Ok in Hrun as (spline & _ & Hrun).
  apply bind_Ok in Hrun as (quot & Hquot & Hrun).
  injection Hrun as <-.
  destruct (Nat.eqb_spec (length longflux) (length temp)) as [Heq|];
    [|discriminate].
  split; [exact Heq|].
  unfold np.divide in Hquot. rewrite broadcast_same in Hquot
    by (unfold splev; rewrite !length_fmap; exact Heq).
  injection Hquot as <-.
  unfold splev. rewrite length_fmap, length_zip_with, !length_fmap. lia.
Qed.

Lemma goes_chianti_tem_lengths longflux shortflux satellite date abundances
    temp em :
  goes_chianti_tem longflux shortflux satellite date abundances
    = Ok (temp, em) →
  length longflux = length shortflux
  ∧ length temp = length longflux ∧ length em = length longflux.
Proof.
  intros Hrun. unfold goes_chianti_tem in Hrun.
  apply bind_Ok in Hrun as (u1 & _ & Hrun).
  apply bind_Ok in Hrun as (u2 & _ & Hrun).
  apply bind_Ok in Hrun as (u3 & Hlen & Hrun).
  apply bind_Ok in Hrun as (ratio & Hratio & Hrun).
  apply bind_Ok in Hrun as (temp' & Htemp & Hrun).
  apply bind_Ok in Hrun as (em' & Hem & Hrun).
  injection Hrun as <- <-.
  destruct (Nat.eqb_spec (length longflux) (length shortflux)) as [Heq|];
    [|discriminate].
  destruct (fluxratio_mask (shortflux_corrected shortflux satellite)
              (longflux_corrected longflux satellite date))
    as (ratio' & Hratio' & Hl & _).
  { rewrite shortflux_corrected_length, longflux_corrected_length. congruence. }
  rewrite Hratio in Hratio'. injection Hratio' as <-.
  apply chianti_temp_length in Htemp.
  apply chianti_em_length in Hem as [_ Hem].
  rewrite shortflux_corrected_length in Hl.
  repeat split; congruence.
Qed.

(** X9: whenever [goes_chianti_tem] returns, the two flux arrays had the
    same length and the temperature and emission measure arrays have
    that length too: one estimate per sample, in every environment. *)
Theorem estimates_keep_length longflux shortflux satellite date abundances
    temp em :
  goes_chianti_tem longflux shortflux satellite date abundances
    = Ok (temp, em) →
  length longflux = length shortflux
  ∧ length temp = length longflux ∧ length em = length longflux.
Proof. apply goes_chianti_tem_lengths. Qed.
End Lengths.

(** ** The interval weights *)

(** X10: for two or more timestamps that do not wrap, [_time_intervals]
    returns one weight per timestamp: the first is half the first
    difference, the last is half the last difference, and every other
    one is half the difference of its two neighbours, each half taken as
    a whole number of milliseconds (rounded toward zero) and then divided
    by 1000. *)
Theorem time_intervals_formula (obstime : list Z) :
  2 ≤ length obstime → Forall in_range obstime →
  let n := length obstime in
  let w (a b : Z) := ms_to_s ((b - a) ÷ 2) in
  ∃ dt,
    _time_intervals obstime = Ok dt
    ∧ length dt = n
    ∧ dt !! 0 = Some (w (nth 0 obstime 0%Z) (nth 1 obstime 0%Z))
    ∧ dt !! (n - 1)
      = Some (w (nth (n - 2) obstime 0%Z) (nth (n - 1) obstime 0%Z))
    ∧ ∀ i a b, 0 < i → i + 1 < n →
        obstime !! (i - 1) = Some a → obstime !! (i + 1) = Some b →
        dt !! i = Some (w a b).
Proof.
  intros Hn Hrange n w.
  destruct (time_intervals_Ok obstime Hn) as [dt Hdt].
  exists dt. split; [exact Hdt|].
  destruct (time_intervals_weights _ _ Hdt) as (Hlen & Hfirst & Hlast & Hmid).
  assert (Hnth : ∀ i, i < n → in_range (nth i obstime 0%Z)).
  { intros i Hi. rewrite Forall_forall in Hrange. apply Hrange.
    apply list_elem_of_In, nth_In. exact Hi. }
  assert (Hlook : ∀ i a, obstime !! i = Some a → in_range a).
  { intros i a Ha. rewrite Forall_lookup in Hrange. eapply Hrange, Ha. }
  split; [exact Hlen|]. subst w. unfold np.td_div in *. fold n in Hlast.
  split; [|split].
  - rewrite Hfirst, td_sub_in_range by (apply Hnth; lia). reflexivity.
  - rewrite Hlast, td_sub_in_range by (apply Hnth; lia). reflexivity.
  - intros i a b Hi Hin Ha Hb.
    rewrite (Hmid i a b Hi Hin Ha Hb), td_sub_in_range by eauto. reflexivity.
Qed.

Lemma Zsum_app (xs ys : list Z) :
  foldr Z.add 0%Z (xs ++ ys) = (foldr Z.add 0 xs + foldr Z.add 0 ys)%Z.
Proof. induction xs as [|x xs IH]; simpl; lia. Qed.

Lemma half_even d : Z.even d = true → (2 * (d ÷ 2) = d)%Z.
Proof.
  intros Hd. apply Z.even_spec in Hd as [k ->].
  rewrite (Z.mul_comm 2 k), Z.quot_mul by lia. lia.
Qed.

Lemma sum_half_differences (xs ys : list Z) :
  length xs = length ys →
  Forall in_range xs → Forall in_range ys →
  (∀ x y, x ∈ xs → y ∈ ys → Z.even (x - y) = true) →
  (2 * foldr Z.add 0 (zip_with (λ a b, np.td_div (np.td_sub a b) 2) xs ys)
   = foldr Z.add 0 xs - foldr Z.add 0 ys)%Z.
Proof.
  revert ys; induction xs as [|x xs IH]; intros [|y ys] Hlen Hxs Hys Heven;
    simpl in *; try lia.
  apply Forall_cons in Hxs as [Hx Hxs]. apply Forall_cons in Hys as [Hy Hys].
  rewrite td_sub_in_range by assumption. unfold np.td_div.
  pose proof (half_even (x - y)
                (Heven x y ltac:(apply elem_of_cons; auto)
                           ltac:(apply elem_of_cons; auto))) as Hh.
  assert (IH' := IH ys ltac:(lia) Hxs Hys
                   (λ a b Ha Hb, Heven a b
                      ltac:(apply elem_of_cons; auto)
                      ltac:(apply elem_of_cons; auto))).
  unfold np.td_div in IH'. lia.
Qed.

(** X11: when all timestamps are an even number of milliseconds apart
    (and do not wrap), the weights of [_time_intervals], counted in
    milliseconds, add up to exactly the time between the first and the
    last timestamp. *)
Theorem time_intervals_cover_span (obstime : list Z) :
  2 ≤ length obstime → Forall in_range obstime →
  (∀ a b, a ∈ obstime → b ∈ obstime → Z.even (a - b) = true) →
  ∃ ticks,
    _time_intervals obstime = Ok (ms_to_s <$> ticks)
    ∧ foldr Z.add 0%Z ticks
      = (nth (length obstime - 1) obstime 0 - nth 0 obstime 0)%Z.
Proof.
  intros Hn Hrange Heven. unfold _time_intervals.
  destruct (Nat.ltb_spec (length obstime) 2) as [|_]; [lia|].
  destruct (Nat.eqb_spec (length obstime) 2) as [Heq|Hne]; cbn [bind].
  - destruct obstime as [|a [|b [|? ?]]]; simpl in Heq; try lia.
    eexists. split; [reflexivity|]. simpl.
    apply Forall_cons in Hrange as [Ha Hrange].
    apply Forall_cons in Hrange as [Hb _].
    rewrite td_sub_in_range by assumption. unfold np.td_div.
    pose proof (half_even (b - a)
                  (Heven b a ltac:(set_solver) ltac:(set_solver))). lia.
  - eexists. split; [reflexivity|].
    set (n := length obstime) in *.
    assert (Hsplit : obstime = take (n - 2) obstime ++ drop (n - 2) obstime)
      by (symmetry; apply take_drop).
    destruct (drop (n - 2) obstime) as [|p [|q [|? ?]]] eqn:Hdrop;
      try (apply (f_equal length) in Hdrop; rewrite length_drop in Hdrop;
           simpl in Hdrop; lia).
    set (front := take (n - 2) obstime) in *.
    assert (Hfront : length front = n - 2)
      by (subst front; rewrite length_take; lia).
    assert (Hp : nth (n - 2) obstime 0%Z = p).
    { apply nth_lookup_Some. rewrite Hsplit, lookup_app_r by lia.
      rewrite Hfront, Nat.sub_diag. reflexivity. }
    assert (Hq : nth (n - 1) obstime 0%Z = q).
    { apply nth_lookup_Some. rewrite Hsplit, lookup_app_r by lia.
      rewrite Hfront. replace (n - 1 - (n - 2)) with 1 by lia. reflexivity. }
    assert (Hobs : ∃ l0 l1 rest, obstime = l0 :: l1 :: rest).
    { clear -Hn. subst n.
      destruct obstime as [|l0 [|l1 rest]]; simpl in Hn; try lia. eauto. }
    destruct Hobs as (l0 & l1 & rest & Hobs).
    assert (Hrange' : Forall in_range (l0 :: l1 :: rest)) by (rewrite <- Hobs; exact Hrange).
    pose proof Hrange' as Hr2.
    apply Forall_cons in Hr2 as [H0 Hr2]. apply Forall_cons in Hr2 as [H1 Hrest].
    assert (Hrq : in_range p ∧ in_range q).
    { rewrite Forall_forall in Hrange. split; apply Hrange;
        rewrite Hsplit; set_solver. }
    destruct Hrq as [Hrp Hrq].
    assert (Hd2 : drop 2 obstime = rest) by (rewrite Hobs; reflexivity).
    assert (Hn0 : nth 0 obstime 0%Z = l0) by (rewrite Hobs; reflexivity).
    assert (Hn1 : nth 1 obstime 0%Z = l1) by (rewrite Hobs; reflexivity).
    rewrite Hd2, Hn0, Hn1, Hp, Hq.
    cbn [foldr]. rewrite Zsum_app. cbn [foldr].
    rewrite !td_sub_in_range by assumption. unfold np.td_div at 1 3.
    assert (Hmid := sum_half_differences rest front).
    assert (Hsum : (l0 + (l1 + foldr Z.add 0 rest)
                    = foldr Z.add 0 front + (p + (q + 0)))%Z).
    { change (l0 + (l1 + foldr Z.add 0 rest))%Z
        with (foldr Z.add 0%Z (l0 :: l1 :: rest)).
      rewrite <- Hobs, Hsplit, Zsum_app. reflexivity. }
    assert (Hin : ∀ x, x ∈ rest ∨ x ∈ front ∨ x = l0 ∨ x = l1 ∨ x = p ∨ x = q
                       → x ∈ obstime).
    { intros x [Hx|[Hx|[->|[->|[->| ->]]]]].
      - rewrite Hobs. set_solver.
      - rewrite Hsplit. set_solver.
      - rewrite Hobs. set_solver.
      - rewrite Hobs. set_solver.
      - rewrite Hsplit. set_solver.
      - rewrite Hsplit. set_solver. }
    specialize (Hmid ltac:(rewrite Hfront, <- Hd2, length_drop; lia) Hrest).
    assert (Hfr : Forall in_range front).
    { rewrite Forall_forall in *. intros x Hx. apply Hrange, Hin. auto. }
    specialize (Hmid Hfr (λ x y Hx Hy, Heven x y (Hin x ltac:(auto)) (Hin y ltac:(auto)))).
    pose proof (half_even (l1 - l0)
                  (Heven l1 l0 (Hin l1 ltac:(auto 10)) (Hin l0 ltac:(auto 10)))).
    pose proof (half_even (q - p)
                  (Heven q p (Hin q ltac:(auto 10)) (Hin p ltac:(auto 10)))).
    lia.
Qed.

(** ** Non-positive fluxes *)

Lemma ltb_nonpos_positive x m e :
  nonpos x = true → F64.ltb x (S754_finite false m e) = true.
Proof. destruct x as [[]|[]| |[] ? ?]; try discriminate; reflexivity. Qed.

Lemma div_nonpos x m e :
  nonpos x = true → nonpos (F64.div x (S754_finite false m e)) = true.
Proof.
  destruct x as [s|[]| |[] mx ex]; try discriminate; intros _.
  - reflexivity.
  - reflexivity.
  - apply signed_true_nonpos, div_signed. reflexivity.
Qed.

Lemma mul_nonpos x m e :
  nonpos x = true → nonpos (F64.mul x (S754_finite false m e)) = true.
Proof.
  destruct x as [s|[]| |[] mx ex]; try discriminate; intros _.
  - reflexivity.
  - reflexivity.
  - apply signed_true_nonpos. unfold F64.mul, SFmul.
    apply binary_round_aux_signed. lia.
Qed.

Lemma flux_constants_positive :
  ∃ m1 e1 m2 e2 m3 e3 m4 e4 m5 e5,
    F64.dec 1 10 = S754_finite false m1 e1
    ∧ F64.dec 3 8 = S754_finite false m2 e2
    ∧ F64.dec 7 1 = S754_finite false m3 e3
    ∧ F64.dec 85 2 = S754_finite false m4 e4
    ∧ F64.div (F64.dec 443 2) (F64.dec 532 2) = S754_finite false m5 e5.
Proof. do 10 eexists. repeat split; vm_compute; reflexivity. Qed.

Lemma longflux_corrected_nonpos longflux satellite date i x :
  longflux !! i = Some x → nonpos x = true →
  ∃ l, longflux_corrected longflux satellite date !! i = Some l
       ∧ nonpos l = true.
Proof.
  intros Hx Hneg.
  destruct flux_constants_positive
    as (m1 & e1 & m2 & e2 & m3 & e3 & m4 & e4 & m5 & e5
        & _ & _ & H7 & _ & H6).
  unfold longflux_corrected. rewrite H7, H6.
  destruct (_ && _), (sat_gtb _ _);
    rewrite ?list_lookup_fmap, Hx; simpl; eexists; (split; [reflexivity|]);
    auto using div_nonpos, mul_nonpos.
Qed.

Lemma shortflux_corrected_nonpos shortflux satellite i y :
  shortflux !! i = Some y → nonpos y = true →
  ∃ s, shortflux_corrected shortflux satellite !! i = Some s
       ∧ nonpos s = true.
Proof.
  intros Hy Hneg.
  destruct flux_constants_positive
    as (m1 & e1 & m2 & e2 & m3 & e3 & m4 & e4 & m5 & e5
        & _ & _ & _ & H85 & _).
  unfold shortflux_corrected. rewrite H85.
  destruct (sat_gtb _ _);
    rewrite ?list_lookup_fmap, Hy; simpl; eexists; (split; [reflexivity|]);
    auto using div_nonpos.
Qed.

(** X12: a sample whose long or short channel flux is zero or negative
    never reaches the temperature lookup as a quotient: for every
    satellite and date, the ratio array holds 0.003 at its position, so
    no division by zero and no negative ratio comes out of such a
    sample. *)
Theorem nonpositive_flux_is_masked
    (longflux shortflux : list float) (satellite : pysat) (date : datetime) :
  length longflux = length shortflux →
  ∃ ratio,
    fluxratio (shortflux_corrected shortflux satellite)
              (longflux_corrected longflux satellite date) = Ok ratio
    ∧ length ratio = length longflux
    ∧ ∀ i x y, longflux !! i = Some x → shortflux !! i = Some y →
        F64.leb x F64.zero = true ∨ F64.leb y F64.zero = true →
        ratio !! i = Some (F64.dec 3 3).
Proof.
  intros Hlen.
  destruct (fluxratio_mask (shortflux_corrected shortflux satellite)
              (longflux_corrected longflux satellite date))
    as (ratio & Hratio & Hl & Hmask).
  { rewrite shortflux_corrected_length, longflux_corrected_length. congruence. }
  exists ratio. split; [exact Hratio|]. split.
  { rewrite Hl, shortflux_corrected_length. congruence. }
  intros i x y Hx Hy Hneg. rewrite !leb_zero_nonpos in Hneg.
  destruct flux_constants_positive
    as (m1 & e1 & m2 & e2 & m3 & e3 & m4 & e4 & m5 & e5
        & H1 & H3 & _ & _ & _).
  assert (Hsc : ∃ s, shortflux_corrected shortflux satellite !! i = Some s
                     ∧ (nonpos y = true → nonpos s = true)).
  { destruct (shortflux_corrected shortflux satellite !! i) as [s|] eqn:Hs.
    - exists s. split; [reflexivity|]. intros Hy'.
      destruct (shortflux_corrected_nonpos shortflux satellite i y Hy Hy')
        as (s' & Hs' & Hn). congruence.
    - apply lookup_ge_None in Hs. rewrite shortflux_corrected_length in Hs.
      apply lookup_lt_Some in Hy. lia. }
  assert (Hlc : ∃ l, longflux_corrected longflux satellite date !! i = Some l
                     ∧ (nonpos x = true → nonpos l = true)).
  { destruct (longflux_corrected longflux satellite date !! i) as [l|] eqn:Hlo.
    - exists l. split; [reflexivity|]. intros Hx'.
      destruct (longflux_corrected_nonpos longflux satellite date i x Hx Hx')
        as (l' & Hl' & Hn). congruence.
    - apply lookup_ge_None in Hlo. rewrite longflux_corrected_length in Hlo.
      apply lookup_lt_Some in Hx. lia. }
  destruct Hsc as (s & Hs & Hsn), Hlc as (l & Hlo & Hln).
  rewrite (Hmask i s l Hs Hlo), H1, H3.
  destruct Hneg as [Hx'|Hy'].
  - rewrite (ltb_nonpos_positive l _ _ (Hln Hx')), orb_true_r. reflexivity.
  - rewrite (ltb_nonpos_positive s _ _ (Hsn Hy')). reflexivity.
Qed.

(** ** Missing samples *)

Section MissingSamples.
Context `{External} `{!NanPropagates}.

Lemma chianti_temp_Ok ratio satellite abundances temp :
  _goes_get_chianti_temp ratio satellite abundances = Ok temp →
  ∃ x y spline,
    splrep x y = Ok spline ∧ temp = np_power10 <$> splev ratio spline.
Proof.
  unfold _goes_get_chianti_temp. intros Hrun.
  apply bind_Ok in Hrun as (? & _ & Hrun).
  apply bind_Ok in Hrun as (? & _ & Hrun).
  apply bind_Ok in Hrun as (file & _ & Hrun).
  apply bind_Ok in Hrun as ([modeltemp modelratio] & _ & Hrun).
  apply bind_Ok in Hrun as (outside & _ & Hrun).
  apply bind_Ok in Hrun as (? & _ & Hrun).
  apply bind_Ok in Hrun as (spline & Hspline & Hrun).
  injection Hrun as <-. eauto.
Qed.

Lemma chianti_em_nan_never_Ok longflux temp satellite abundances :
  S754_nan ∈ temp →
  is_Ok (_goes_get_chianti_em longflux temp satellite abundances) = false.
Proof.
  intros Hin.
  assert (Hnan : S754_nan ∈ (np_log10 <$> temp)).
  { apply list_elem_of_fmap. exists S754_nan.
    split; [symmetry; apply log10_of_nan | exact Hin]. }
  unfold _goes_get_chianti_em.
  destruct (py_int satellite); [|reflexivity]. simpl.
  destruct (raise_if (sat_ltb satellite 1) _); [|reflexivity]. simpl.
  destruct (abundance_file abundances _ _) as [file'|]; [|reflexivity].
  simpl.
  destruct (raise_if (negb _) TempLengthMismatch); [|reflexivity]. simpl.
  destruct (load_table file' _) as [[mt mf]|]; [|reflexivity]. simpl.
  destruct (outside_table _ mt) as [[]|]; try reflexivity. simpl.
  rewrite (min_nan _ Hnan). reflexivity.
Qed.

(** X13: one sample whose ratio is NaN and is not masked (a missing
    value in either channel, say) makes the whole call of
    [goes_chianti_tem] fail: the temperature lookup lets the NaN
    through, the temperature at that position is NaN, and the emission
    measure lookup refuses the array.  No temperatures are returned for
    the other samples either. *)
Theorem unmasked_nan_ratio_aborts
    (longflux shortflux : list float) (satellite : pysat) (date : datetime)
    (abundances : string) (i : nat) (s l : float) :
  shortflux_corrected shortflux satellite !! i = Some s →
  longflux_corrected longflux satellite date !! i = Some l →
  F64.ltb s (F64.dec 1 10) = false → F64.ltb l (F64.dec 3 8) = false →
  F64.is_nan (F64.div s l) = true →
  is_Ok (goes_chianti_tem longflux shortflux satellite date abundances)
    = false.
Proof.
  intros Hs Hl Hms Hml Hnan.
  assert (Hpos : ∀ ratio temp,
      length longflux = length shortflux →
      fluxratio (shortflux_corrected shortflux satellite)
                (longflux_corrected longflux satellite date) = Ok ratio →
      _goes_get_chianti_temp ratio satellite abundances = Ok temp →
      ratio !! i = Some S754_nan ∧ temp !! i = Some S754_nan).
  { intros ratio temp Hlen Hratio Htemp.
    destruct (fluxratio_mask (shortflux_corrected shortflux satellite)
                (longflux_corrected longflux satellite date))
      as (ratio' & Hratio' & _ & Hmask).
    { rewrite shortflux_corrected_length, longflux_corrected_length.
      congruence. }
    assert (ratio' = ratio) as -> by congruence.
    assert (Hri : ratio !! i = Some S754_nan).
    { rewrite (Hmask i s l Hs Hl), Hms, Hml. simpl.
      destruct (F64.div s l); try discriminate. reflexivity. }
    split; [exact Hri|].
    destruct (chianti_temp_Ok _ _ _ _ Htemp) as (x & y & spline & Hfit & ->).
    unfold splev. rewrite !list_lookup_fmap, Hri. simpl.
    rewrite (splev1_of_nan _ _ _ Hfit), power10_of_nan. reflexivity. }
  unfold goes_chianti_tem.
  destruct (py_int satellite); [|reflexivity]. simpl.
  destruct (raise_if (sat_ltb satellite 1) _); [|reflexivity]. simpl.
  destruct (Nat.eqb_spec (length longflux) (length shortflux)) as [Hlen|];
    [|reflexivity]. simpl.
  destruct (fluxratio _ _) as [ratio|]; [|reflexivity]. simpl.
  destruct (_goes_get_chianti_temp _ _ _) as [temp|] eqn:Htemp;
    [|reflexivity]. simpl.
  destruct (Hpos ratio temp Hlen eq_refl Htemp) as [_ Hti].
  pose proof (chianti_em_nan_never_Ok
                (longflux_corrected longflux satellite date) temp
                satellite abundances
                (list_elem_of_lookup_2 _ _ _ Hti)) as Hem.
  destruct (_goes_get_chianti_em _ _ _ _); [discriminate | reflexivity].
Qed.
End MissingSamples.

(** ** [temp_em] *)

Section TempEm.
Context `{External}.

Lemma temp_em_Ok (h h' : gmap nat pyobj) (goeslc new : nat) abundances :
  temp_em h goeslc abundances = Ok (h', new) →
  ∃ data meta xrsb xrsa telescop word date temp em,
    h !! goeslc = Some (GOESLightCurve data meta)
    ∧ df_columns data !! "xrsb" = Some xrsb
    ∧ df_columns data !! "xrsa" = Some xrsa
    ∧ meta !! "TELESCOP" = Some telescop
    ∧ py_split telescop !! 1 = Some word
    ∧ df_index data !! 0 = Some date
    ∧ goes_chianti_tem xrsb xrsa (SatStr word) date abundances = Ok (temp, em)
    ∧ new = fresh (dom h)
    ∧ h' = <[new := GOESLightCurve
                      (df_set (df_set data "temperature" temp) "em" em) meta]>
             (<[new := GOESLightCurve data meta]> h).
Proof.
  unfold temp_em, check_lightcurve. intros Hrun.
  apply bind_Ok in Hrun as ([data meta] & Hlc & Hrun).
  apply bind_Ok in Hlc as (u & _ & Hlc).
  destruct (h !! goeslc) as [[data0 meta0|]|] eqn:Hobj; try discriminate.
  injection Hlc as -> ->.
  apply bind_Ok in Hrun as (xrsb & Hb & Hrun).
  apply bind_Ok in Hrun as (xrsa & Ha & Hrun).
  apply bind_Ok in Hrun as (telescop & Ht & Hrun).
  apply bind_Ok in Hrun as (satellite & Hw & Hrun).
  apply bind_Ok in Hrun as (date & Hd & Hrun).
  apply bind_Ok in Hrun as ([temp em] & Htem & Hrun).
  unfold deepcopy in Hrun. injection Hrun as <- <-.
  unfold df_attr in Hb, Ha.
  destruct (df_columns data !! "xrsb") as [b|] eqn:Hb'; try discriminate.
  destruct (df_columns data !! "xrsa") as [a|] eqn:Ha'; try discriminate.
  destruct (meta !! "TELESCOP") as [t|] eqn:Ht'; try discriminate.
  destruct (py_split telescop !! 1) as [w|] eqn:Hw'; try discriminate.
  destruct (df_index data !! 0) as [d|] eqn:Hd'; try discriminate.
  simplify_eq.
  exists data, meta, xrsb, xrsa, telescop, w, date, temp, em.
  rewrite Hw'. repeat (split; [first [assumption | reflexivity]|]).
  reflexivity.
Qed.

(** X14: [temp_em] hands back a new lightcurve and changes nothing the
    caller holds: the new object sits at an address that was not in
    use, every other object, the argument included, is as before, and
    the new lightcurve has the header and the time index of the
    argument and its columns plus ["temperature"] and ["em"], which
    are as long as the flux columns. *)
Theorem temp_em_copies (h h' : gmap nat pyobj) (goeslc new : nat) abundances :
  temp_em h goeslc abundances = Ok (h', new) →
  h !! new = None
  ∧ (∀ l, l ≠ new → h' !! l = h !! l)
  ∧ ∃ data meta xrsb temp em,
      h !! goeslc = Some (GOESLightCurve data meta)
      ∧ h' !! goeslc = Some (GOESLightCurve data meta)
      ∧ h' !! new = Some (GOESLightCurve
                            (DataFrame (df_index data)
                               (<["em" := em]>
                                (<["temperature" := temp]> (df_columns data))))
                            meta)
      ∧ df_columns data !! "xrsb" = Some xrsb
      ∧ length temp = length xrsb ∧ length em = length xrsb.
Proof.
  intros Hrun.
  destruct (temp_em_Ok _ _ _ _ _ Hrun)
    as (data & meta & xrsb & xrsa & telescop & word & date & temp & em
        & Hobj & Hb & Ha & Ht & Hw & Hd & Htem & -> & ->).
  assert (Hfresh : h !! fresh (dom h) = None)
    by (apply not_elem_of_dom, is_fresh).
  assert (Hne : fresh (dom h) ≠ goeslc) by congruence.
  split; [exact Hfresh|]. split.
  { intros l Hl. rewrite !lookup_insert_ne by congruence. reflexivity. }
  exists data, meta, xrsb, temp, em.
  split; [exact Hobj|]. split.
  { rewrite !lookup_insert_ne by congruence. exact Hobj. }
  split; [apply lookup_insert_eq|]. split; [exact Hb|].
  destruct (goes_chianti_tem_lengths _ _ _ _ _ _ _ Htem) as (? & ? & ?). lia.
Qed.

(** X15: [temp_em] passes the satellite as the string it reads in the
    header, and Python 2 orders every string above every number: for
    every satellite number in the header and every date, GOES 6 and 7
    included, the long flux is divided by 0.7 and the short flux by
    0.85 before the ratio is taken, and the pre-1983 factor of GOES 6
    is never applied.  The columns written are the lookups on these
    divided fluxes. *)
Theorem temp_em_divides_for_every_satellite
    (h h' : gmap nat pyobj) (goeslc new : nat) abundances :
  temp_em h goeslc abundances = Ok (h', new) →
  ∃ data meta xrsb xrsa telescop word ratio temp em,
    h !! goeslc = Some (GOESLightCurve data meta)
    ∧ df_columns data !! "xrsb" = Some xrsb
    ∧ df_columns data !! "xrsa" = Some xrsa
    ∧ meta !! "TELESCOP" = Some telescop
    ∧ py_split telescop !! 1 = Some word
    ∧ fluxratio ((λ x, F64.div x (F64.dec 85 2)) <$> xrsa)
                ((λ x, F64.div x (F64.dec 7 1)) <$> xrsb) = Ok ratio
    ∧ _goes_get_chianti_temp ratio (SatStr word) abundances = Ok temp
    ∧ _goes_get_chianti_em ((λ x, F64.div x (F64.dec 7 1)) <$> xrsb) temp
                           (SatStr word) abundances = Ok em
    ∧ h' !! new = Some (GOESLightCurve
                          (df_set (df_set data "temperature" temp) "em" em)
                          meta).
Proof.
  intros Hrun.
  destruct (temp_em_Ok _ _ _ _ _ Hrun)
    as (data & meta & xrsb & xrsa & telescop & word & date & temp & em
        & Hobj & Hb & Ha & Ht & Hw & Hd & Htem & -> & ->).
  unfold goes_chianti_tem in Htem.
  apply bind_Ok in Htem as (? & _ & Htem).
  apply bind_Ok in Htem as (? & _ & Htem).
  apply bind_Ok in Htem as (? & _ & Htem).
  apply bind_Ok in Htem as (ratio & Hratio & Htem).
  apply bind_Ok in Htem as (temp' & Htemp & Htem).
  apply bind_Ok in Htem as (em' & Hem & Htem).
  injection Htem as -> ->.
  unfold longflux_corrected, shortflux_corrected in *.
  cbn [sat_gtb sat_eqb] in *. rewrite andb_false_r in *.
  exists data, meta, xrsb, xrsa, telescop, word, ratio, temp, em.
  repeat (split; [assumption|]). apply lookup_insert_eq.
Qed.

(** X16: what [temp_em] raises on an argument it cannot use, in the
    order of the tests: a TypeError for anything but a GOESLightCurve,
    an AttributeError for a missing flux column, a KeyError for a
    header without [TELESCOP], an IndexError for a [TELESCOP] of fewer
    than two words or an empty time index, and the ValueError of
    [int()] for a second word that is no number.  No reference table
    is read on any of these paths. *)
Theorem temp_em_input_errors (h : gmap nat pyobj) (goeslc : nat) abundances :
  ((∀ data meta, h !! goeslc ≠ Some (GOESLightCurve data meta)) →
   temp_em h goeslc abundances = Raise NotGOESLightCurve)
  ∧ ∀ data meta, h !! goeslc = Some (GOESLightCurve data meta) →
    (df_columns data !! "xrsb" = None →
     temp_em h goeslc abundances = Raise (AttributeMissing "xrsb"))
    ∧ ∀ xrsb, df_columns data !! "xrsb" = Some xrsb →
    (df_columns data !! "xrsa" = None →
     temp_em h goeslc abundances = Raise (AttributeMissing "xrsa"))
    ∧ ∀ xrsa, df_columns data !! "xrsa" = Some xrsa →
    (meta !! "TELESCOP" = None →
     temp_em h goeslc abundances = Raise (ColumnMissing "TELESCOP"))
    ∧ ∀ telescop, meta !! "TELESCOP" = Some telescop →
    (length (py_split telescop) < 2 →
     temp_em h goeslc abundances = Raise IndexOutOfRange)
    ∧ ∀ word, py_split telescop !! 1 = Some word →
    (df_index data = [] →
     temp_em h goeslc abundances = Raise IndexOutOfRange)
    ∧ (df_index data ≠ [] → is_int_literal word = false →
       temp_em h goeslc abundances = Raise SatelliteNotNumeric).
Proof.
  unfold temp_em, check_lightcurve. rewrite load_global_lightcurve.
  cbn [bind]. split.
  { intros Hno. destruct (h !! goeslc) as [[data meta|]|]; try reflexivity.
    destruct (Hno data meta eq_refl). }
  intros data meta ->. cbn [bind]. unfold df_attr. split.
  { intros ->. reflexivity. }
  intros xrsb ->. cbn [bind]. split.
  { intros ->. reflexivity. }
  intros xrsa ->. cbn [bind]. split.
  { intros ->. reflexivity. }
  intros telescop ->. cbn [bind]. split.
  { intros Hlen. rewrite (proj2 (lookup_ge_None _ _)) by lia. reflexivity. }
  intros word ->. cbn [bind]. split.
  { intros ->. reflexivity. }
  intros Hidx Hword. destruct (df_index data) as [|d r]; [congruence|].
  cbn [lookup list_lookup bind]. simpl.
  unfold goes_chianti_tem. cbn [py_int]. rewrite Hword. reflexivity.
Qed.
End TempEm.

(** ** The tests on the arguments of [goes_chianti_tem] *)

Section Validation.
Context `{External}.

(** X17: the argument tests of [goes_chianti_tem], in the order they
    fire and whatever the reference files hold: a satellite number
    below 1 is refused first, then flux arrays of different lengths,
    then an [abundances] string other than ["coronal"] and
    ["photospheric"]; a satellite given as text that is no number is
    refused by [int()]. *)
Theorem goes_chianti_tem_argument_tests
    (longflux shortflux : list float) (date : datetime) (abundances : string) :
  (∀ n, (n < 1)%Z →
     goes_chianti_tem longflux shortflux (SatInt n) date abundances
       = Raise SatelliteInvalid)
  ∧ (∀ word, is_int_literal word = false →
       goes_chianti_tem longflux shortflux (SatStr word) date abundances
         = Raise SatelliteNotNumeric)
  ∧ (∀ n, (1 ≤ n)%Z → length longflux ≠ length shortflux →
       goes_chianti_tem longflux shortflux (SatInt n) date abundances
         = Raise FluxLengthMismatch)
  ∧ (∀ n, (1 ≤ n)%Z → length longflux = length shortflux →
       abundances ≠ "coronal" → abundances ≠ "photospheric" →
       goes_chianti_tem longflux shortflux (SatInt n) date abundances
         = Raise AbundancesInvalid).
Proof.
  split; [|split; [|split]].
  - intros n Hn. unfold goes_chianti_tem. cbn [py_int bind sat_ltb].
    destruct (Z.ltb_spec n 1); [reflexivity | lia].
  - intros word Hword. unfold goes_chianti_tem. cbn [py_int].
    rewrite Hword. reflexivity.
  - intros n Hn Hlen. unfold goes_chianti_tem. cbn [py_int bind sat_ltb].
    destruct (Z.ltb_spec n 1); [lia|]. cbn [raise_if bind].
    destruct (Nat.eqb_spec (length longflux) (length shortflux));
      [contradiction | reflexivity].
  - intros n Hn Hlen Hcor Hpho.
    rewrite goes_chianti_tem_eq by assumption.
    destruct (fluxratio_mask (shortflux_corrected shortflux (SatInt n))
                (longflux_corrected longflux (SatInt n) date))
      as (ratio & -> & _).
    { rewrite shortflux_corrected_length, longflux_corrected_length.
      congruence. }
    cbn [bind]. unfold _goes_get_chianti_temp. cbn [py_int bind sat_ltb].
    destruct (Z.ltb_spec n 1); [lia|]. cbn [raise_if bind].
    unfold abundance_file.
    destruct (String.eqb_spec abundances "coronal"); [contradiction|].
    destruct (String.eqb_spec abundances "photospheric"); [contradiction|].
    reflexivity.
Qed.
End Validation.

(** ** Further runs on the in-memory environment *)

Lemma fixture_line_nan p q : Fixture.line p q S754_nan = S754_nan.
Proof.
  unfold Fixture.line, F64.add, F64.div, F64.mul, F64.sub.
  destruct (SFsub _ _ (snd q) (snd p)), (snd p); reflexivity.
Qed.

Lemma fixture_eval_nan knots :
  2 ≤ length knots → Fixture.eval knots S754_nan = S754_nan.
Proof.
  induction knots as [|p [|q r] IH]; simpl; intros Hlen; try lia.
  destruct r as [|r0 r]; [apply fixture_line_nan|].
  apply IH. simpl. lia.
Qed.

#[export] Instance fixture_nan_propagates : NanPropagates (H := Fixture.env).
Proof.
  split; [reflexivity | reflexivity |].
  intros x y spline. simpl. unfold Fixture.fit.
  destruct (Nat.eqb_spec (length x) (length y)) as [Hxy|]; [|discriminate].
  destruct (Nat.leb_spec 4 (length x)) as [Hx|]; [|discriminate].
  destruct (Fixture.ascending x); [|discriminate]. simpl.
  intros Hfit. injection Hfit as <-.
  apply fixture_eval_nan. rewrite length_zip. lia.
Qed.

(** Three samples with their timestamps through [calc_rad_loss]. *)
Lemma rad_loss_cumul_is_running_sum_witness :
  ∃ out rate dt prod cumul,
    calc_rad_loss (H := Fixture.env) Sample.temp Sample.em
      (Some Sample.obstime) true = Ok out
    ∧ radiative_loss_rates (H := Fixture.env) Sample.temp Sample.em = Ok rate
    ∧ _time_intervals Sample.obstime = Ok dt
    ∧ np.multiply rate dt = Ok prod
    ∧ out !! "rad_loss_cumul" = Some (VArr cumul)
    ∧ length cumul = 3
    ∧ ∀ i, i < 3 → cumul !! i = Some (Fixture.sum (take (i + 1) prod)).
Proof.
  destruct (is_Ok_true (calc_rad_loss (H := Fixture.env) Sample.temp
                          Sample.em (Some Sample.obstime) true))
    as [out Hrun]; [vm_compute; reflexivity|].
  destruct (rad_loss_cumul_is_running_sum (H := Fixture.env) _ _ _ _ Hrun)
    as (rate & dt & prod & cumul & H1 & H2 & H3 & H4 & H5 & H6).
  exists out, rate, dt, prod, cumul. repeat split; assumption.
Defined.

(** The same samples through [goes_lx]. *)
Lemma lx_cumul_is_running_sum_witness :
  ∃ out dt lprod sprod lcumul scumul,
    goes_lx (H := Fixture.env) Sample.longflux Sample.shortflux
      (Some Sample.obstime) None true = Ok out
    ∧ _time_intervals Sample.obstime = Ok dt
    ∧ np.multiply (_calc_xraylum (H := Fixture.env) Sample.longflux None) dt
      = Ok lprod
    ∧ np.multiply (_calc_xraylum (H := Fixture.env) Sample.shortflux None) dt
      = Ok sprod
    ∧ out !! "longlum_cumul" = Some (VArr lcumul)
    ∧ out !! "shortlum_cumul" = Some (VArr scumul)
    ∧ length lcumul = 3
    ∧ length scumul = 3
    ∧ ∀ i, i < 3 →
        lcumul !! i = Some (Fixture.sum (take (i + 1) lprod))
        ∧ scumul !! i = Some (Fixture.sum (take (i + 1) sprod)).
Proof.
  destruct (is_Ok_true (goes_lx (H := Fixture.env) Sample.longflux
                          Sample.shortflux (Some Sample.obstime) None true))
    as [out Hrun]; [vm_compute; reflexivity|].
  destruct (lx_cumul_is_running_sum (H := Fixture.env) _ _ _ _ _ Hrun)
    as (dt & lprod & sprod & lcumul & scumul
        & H1 & H2 & H3 & H4 & H5 & H6 & H7 & H8).
  exists out, dt, lprod, sprod, lcumul, scumul.
  repeat split; try assumption; apply H8; assumption.
Defined.

(** With timestamps and without cumulative sums, two keys come back. *)
Lemma calc_rad_loss_keys_witness :
  ∃ out rate,
    calc_rad_loss (H := Fixture.env) Sample.temp Sample.em
      (Some Sample.obstime) false = Ok out
    ∧ radiative_loss_rates (H := Fixture.env) Sample.temp Sample.em = Ok rate
    ∧ out !! "rad_loss_rate" = Some (VArr rate)
    ∧ dom out = {[ "rad_loss_rate"; "rad_loss_int" ]}.
Proof.
  destruct (is_Ok_true (calc_rad_loss (H := Fixture.env) Sample.temp
                          Sample.em (Some Sample.obstime) false))
    as [out Hrun]; [vm_compute; reflexivity|].
  destruct (calc_rad_loss_keys (H := Fixture.env) _ _ _ _ _ Hrun)
    as ((rate & H1 & H2) & H3).
  exists out, rate. repeat split; assumption.
Defined.

(** Without timestamps only the luminosities come back. *)
Lemma goes_lx_keys_witness :
  ∃ out,
    goes_lx (H := Fixture.env) Sample.longflux Sample.shortflux
      None (Some Sample.date) false = Ok out
    ∧ out !! "longlum"
      = Some (VArr (_calc_xraylum (H := Fixture.env) Sample.longflux
                      (Some Sample.date)))
    ∧ out !! "shortlum"
      = Some (VArr (_calc_xraylum (H := Fixture.env) Sample.shortflux
                      (Some Sample.date)))
    ∧ dom out = {[ "longlum"; "shortlum" ]}.
Proof.
  destruct (is_Ok_true (goes_lx (H := Fixture.env) Sample.longflux
                          Sample.shortflux None (Some Sample.date) false))
    as [out Hrun]; [vm_compute; reflexivity|].
  destruct (goes_lx_keys (H := Fixture.env) _ _ _ _ _ _ Hrun)
    as (H1 & H2 & H3).
  exists out. repeat split; assumption.
Defined.

(** A ratio of -1 beside one inside the table. *)
Lemma chianti_temp_range_check_witness :
  _goes_get_chianti_temp (H := Fixture.env) [F64.dec 1 1; F64.of_Z (-1)]
    (SatInt 15) "coronal"
  = Raise FluxratioOutOfRange.
Proof.
  eapply eq_trans.
  - eapply (chianti_temp_range_check (H := Fixture.env)
              [F64.dec 1 1; F64.of_Z (-1)] 15 "coronal").
    + lia.
    + reflexivity.
    + vm_compute. reflexivity.
    + vm_compute. reflexivity.
    + vm_compute. reflexivity.
    + discriminate.
  - vm_compute. reflexivity.
Defined.

(** 200 MK beside two temperatures inside the table. *)
Lemma chianti_em_range_check_witness :
  _goes_get_chianti_em (H := Fixture.env) Sample.longflux
    [F64.of_Z 11; F64.of_Z 200; F64.of_Z 12] (SatInt 15) "coronal"
  = Raise TempOutOfRange.
Proof.
  eapply eq_trans.
  - eapply (chianti_em_range_check (H := Fixture.env) Sample.longflux
              [F64.of_Z 11; F64.of_Z 200; F64.of_Z 12] 15 "coronal").
    + lia.
    + reflexivity.
    + reflexivity.
    + vm_compute. reflexivity.
    + vm_compute. reflexivity.
    + vm_compute. reflexivity.
    + discriminate.
  - vm_compute. reflexivity.
Defined.

(** 200 MK is beyond the loss rate table, with or without timestamps. *)
Lemma rad_loss_range_check_witness :
  radiative_loss_rates (H := Fixture.env) Sample.hot_temp Sample.em
    = Raise TempOutOfRange
  ∧ calc_rad_loss (H := Fixture.env) Sample.hot_temp Sample.em
      (Some Sample.obstime) true = Raise TempOutOfRange.
Proof.
  assert (Hw := λ H1 H2 H3 H4 H5,
            rad_loss_range_check (H := Fixture.env) Sample.hot_temp Sample.em
              Fixture.rad_rows
              ((λ row, default F64.nan (row !! 0)) <$> Fixture.rad_rows)
              ((λ row, default F64.nan (row !! 1)) <$> Fixture.rad_rows)
              (F64.of_Z 1000000) (F64.of_Z 100000000) H1 H2 H3 H4 H5).
  cbv zeta in Hw.
  destruct Hw as [Hrates Hcalc].
  - reflexivity.
  - vm_compute. reflexivity.
  - vm_compute. reflexivity.
  - vm_compute. reflexivity.
  - discriminate.
  - split.
    + rewrite Hrates. vm_compute. reflexivity.
    + apply Hcalc. vm_compute. reflexivity.
Defined.

(** The sample fluxes of GOES 15 through [goes_chianti_tem]. *)
Lemma estimates_keep_length_witness :
  ∃ temp em,
    goes_chianti_tem (H := Fixture.env) Sample.longflux Sample.shortflux
      (SatInt 15) Sample.date "coronal" = Ok (temp, em)
    ∧ length temp = 3 ∧ length em = 3.
Proof.
  destruct (is_Ok_true (goes_chianti_tem (H := Fixture.env) Sample.longflux
                          Sample.shortflux (SatInt 15) Sample.date "coronal"))
    as [[temp em] Hrun]; [vm_compute; reflexivity|].
  destruct (estimates_keep_length (H := Fixture.env) _ _ _ _ _ _ _ Hrun)
    as (_ & H1 & H2).
  exists temp, em. repeat split; assumption.
Defined.

Lemma sample_obstime_in_range : Forall in_range Sample.obstime.
Proof. repeat constructor; unfold in_range; lia. Qed.

(** Timestamps at 0 s, 2 s and 6 s: weights of 1 s, 3 s and 2 s. *)
Lemma time_intervals_formula_witness :
  ∃ dt,
    _time_intervals Sample.obstime = Ok dt
    ∧ length dt = 3
    ∧ dt !! 0 = Some (ms_to_s 1000)
    ∧ dt !! 2 = Some (ms_to_s 2000)
    ∧ dt !! 1 = Some (ms_to_s 3000).
Proof.
  destruct (time_intervals_formula Sample.obstime)
    as (dt & H1 & H2 & H3 & H4 & H5).
  - simpl. lia.
  - exact sample_obstime_in_range.
  - exists dt. split; [exact H1|]. split; [exact H2|].
    split; [exact H3|]. split; [exact H4|].
    apply (H5 1 0%Z 6000%Z); [lia | simpl; lia | reflexivity | reflexivity].
Defined.

(** The same timestamps: the weights add up to the 6 s they span. *)
Lemma time_intervals_cover_span_witness :
  ∃ ticks,
    _time_intervals Sample.obstime = Ok (ms_to_s <$> ticks)
    ∧ foldr Z.add 0%Z ticks = 6000%Z.
Proof.
  destruct (time_intervals_cover_span Sample.obstime) as (ticks & H1 & H2).
  - simpl. lia.
  - exact sample_obstime_in_range.
  - intros a b Ha Hb. unfold Sample.obstime in Ha, Hb.
    rewrite !elem_of_cons in Ha, Hb.
    destruct Ha as [->|[->|[->|Ha]]]; [| | |inversion Ha];
      destruct Hb as [->|[->|[->|Hb]]]; try reflexivity; inversion Hb.
  - exists ticks. split; [exact H1 | exact H2].
Defined.

(** A zero and a negative short channel sample. *)
Lemma nonpositive_flux_is_masked_witness :
  ∃ ratio,
    fluxratio (shortflux_corrected Sample.dark_shortflux (SatInt 15))
              (longflux_corrected Sample.longflux (SatInt 15) Sample.date)
      = Ok ratio
    ∧ ratio !! 0 = Some (F64.dec 3 3)
    ∧ ratio !! 1 = Some (F64.dec 3 3).
Proof.
  destruct (nonpositive_flux_is_masked Sample.longflux Sample.dark_shortflux
              (SatInt 15) Sample.date eq_refl) as (ratio & H1 & _ & H2).
  exists ratio. split; [exact H1|]. split.
  - eapply (H2 0); [reflexivity | reflexivity | right; vm_compute; reflexivity].
  - eapply (H2 1); [reflexivity | reflexivity | right; vm_compute; reflexivity].
Defined.

(** A long channel record with a gap. *)
Lemma unmasked_nan_ratio_aborts_witness :
  is_Ok (goes_chianti_tem (H := Fixture.env) Sample.gappy_longflux
           Sample.shortflux (SatInt 15) Sample.date "coronal") = false.
Proof.
  eapply (unmasked_nan_ratio_aborts (H := Fixture.env)
            Sample.gappy_longflux Sample.shortflux (SatInt 15) Sample.date
            "coronal" 1).
  - vm_compute. reflexivity.
  - vm_compute. reflexivity.
  - vm_compute. reflexivity.
  - vm_compute. reflexivity.
  - vm_compute. reflexivity.
Defined.

(** The sample lightcurve through [temp_em]. *)
Lemma temp_em_copies_witness :
  ∃ h' new data meta temp em,
    temp_em (H := Fixture.env) Sample.store 0 "coronal" = Ok (h', new)
    ∧ Sample.store !! new = None
    ∧ Sample.store !! 0 = Some (GOESLightCurve data meta)
    ∧ h' !! 0 = Some (GOESLightCurve data meta)
    ∧ h' !! new = Some (GOESLightCurve
                          (DataFrame (df_index data)
                             (<["em" := em]>
                              (<["temperature" := temp]> (df_columns data))))
                          meta)
    ∧ length temp = 3 ∧ length em = 3.
Proof.
  destruct (is_Ok_true (temp_em (H := Fixture.env) Sample.store 0 "coronal"))
    as [[h' new] Hrun]; [vm_compute; reflexivity|].
  destruct (temp_em_copies (H := Fixture.env) _ _ _ _ _ Hrun)
    as (H1 & _ & data & meta & xrsb & temp & em & H2 & H3 & H4 & H5 & H6 & H7).
  exists h', new, data, meta, temp, em.
  assert (xrsb = Sample.longflux) as ->.
  { assert (Hd : data = match Sample.lightcurve with
                        | GOESLightCurve d _ => d
                        | _ => data end).
    { unfold Sample.store in H2. rewrite lookup_insert_eq in H2.
      injection H2 as <- _. reflexivity. }
    rewrite Hd in H5. simpl in H5. rewrite lookup_insert_eq in H5.
    congruence. }
  repeat split; assumption.
Defined.

Lemma temp_em_divides_for_every_satellite_witness :
  ∃ h' new ratio temp em,
    temp_em (H := Fixture.env) Sample.store 0 "coronal" = Ok (h', new)
    ∧ fluxratio ((λ x, F64.div x (F64.dec 85 2)) <$> Sample.shortflux)
                ((λ x, F64.div x (F64.dec 7 1)) <$> Sample.longflux)
      = Ok ratio
    ∧ _goes_get_chianti_temp (H := Fixture.env) ratio (SatStr "15") "coronal"
      = Ok temp
    ∧ _goes_get_chianti_em (H := Fixture.env)
        ((λ x, F64.div x (F64.dec 7 1)) <$> Sample.longflux) temp
        (SatStr "15") "coronal" = Ok em.
Proof.
  destruct (is_Ok_true (temp_em (H := Fixture.env) Sample.store 0 "coronal"))
    as [[h' new] Hrun]; [vm_compute; reflexivity|].
  destruct (temp_em_divides_for_every_satellite (H := Fixture.env)
              _ _ _ _ _ Hrun)
    as (data & meta & xrsb & xrsa & telescop & word & ratio & temp & em
        & H1 & H2 & H3 & H4 & H5 & H6 & H7 & H8 & H9).
  unfold Sample.store in H1. rewrite lookup_insert_eq in H1.
  unfold Sample.lightcurve in H1. injection H1 as <- <-.
  simpl in H2, H3. rewrite lookup_insert_eq in H2.
  rewrite lookup_insert_ne, lookup_insert_eq in H3 by discriminate.
  rewrite lookup_insert_eq in H4.
  injection H2 as <-. injection H3 as <-. injection H4 as <-.
  assert (word = "15") as ->.
  { vm_compute in H5. congruence. }
  exists h', new, ratio, temp, em. repeat split; assumption.
Defined.
